(** * kmsg-mcp: a verified model of the MCP stdio bridge [tools/kmsg-mcp.py]

    The development embeds the Python module as Rocq definitions that keep
    the source's names, and proves the properties the design document
    states about it.

    Conventions of the embedding.
    - A Python [str] and a Python [bytes] are both a [string]: the text is
      represented by its UTF-8 encoding, and a lone surrogate, which a
      [str] can hold and UTF-8 cannot, by the three bytes ED A0..BF 80..BF.
      [str.encode] is the identity on a text without a surrogate and raises
      on a text with one; [bytes.decode] is the identity on well-formed
      UTF-8 and raises on anything else.  Substring tests with the needles
      of the source are the same on code points and on UTF-8 bytes.
    - A Python [int] is a [Z].  A reading of the clock is the rational the
      operating system gives; the latency is computed from two readings in
      binary64, as the source computes it.  A time limit is a rational.
    - A decoded JSON document is a [json] tree; a Python [dict] is an
      association list in insertion order.
    - What the interpreter's library does and the development does not
      embed is a parameter, a [PyRuntime]: the [repr] of floats and
      strings, the JSON decoder with its three outcomes (a document,
      [JSONDecodeError], another exception), [int()] of a [str] outside the
      ASCII numerals within the digit limit, which are embedded, and the
      texts of the codec's errors.
    - Everything the module does to the outside world (starting a process,
      waiting for it, killing it, reading the clock, looking at the file
      system) is an operation of the free monad [prog]; an operating system
      is a handler [OS], and [exec] runs a program against it and records
      the operations performed.  A handler answers every operation: a wait
      that never returns is outside the model, and the trace says which
      waits have no limit.
    - The session flags of the server object are passed explicitly; the
      standard input is the text still to be read.
    - The tools and the dispatcher take the result of the start-up
      discovery, a [Config]; the discovery itself ([_resolve_kmsg_bin],
      [_resolve_server_version]) is a function of what the constructors
      read, a [Startup].
    - The loop [serve_forever] is [serve_loop] with as many turns as the
      input can need: a [Server] holds the session, the input still to be
      read and the output written so far, and an [ending] says whether the
      loop returned or an exception left it.  Writing bytes to standard
      output is taken to succeed; encoding them may raise. *)

From Stdlib Require Import ZArith QArith List Bool Ascii String Lia.
From Stdlib Require Import Numbers.DecimalString Numbers.DecimalZ.
From Stdlib Require Import Floats.SpecFloat.
Import ListNotations.

Local Open Scope Z_scope.
Local Open Scope list_scope.
Local Open Scope string_scope.

Set Warnings "-register-all".

Set Implicit Arguments.

(** ** Part I. Text *)

Module Text.

Definition byte_string (codes : list nat) : string :=
  string_of_list_ascii (map ascii_of_nat codes).

Definition NL : string := byte_string [10%nat].
Definition CRLF : string := byte_string [13%nat; 10%nat].
Definition DQUOTE : string := byte_string [34%nat].

Definition is_upper (c : ascii) : bool :=
  (65 <=? nat_of_ascii c)%nat && (nat_of_ascii c <=? 90)%nat.

Definition lower_char (c : ascii) : ascii :=
  if is_upper c then ascii_of_nat (nat_of_ascii c + 32) else c.

(** [str.lower()].  On the UTF-8 representation only the ASCII capitals
    change; the capitals outside ASCII that Python maps as well never lower
    to a sequence that completes one of the needles of the classifier. *)
Fixpoint lower (s : string) : string :=
  match s with
  | EmptyString => EmptyString
  | String c s' => String (lower_char c) (lower s')
  end.

(** [needle in s]. *)
Fixpoint contains (needle s : string) : bool :=
  prefix needle s ||
  match s with
  | EmptyString => false
  | String _ s' => contains needle s'
  end.

Fixpoint drop (n : nat) (s : string) : string :=
  match n, s with
  | O, _ => s
  | S n', String _ s' => drop n' s'
  | S _, EmptyString => EmptyString
  end.

Fixpoint take (n : nat) (s : string) : string :=
  match n, s with
  | S n', String c s' => String c (take n' s')
  | _, _ => EmptyString
  end.

Fixpoint rev_acc (s acc : string) : string :=
  match s with
  | EmptyString => acc
  | String c s' => rev_acc s' (String c acc)
  end.

Definition rev (s : string) : string := rev_acc s EmptyString.

(** The white space of [str.strip()], [str.isspace()] code points in
    UTF-8: U+0009..U+000D, U+001C..U+0020, U+0085, U+00A0, U+1680,
    U+2000..U+200A, U+2028, U+2029, U+202F, U+205F, U+3000. *)
Definition whitespace : list string :=
  map byte_string
    ([[9]; [10]; [11]; [12]; [13]; [28]; [29]; [30]; [31]; [32];
      [194; 133]; [194; 160]; [225; 154; 128];
      [226; 128; 128]; [226; 128; 129]; [226; 128; 130]; [226; 128; 131];
      [226; 128; 132]; [226; 128; 133]; [226; 128; 134]; [226; 128; 135];
      [226; 128; 136]; [226; 128; 137]; [226; 128; 138];
      [226; 128; 168]; [226; 128; 169]; [226; 128; 175];
      [226; 129; 159]; [227; 128; 128]])%nat.

Fixpoint match_any (pats : list string) (s : string) : option nat :=
  match pats with
  | [] => None
  | p :: pats' => if prefix p s then Some (String.length p) else match_any pats' s
  end.

Fixpoint drop_while (pats : list string) (fuel : nat) (s : string) : string :=
  match fuel with
  | O => s
  | S fuel' =>
      match match_any pats s with
      | Some n => drop_while pats fuel' (drop n s)
      | None => s
      end
  end.

Definition lstrip (s : string) : string :=
  drop_while whitespace (String.length s) s.

Definition rstrip (s : string) : string :=
  rev (drop_while (map rev whitespace) (String.length s) (rev s)).

(** [str.strip()]. *)
Definition strip (s : string) : string := rstrip (lstrip s).

(** [sep.join(parts)]. *)
Fixpoint join (sep : string) (parts : list string) : string :=
  match parts with
  | [] => EmptyString
  | [p] => p
  | p :: rest => p ++ sep ++ join sep rest
  end.

(** [s.partition(":")]: the text before the first colon, whether there is
    one, and the text after it. *)
Fixpoint partition_colon (s : string) : string * bool * string :=
  match s with
  | EmptyString => (EmptyString, false, EmptyString)
  | String c s' =>
      if Ascii.eqb c ":"%char then (EmptyString, true, s')
      else let '(k, sep, v) := partition_colon s' in (String c k, sep, v)
  end.

(** [str(n)] for an [int]. *)
Definition str_of_Z (z : Z) : string := NilZero.string_of_int (Z.to_int z).

Definition is_digit (c : ascii) : bool :=
  (48 <=? nat_of_ascii c)%nat && (nat_of_ascii c <=? 57)%nat.

(** Digits with single underscores between them, as [int()] accepts. *)
Fixpoint digits_ok (prev_digit : bool) (s : string) : bool :=
  match s with
  | EmptyString => prev_digit
  | String c s' =>
      if is_digit c then digits_ok true s'
      else if Ascii.eqb c "_"%char then prev_digit && digits_ok false s'
      else false
  end.

Fixpoint remove_underscores (s : string) : string :=
  match s with
  | EmptyString => EmptyString
  | String c s' =>
      if Ascii.eqb c "_"%char then remove_underscores s'
      else String c (remove_underscores s')
  end.

(** The most digits [int()] reads and [str()] writes for an [int]
    ([sys.get_int_max_str_digits()]). *)
Definition MAX_STR_DIGITS : nat := 4300.

Definition unsigned_of_text (s : string) : option Z :=
  if digits_ok false s
     && (String.length (remove_underscores s) <=? MAX_STR_DIGITS)%nat then
    option_map (fun d => Z.of_N (N.of_uint d))
               (NilEmpty.uint_of_string (remove_underscores s))
  else None.

(** The numerals of [int(s)] in base ten that are written with ASCII
    digits: surrounding white space, an optional sign, digits with single
    underscores between them, no more digits than the limit.  [Some z]:
    [int(s)] is [z].  [None]: the text is not such a numeral; [int()] then
    raises [ValueError], or reads the decimal digits of another script,
    which is the runtime's to say ([int_of_str] below). *)
Definition int_of_text (s : string) : option Z :=
  match strip s with
  | String "-"%char body => option_map Z.opp (unsigned_of_text body)
  | String "+"%char body => unsigned_of_text body
  | body => unsigned_of_text body
  end.

(** A [str] may hold a lone surrogate (the decoder of JSON makes one of
    the escape [\ud800]); in the representation it is the three bytes
    that [encode("utf-8", "surrogatepass")] gives, ED, then A0..BF, then a
    continuation byte.  [has_surrogate s]: some character of [s] is
    one. *)
Fixpoint surrogate_after (after_ed : bool) (s : string) : bool :=
  match s with
  | EmptyString => false
  | String c s' =>
      let b := nat_of_ascii c in
      (after_ed && (160 <=? b)%nat && (b <=? 191)%nat)
      || surrogate_after (b =? 237)%nat s'
  end.

Definition has_surrogate (s : string) : bool := surrogate_after false s.

(** Well-formed UTF-8, as the strict decoder of [bytes.decode("utf-8")]
    accepts it: [need] continuation bytes are still due, the next of them
    between [lo] and [hi]. *)
Fixpoint utf8_scan (need lo hi : nat) (s : string) : bool :=
  match s with
  | EmptyString => (need =? 0)%nat
  | String c s' =>
      let b := nat_of_ascii c in
      let within (low high : nat) := (low <=? b)%nat && (b <=? high)%nat in
      match need with
      | O =>
          if (b <=? 127)%nat then utf8_scan 0%nat 128%nat 191%nat s'
          else if within 194%nat 223%nat then utf8_scan 1%nat 128%nat 191%nat s'
          else if (b =? 224)%nat then utf8_scan 2%nat 160%nat 191%nat s'
          else if within 225%nat 236%nat || within 238%nat 239%nat
               then utf8_scan 2%nat 128%nat 191%nat s'
          else if (b =? 237)%nat then utf8_scan 2%nat 128%nat 159%nat s'
          else if (b =? 240)%nat then utf8_scan 3%nat 144%nat 191%nat s'
          else if within 241%nat 243%nat then utf8_scan 3%nat 128%nat 191%nat s'
          else if (b =? 244)%nat then utf8_scan 3%nat 128%nat 143%nat s'
          else false
      | S need' => within lo hi && utf8_scan need' 128%nat 191%nat s'
      end
  end.

Definition utf8_valid (s : string) : bool := utf8_scan 0%nat 128%nat 191%nat s.

End Text.
Import Text.

(** ** Part II. JSON values and the Python built-ins applied to them *)

(** What [json.loads] returns: [None], a [bool], an [int], a [float], a
    [str], a [list] or a [dict] with [str] keys. *)
Inductive json : Type :=
| JNull
| JBool (b : bool)
| JInt (z : Z)
| JFloat (f : spec_float)
| JStr (s : string)
| JArr (items : list json)
| JObj (fields : list (string * json)).

Definition JSONDict : Type := list (string * json).

(** [d.get(key)]. *)
Fixpoint dict_get (d : JSONDict) (key : string) : option json :=
  match d with
  | [] => None
  | (k, v) :: d' => if String.eqb k key then Some v else dict_get d' key
  end.

(** [d.get(key, default)]. *)
Definition get_or (d : JSONDict) (key : string) (default : json) : json :=
  match dict_get d key with
  | Some v => v
  | None => default
  end.

(** [d[key] = value]: an existing key keeps its place. *)
Fixpoint dict_set (d : JSONDict) (key : string) (value : json) : JSONDict :=
  match d with
  | [] => [(key, value)]
  | (k, v) :: d' =>
      if String.eqb k key then (k, value) :: d' else (k, v) :: dict_set d' key value
  end.

Inductive exc_class : Type :=
| OSError          (* OSError and its subclasses *)
| ValueError
| TypeError
| AttributeError
| OverflowError
| UnicodeEncodeError
| UnicodeDecodeError
| RecursionError.

Definition exc_class_eqb (a b : exc_class) : bool :=
  match a, b with
  | OSError, OSError | ValueError, ValueError | TypeError, TypeError
  | AttributeError, AttributeError | OverflowError, OverflowError
  | UnicodeEncodeError, UnicodeEncodeError | UnicodeDecodeError, UnicodeDecodeError
  | RecursionError, RecursionError => true
  | _, _ => false
  end.

(** A raised exception: the module's own [MCPError], or a built-in one
    with the text [str(exc)] gives. *)
Inductive exn : Type :=
| MCPError (code : Z) (message : string) (data : JSONDict)
| PyExc (cls : exc_class) (text : string).

Inductive outcome (A : Type) : Type :=
| Returned (a : A)
| Raised (e : exn).
Arguments Returned {A} a.
Arguments Raised {A} e.

(** What [json.loads] does with a text: it returns a value, raises
    [json.JSONDecodeError], or raises something else ([ValueError] for a
    numeral beyond the digit limit, [RecursionError] for a document nested
    too deep). *)
Inductive decoded : Type :=
| Decoded (v : json)
| NotJSON
| DecoderError (cls : exc_class) (text : string).

(** The parts of the Python runtime that are taken as given:
    - the [repr] of a [float] (never the empty text) and of a [str];
    - the JSON decoder;
    - [int(s)] for a [str]: the number, or the text of the [ValueError];
      on the numerals [int_of_text] reads it gives that number, the rest
      (the digits of other scripts, the wording of the error) is its own;
    - the texts of the errors of the UTF-8 codec. *)
Class PyRuntime : Type := {
  float_repr : spec_float -> string;
  float_repr_nonempty : forall f, float_repr f <> EmptyString;
  str_repr : string -> string;
  json_loads : string -> decoded;
  int_of_str : string -> Z + string;
  int_of_str_decimal : forall s z, int_of_text s = Some z -> int_of_str s = inl z;
  encode_error_text : string -> string;
  decode_error_text : string -> string
}.

(** [s.encode("utf-8")]: a lone surrogate cannot be encoded. *)
Definition encode_utf8 {rt : PyRuntime} (s : string) : outcome string :=
  if has_surrogate s then Raised (PyExc UnicodeEncodeError (encode_error_text s))
  else Returned s.

(** [b.decode("utf-8")]: the bytes must be well-formed UTF-8. *)
Definition decode_utf8 {rt : PyRuntime} (b : string) : outcome string :=
  if utf8_valid b then Returned b
  else Raised (PyExc UnicodeDecodeError (decode_error_text b)).

(** [bool(v)]. *)
Definition py_bool (v : json) : bool :=
  match v with
  | JNull => false
  | JBool b => b
  | JInt z => negb (z =? 0)%Z
  | JFloat (S754_zero _) => false
  | JFloat _ => true
  | JStr s => negb (String.eqb s EmptyString)
  | JArr items => match items with [] => false | _ => true end
  | JObj fields => match fields with [] => false | _ => true end
  end.

Definition py_type_name (v : json) : string :=
  match v with
  | JNull => "NoneType"
  | JBool _ => "bool"
  | JInt _ => "int"
  | JFloat _ => "float"
  | JStr _ => "str"
  | JArr _ => "list"
  | JObj _ => "dict"
  end.

(** [int(f)] for a finite [float]: truncation towards zero. *)
Definition trunc_finite (sign : bool) (m : positive) (e : Z) : Z :=
  let magnitude :=
    if (0 <=? e)%Z then Z.pos m * 2 ^ e else Z.pos m / 2 ^ (- e) in
  if sign then - magnitude else magnitude.

Section Builtins.
Context {rt : PyRuntime}.

(** [int(v)]. *)
Definition py_int (v : json) : outcome Z :=
  match v with
  | JBool b => Returned (if b then 1 else 0)
  | JInt z => Returned z
  | JFloat (S754_zero _) => Returned 0
  | JFloat (S754_finite s m e) => Returned (trunc_finite s m e)
  | JFloat (S754_infinity _) =>
      Raised (PyExc OverflowError "cannot convert float infinity to integer")
  | JFloat S754_nan =>
      Raised (PyExc ValueError "cannot convert float NaN to integer")
  | JStr s =>
      match int_of_str s with
      | inl z => Returned z
      | inr text => Raised (PyExc ValueError text)
      end
  | JNull | JArr _ | JObj _ =>
      Raised (PyExc TypeError
                ("int() argument must be a string, a bytes-like object or a real number, not '"
                 ++ py_type_name v ++ "'"))
  end.

(** [repr(v)]. *)
Fixpoint py_repr (v : json) : string :=
  match v with
  | JNull => "None"
  | JBool true => "True"
  | JBool false => "False"
  | JInt z => str_of_Z z
  | JFloat f => float_repr f
  | JStr s => str_repr s
  | JArr items => "[" ++ join ", " (map py_repr items) ++ "]"
  | JObj fields =>
      "{" ++ join ", " (map (fun kv => str_repr (fst kv) ++ ": " ++ py_repr (snd kv)) fields)
          ++ "}"
  end.

(** [str(v)]. *)
Definition py_str (v : json) : string :=
  match v with
  | JStr s => s
  | _ => py_repr v
  end.

End Builtins.

(** ** Part III. The JSON encoder ([json.dumps]) *)

Module Encoder.

Definition BACKSLASH : string := byte_string [92%nat].

Definition hex_digit (n : nat) : string :=
  String.substring n 1 "0123456789abcdef".

(** One character of a JSON string literal with [ensure_ascii=False]:
    the quote, the backslash and the controls below U+0020 are escaped. *)
Definition json_escape_char (c : ascii) : string :=
  let n := nat_of_ascii c in
  if (n =? 34)%nat then BACKSLASH ++ DQUOTE
  else if (n =? 92)%nat then BACKSLASH ++ BACKSLASH
  else if (n =? 8)%nat then BACKSLASH ++ "b"
  else if (n =? 12)%nat then BACKSLASH ++ "f"
  else if (n =? 10)%nat then BACKSLASH ++ "n"
  else if (n =? 13)%nat then BACKSLASH ++ "r"
  else if (n =? 9)%nat then BACKSLASH ++ "t"
  else if (n <? 32)%nat then
    BACKSLASH ++ "u00" ++ hex_digit (n / 16) ++ hex_digit (n mod 16)
  else String c EmptyString.

Fixpoint json_escape (s : string) : string :=
  match s with
  | EmptyString => EmptyString
  | String c s' => json_escape_char c ++ json_escape s'
  end.

Definition json_string (s : string) : string :=
  DQUOTE ++ json_escape s ++ DQUOTE.

Fixpoint insert_field (kv : string * json) (sorted : JSONDict) : JSONDict :=
  match sorted with
  | [] => [kv]
  | x :: rest =>
      if String.leb (fst kv) (fst x) then kv :: sorted
      else x :: insert_field kv rest
  end.

(** The document with the items of every [dict] in key order, as
    [sort_keys=True] visits them. *)
Fixpoint sort_keys (v : json) : json :=
  match v with
  | JArr items => JArr (map sort_keys items)
  | JObj fields =>
      JObj (fold_right insert_field []
              (map (fun kv => (fst kv, sort_keys (snd kv))) fields))
  | _ => v
  end.

Fixpoint spaces (n : nat) : string :=
  match n with
  | O => EmptyString
  | S n' => String " "%char (spaces n')
  end.

Definition newline_indent (level : nat) : string := NL ++ spaces (2 * level).

Section WithRuntime.
Context {rt : PyRuntime}.

Definition json_float (f : spec_float) : string :=
  match f with
  | S754_nan => "NaN"
  | S754_infinity false => "Infinity"
  | S754_infinity true => "-Infinity"
  | _ => float_repr f
  end.

(** [json.dumps(v, ensure_ascii=False)]. *)
Fixpoint json_dumps (v : json) : string :=
  match v with
  | JNull => "null"
  | JBool true => "true"
  | JBool false => "false"
  | JInt z => str_of_Z z
  | JFloat f => json_float f
  | JStr s => json_string s
  | JArr items => "[" ++ join ", " (map json_dumps items) ++ "]"
  | JObj fields =>
      "{" ++ join ", "
               (map (fun kv => json_string (fst kv) ++ ": " ++ json_dumps (snd kv)) fields)
          ++ "}"
  end.

Fixpoint json_dumps_indent (level : nat) (v : json) : string :=
  match v with
  | JArr [] => "[]"
  | JArr items =>
      "[" ++ newline_indent (S level)
          ++ join ("," ++ newline_indent (S level))
               (map (json_dumps_indent (S level)) items)
          ++ newline_indent level ++ "]"
  | JObj [] => "{}"
  | JObj fields =>
      "{" ++ newline_indent (S level)
          ++ join ("," ++ newline_indent (S level))
               (map (fun kv => json_string (fst kv) ++ ": "
                                 ++ json_dumps_indent (S level) (snd kv)) fields)
          ++ newline_indent level ++ "}"
  | _ => json_dumps v
  end.

(** [json.dumps(v, ensure_ascii=False, indent=2, sort_keys=True)]. *)
Definition json_dumps_pretty (v : json) : string :=
  json_dumps_indent 0 (sort_keys v).

End WithRuntime.

End Encoder.
Import Encoder.

(** ** Part IV. Effects *)

(** What one run of the external program produced. *)
Record CommandResult : Type := mkCommandResult {
  returncode : Z;
  stdout : string;
  stderr : string;
  latency_ms : Z;
  timed_out : bool
}.

Definition pid : Type := nat.

(** Programs over the operations the module performs on its environment.
    [Popen] answers with the exception raised or with the child's handle;
    [Communicate] answers [None] when [subprocess.TimeoutExpired] is
    raised, and otherwise with the exit status and the two captured
    streams; [Drain] is [communicate()] with no timeout, after the kill. *)
Inductive prog (A : Type) : Type :=
| Ret (a : A)
| Throw (e : exn)
| Clock (k : Q -> prog A)
| Popen (args : list string) (k : exn + pid -> prog A)
| Communicate (p : pid) (timeout_sec : Q) (k : option (Z * string * string) -> prog A)
| Kill (p : pid) (k : prog A)
| Drain (p : pid) (k : string * string -> prog A)
| IsFile (path : string) (k : bool -> prog A).
Arguments Ret {A} a.
Arguments Throw {A} e.
Arguments Clock {A} k.
Arguments Popen {A} args k.
Arguments Communicate {A} p timeout_sec k.
Arguments Kill {A} p k.
Arguments Drain {A} p k.
Arguments IsFile {A} path k.

Fixpoint bind {A B : Type} (m : prog A) (f : A -> prog B) : prog B :=
  match m with
  | Ret a => f a
  | Throw e => Throw e
  | Clock k => Clock (fun t => bind (k t) f)
  | Popen args k => Popen args (fun r => bind (k r) f)
  | Communicate p t k => Communicate p t (fun r => bind (k r) f)
  | Kill p k => Kill p (bind k f)
  | Drain p k => Drain p (fun r => bind (k r) f)
  | IsFile path k => IsFile path (fun r => bind (k r) f)
  end.

Notation "x <- m ;; k" := (bind m (fun x => k))
  (at level 61, m at next level, right associativity).

(** [try: m  except Exception as e: ...]: the exception becomes a value. *)
Fixpoint attempt {A : Type} (m : prog A) : prog (outcome A) :=
  match m with
  | Ret a => Ret (Returned a)
  | Throw e => Ret (Raised e)
  | Clock k => Clock (fun t => attempt (k t))
  | Popen args k => Popen args (fun r => attempt (k r))
  | Communicate p t k => Communicate p t (fun r => attempt (k r))
  | Kill p k => Kill p (attempt k)
  | Drain p k => Drain p (fun r => attempt (k r))
  | IsFile path k => IsFile path (fun r => attempt (k r))
  end.

(** A computed outcome as a program: [return a] or [raise e]. *)
Definition raise_or_return {A : Type} (r : outcome A) : prog A :=
  match r with
  | Returned a => Ret a
  | Raised e => Throw e
  end.

(** The operations a run performed, in order. *)
Inductive event : Type :=
| EvClock
| EvPopen (args : list string)
| EvCommunicate (p : pid) (timeout_sec : Q)
| EvKill (p : pid)
| EvDrain (p : pid)
| EvIsFile (path : string).

(** An operating system: a state and its answer to each operation. *)
Record OS (W : Type) : Type := mkOS {
  os_clock : W -> Q * W;
  os_popen : list string -> W -> (exn + pid) * W;
  os_communicate : pid -> Q -> W -> option (Z * string * string) * W;
  os_kill : pid -> W -> W;
  os_drain : pid -> W -> (string * string) * W;
  os_isfile : string -> W -> bool * W
}.

Section Exec.
Context {W : Type} (os : OS W).

Fixpoint exec {A : Type} (m : prog A) (w : W) : outcome A * W * list event :=
  match m with
  | Ret a => (Returned a, w, [])
  | Throw e => (Raised e, w, [])
  | Clock k =>
      let '(t, w1) := os_clock os w in
      let '(r, w2, tr) := exec (k t) w1 in (r, w2, EvClock :: tr)
  | Popen args k =>
      let '(h, w1) := os_popen os args w in
      let '(r, w2, tr) := exec (k h) w1 in (r, w2, EvPopen args :: tr)
  | Communicate p t k =>
      let '(c, w1) := os_communicate os p t w in
      let '(r, w2, tr) := exec (k c) w1 in (r, w2, EvCommunicate p t :: tr)
  | Kill p k =>
      let w1 := os_kill os p w in
      let '(r, w2, tr) := exec k w1 in (r, w2, EvKill p :: tr)
  | Drain p k =>
      let '(c, w1) := os_drain os p w in
      let '(r, w2, tr) := exec (k c) w1 in (r, w2, EvDrain p :: tr)
  | IsFile path k =>
      let '(b, w1) := os_isfile os path w in
      let '(r, w2, tr) := exec (k b) w1 in (r, w2, EvIsFile path :: tr)
  end.

Definition result_of {A : Type} (m : prog A) (w : W) : outcome A :=
  fst (fst (exec m w)).
Definition world_after {A : Type} (m : prog A) (w : W) : W :=
  snd (fst (exec m w)).
Definition trace_of {A : Type} (m : prog A) (w : W) : list event :=
  snd (exec m w).

End Exec.

(** The argument vectors of the processes a trace started, in order. *)
Fixpoint spawned (tr : list event) : list (list string) :=
  match tr with
  | [] => []
  | EvPopen args :: tr' => args :: spawned tr'
  | _ :: tr' => spawned tr'
  end.

(** The time limits of the waits of a trace that have one
    ([communicate(timeout=...)]), in order.  The wait without a limit, the
    [communicate()] after a kill, is [EvDrain]: see [drained]. *)
Fixpoint waited (tr : list event) : list Q :=
  match tr with
  | [] => []
  | EvCommunicate _ t :: tr' => t :: waited tr'
  | _ :: tr' => waited tr'
  end.

(** The processes a trace killed, and the processes it waited for without
    a limit, in order. *)
Fixpoint killed (tr : list event) : list pid :=
  match tr with
  | [] => []
  | EvKill p :: tr' => p :: killed tr'
  | _ :: tr' => killed tr'
  end.

Fixpoint drained (tr : list event) : list pid :=
  match tr with
  | [] => []
  | EvDrain p :: tr' => p :: drained tr'
  | _ :: tr' => drained tr'
  end.

(** The paths a trace looked up in the file system, in order. *)
Fixpoint consulted (tr : list event) : list string :=
  match tr with
  | [] => []
  | EvIsFile path :: tr' => path :: consulted tr'
  | _ :: tr' => consulted tr'
  end.

(** ** Part V. The module [tools/kmsg-mcp.py] *)

(** *** [KmsgRunner] *)

Definition exn_text (e : exn) : string :=
  match e with
  | MCPError _ message _ => message
  | PyExc _ text => text
  end.

Definition is_OSError (e : exn) : bool :=
  match e with
  | PyExc OSError _ => true
  | _ => false
  end.

(** A reading of the clock is a [float]: the binary64 nearest to the
    rational the operating system gives (that rational itself when it is a
    binary64, as with [time.time()]). *)
Definition b64_of_Q (q : Q) : spec_float :=
  let nearest (negative : bool) (n : positive) :=
    let '(m, e, l) := SFdiv_core_binary 53 1024 (Zpos n) 0 (Zpos (Qden q)) 0 in
    binary_round_aux 53 1024 negative m e l in
  match Qnum q with
  | Z0 => S754_zero false
  | Zpos n => nearest false n
  | Zneg n => nearest true n
  end.

(** [int((time.time() - start) * 1000)], in the arithmetic of binary64:
    the difference and the product are rounded, the conversion truncates.
    (The product of two readings of a clock is finite; the model gives 0
    where it would not be.) *)
Definition elapsed_ms (start now : Q) : Z :=
  match SFmul 53 1024 (SFsub 53 1024 (b64_of_Q now) (b64_of_Q start))
          (binary_normalize 53 1024 1000 0 false) with
  | S754_finite sign m e => trunc_finite sign m e
  | _ => 0
  end.

Definition run (args : list string) (timeout_sec : Q) : prog CommandResult :=
  Clock (fun start =>
  Popen args (fun started =>
  match started with
  | inl exc =>
      if is_OSError exc then
        Clock (fun now =>
        Ret {| returncode := 127; stdout := EmptyString; stderr := exn_text exc;
               latency_ms := elapsed_ms start now; timed_out := false |})
      else Throw exc
  | inr proc =>
      Communicate proc timeout_sec (fun finished =>
      match finished with
      | Some (rc, out, err) =>
          Clock (fun now =>
          Ret {| returncode := rc; stdout := out; stderr := err;
                 latency_ms := elapsed_ms start now; timed_out := false |})
      | None =>
          Kill proc (
          Drain proc (fun captured =>
          Clock (fun now =>
          Ret {| returncode := 124; stdout := fst captured; stderr := snd captured;
                 latency_ms := elapsed_ms start now; timed_out := true |})))
      end)
  end)).

(** What the server resolves once at start-up. *)
Record Config : Type := mkConfig {
  kmsg_bin : string;
  default_deep_recovery : bool;
  default_trace_ax : bool;
  server_version : string
}.

Definition check_ready (cfg : Config) : prog (bool * JSONDict) :=
  version <- run [kmsg_bin cfg; "--version"] (2 # 1) ;;
  if negb (returncode version =? 0)%Z then
    Ret (false, [("stage", JStr "version");
                 ("message", JStr "kmsg binary not executable");
                 ("stdout", JStr (stdout version));
                 ("stderr", JStr (stderr version));
                 ("kmsg_bin", JStr (kmsg_bin cfg))])
  else
    status <- run [kmsg_bin cfg; "status"] (4 # 1) ;;
    if negb (returncode status =? 0)%Z then
      Ret (false, [("stage", JStr "status");
                   ("message", JStr "kmsg status check failed");
                   ("stdout", JStr (stdout status));
                   ("stderr", JStr (stderr status));
                   ("kmsg_bin", JStr (kmsg_bin cfg))])
    else
      Ret (true, [("kmsg_bin", JStr (kmsg_bin cfg));
                  ("version", JStr (strip (stdout version)))]).

(** *** JSON-RPC envelopes *)

Definition _json_rpc_error (req_id : json) (code : Z) (message : string)
    (data : JSONDict) : JSONDict :=
  [("jsonrpc", JStr "2.0");
   ("id", req_id);
   ("error", JObj ([("code", JInt code); ("message", JStr message)]
                     ++ match data with
                        | [] => []
                        | _ => [("data", JObj data)]
                        end)%list)].

Definition _json_rpc_result (req_id : json) (result : JSONDict) : JSONDict :=
  [("jsonrpc", JStr "2.0"); ("id", req_id); ("result", JObj result)].

Definition _make_text_content (text : string) : list json :=
  [JObj [("type", JStr "text"); ("text", JStr text)]].

(** *** [OpenClawKmsgMCPServer]: the tool layer *)

Definition PROTOCOL_VERSION : string := "2024-11-05".

Definition _error_payload (code message hint raw_stdout raw_stderr : string)
    (latency : Z) : JSONDict :=
  [("ok", JBool false);
   ("error", JObj [("code", JStr code);
                   ("message", JStr message);
                   ("hint", JStr hint);
                   ("raw_stdout", JStr raw_stdout);
                   ("raw_stderr", JStr raw_stderr)]);
   ("meta", JObj [("latency_ms", JInt latency)])].

Definition _extract_error_code (combined_text : string) : string :=
  let lowered := lower combined_text in
  if contains "no such file or directory" lowered || contains "not found" lowered then
    "KMSG_BIN_NOT_FOUND"
  else if contains "WINDOW_NOT_READY" combined_text then
    "KAKAO_WINDOW_UNAVAILABLE"
  else if contains "SEARCH_MISS" combined_text then
    "CHAT_NOT_FOUND"
  else if contains "Accessibility" combined_text
          || contains "손쉬운 사용" combined_text then
    "ACCESSIBILITY_PERMISSION_DENIED"
  else "UNKNOWN_EXEC_FAILURE".

Definition _map_hint (code : string) : string :=
  if String.eqb code "KMSG_BIN_NOT_FOUND" then
    "Set a valid KMSG_BIN path or install kmsg into PATH."
  else if String.eqb code "KAKAO_WINDOW_UNAVAILABLE" then
    "KakaoTalk window was not ready. Open KakaoTalk and retry (or enable deep_recovery)."
  else if String.eqb code "CHAT_NOT_FOUND" then
    "Chat was not found in search results. Verify chat name spacing and visibility."
  else if String.eqb code "ACCESSIBILITY_PERMISSION_DENIED" then
    "Grant Accessibility permission in System Settings > Privacy & Security > Accessibility."
  else "Check raw_stdout/raw_stderr and rerun with trace_ax=true for details.".

(** [f"{r.stdout}\n{r.stderr}"]. *)
Definition combined_output (r : CommandResult) : string :=
  stdout r ++ NL ++ stderr r.

(** The optional flags, appended in the order of the source. *)
Definition flag_args (deep_recovery keep_window trace_ax : bool) : list string :=
  ((if deep_recovery then ["--deep-recovery"] else [])
   ++ (if keep_window then ["--keep-window"] else [])
   ++ (if trace_ax then ["--trace-ax"] else []))%list.

Definition nonempty (s : string) : bool := negb (String.eqb s EmptyString).

(** [response["meta"]["stderr_trace"] = r.stderr] when tracing is on and
    the stream is not blank. *)
Definition with_stderr_trace (trace_ax : bool) (r : CommandResult)
    (meta : JSONDict) : JSONDict :=
  if trace_ax && nonempty (strip (stderr r)) then
    (meta ++ [("stderr_trace", JStr (stderr r))])%list
  else meta.

Section Tools.
Context {rt : PyRuntime} (cfg : Config).

Definition arg_chat (arguments : JSONDict) : string :=
  strip (py_str (get_or arguments "chat" (JStr EmptyString))).
Definition arg_message (arguments : JSONDict) : string :=
  strip (py_str (get_or arguments "message" (JStr EmptyString))).
Definition arg_image_path (arguments : JSONDict) : string :=
  strip (py_str (get_or arguments "image_path" (JStr EmptyString))).
Definition arg_confirm (arguments : JSONDict) : bool :=
  py_bool (get_or arguments "confirm" (JBool false)).
Definition arg_deep_recovery (arguments : JSONDict) : bool :=
  py_bool (get_or arguments "deep_recovery" (JBool (default_deep_recovery cfg))).
Definition arg_keep_window (arguments : JSONDict) : bool :=
  py_bool (get_or arguments "keep_window" (JBool false)).
Definition arg_trace_ax (arguments : JSONDict) : bool :=
  py_bool (get_or arguments "trace_ax" (JBool (default_trace_ax cfg))).

(** [max(1, min(limit, 100))]. *)
Definition clamp_limit (limit : Z) : Z := Z.max 1 (Z.min limit 100).

Definition read_cmd (arguments : JSONDict) (limit : Z) : list string :=
  ([kmsg_bin cfg; "read"; arg_chat arguments; "--json"; "--limit"; str_of_Z limit]
   ++ flag_args (arg_deep_recovery arguments) (arg_keep_window arguments)
        (arg_trace_ax arguments))%list.

Definition read_timeout (arguments : JSONDict) : Q :=
  if arg_deep_recovery arguments then 15 # 1 else 8 # 1.

(** The tail of [_call_kmsg_read], from [json.loads(first.stdout)] on: it
    does nothing to the environment.  Only [json.JSONDecodeError] is
    caught; another exception of the decoder leaves the call, and so does
    the [AttributeError] of [payload.get] on a document that is not an
    object. *)
Definition read_success (arguments : JSONDict) (first : CommandResult)
    : outcome JSONDict :=
  match json_loads (stdout first) with
  | NotJSON =>
      Returned (_error_payload "INVALID_JSON_OUTPUT"
                  "kmsg returned non-JSON output for read --json"
                  "Run kmsg read manually and confirm JSON-only stdout."
                  (stdout first) (stderr first) (latency_ms first))
  | DecoderError cls text => Raised (PyExc cls text)
  | Decoded (JObj payload) =>
      Returned [("ok", JBool true);
                ("chat", get_or payload "chat" (JStr (arg_chat arguments)));
                ("fetched_at", get_or payload "fetched_at" JNull);
                ("count", get_or payload "count" (JInt 0));
                ("messages", get_or payload "messages" (JArr []));
                ("meta", JObj (with_stderr_trace (arg_trace_ax arguments) first
                                 [("latency_ms", JInt (latency_ms first))]))]
  | Decoded other =>
      Raised (PyExc AttributeError
                ("'" ++ py_type_name other ++ "' object has no attribute 'get'"))
  end.

Definition read_retry (arguments : JSONDict) (cmd : list string) : prog JSONDict :=
  retry <- run (cmd ++ ["--deep-recovery"])%list (15 # 1) ;;
  if (returncode retry =? 0)%Z && negb (timed_out retry) then
    raise_or_return (read_success arguments retry)
  else
    let retry_code := _extract_error_code (combined_output retry) in
    Ret (_error_payload retry_code
           "kmsg read failed after deep-recovery retry"
           (_map_hint retry_code)
           (stdout retry) (stderr retry) (latency_ms retry)).

Definition read_after_first (arguments : JSONDict) (cmd : list string)
    (first : CommandResult) : prog JSONDict :=
  if timed_out first then
    Ret (_error_payload "PROCESS_TIMEOUT"
           "kmsg read timed out"
           "Increase stability (keep KakaoTalk open/focused) and retry."
           (stdout first) (stderr first) (latency_ms first))
  else if negb (returncode first =? 0)%Z then
    let code := _extract_error_code (combined_output first) in
    if String.eqb code "CHAT_NOT_FOUND" && negb (arg_deep_recovery arguments) then
      read_retry arguments cmd
    else
      Ret (_error_payload code
             "kmsg read failed"
             (_map_hint code)
             (stdout first) (stderr first) (latency_ms first))
  else raise_or_return (read_success arguments first).

Definition _call_kmsg_read (arguments : JSONDict) : prog JSONDict :=
  if negb (nonempty (arg_chat arguments)) then
    Ret (_error_payload "INVALID_ARGUMENT"
           "chat is required"
           "Provide a non-empty chat name."
           EmptyString EmptyString 0)
  else
    match py_int (get_or arguments "limit" (JInt 20)) with
    | Raised (PyExc TypeError _) | Raised (PyExc ValueError _) =>
        Ret (_error_payload "INVALID_ARGUMENT"
               "limit must be an integer"
               "Use integer range 1..100 for limit."
               EmptyString EmptyString 0)
    | Raised exc => Throw exc
    | Returned raw =>
        let cmd := read_cmd arguments (clamp_limit raw) in
        first <- run cmd (read_timeout arguments) ;;
        read_after_first arguments cmd first
    end.

(** The common tail of the two sending tools, after the process ran; the
    two messages are the ones each tool writes. *)
Definition send_after_run (timed_out_message failed_message : string)
    (arguments : JSONDict) (r : CommandResult) : JSONDict :=
  if timed_out r then
    _error_payload "PROCESS_TIMEOUT"
      timed_out_message
      "Retry after ensuring KakaoTalk is responsive."
      (stdout r) (stderr r) (latency_ms r)
  else if negb (returncode r =? 0)%Z then
    let code := _extract_error_code (combined_output r) in
    _error_payload code
      failed_message
      (_map_hint code)
      (stdout r) (stderr r) (latency_ms r)
  else
    [("ok", JBool true);
     ("chat", JStr (arg_chat arguments));
     ("sent", JBool true);
     ("meta", JObj (with_stderr_trace (arg_trace_ax arguments) r
                      [("latency_ms", JInt (latency_ms r));
                       ("stdout", JStr (stdout r))]))].

Definition send_cmd (arguments : JSONDict) : list string :=
  ([kmsg_bin cfg; "send"; arg_chat arguments; arg_message arguments]
   ++ flag_args (arg_deep_recovery arguments) (arg_keep_window arguments)
        (arg_trace_ax arguments))%list.

Definition _call_kmsg_send (arguments : JSONDict) : prog JSONDict :=
  if negb (nonempty (arg_chat arguments)) || negb (nonempty (arg_message arguments)) then
    Ret (_error_payload "INVALID_ARGUMENT"
           "chat and message are required"
           "Provide both chat and message."
           EmptyString EmptyString 0)
  else if arg_confirm arguments then
    Ret (_error_payload "CONFIRMATION_REQUIRED"
           "kmsg_send blocked because confirm=true requests pre-send confirmation"
           "Ask user for explicit approval, then call again with confirm=false (or omit confirm)."
           EmptyString EmptyString 0)
  else
    r <- run (send_cmd arguments)
             (if arg_deep_recovery arguments then 18 # 1 else 10 # 1) ;;
    Ret (send_after_run "kmsg send timed out" "kmsg send failed" arguments r).

Definition send_image_cmd (arguments : JSONDict) : list string :=
  ([kmsg_bin cfg; "send-image"; arg_chat arguments; arg_image_path arguments]
   ++ flag_args (arg_deep_recovery arguments) (arg_keep_window arguments)
        (arg_trace_ax arguments))%list.

Definition _call_kmsg_send_image (arguments : JSONDict) : prog JSONDict :=
  if negb (nonempty (arg_chat arguments)) || negb (nonempty (arg_image_path arguments)) then
    Ret (_error_payload "INVALID_ARGUMENT"
           "chat and image_path are required"
           "Provide both chat and image_path."
           EmptyString EmptyString 0)
  else if arg_confirm arguments then
    Ret (_error_payload "CONFIRMATION_REQUIRED"
           "kmsg_send_image blocked because confirm=true requests pre-send confirmation"
           "Ask user for explicit approval, then call again with confirm=false (or omit confirm)."
           EmptyString EmptyString 0)
  else
    IsFile (arg_image_path arguments) (fun is_file =>
    if negb is_file then
      Ret (_error_payload "INVALID_ARGUMENT"
             "image_path must point to an existing file"
             "Provide a valid local image file path."
             EmptyString EmptyString 0)
    else
      r <- run (send_image_cmd arguments)
               (if arg_deep_recovery arguments then 20 # 1 else 12 # 1) ;;
      Ret (send_after_run "kmsg send-image timed out" "kmsg send-image failed"
             arguments r)).

End Tools.

(** *** [OpenClawKmsgMCPServer]: the dispatcher *)

(** [v == "literal"] for a decoded JSON value. *)
Definition is_str (v : json) (literal : string) : bool :=
  match v with
  | JStr s => String.eqb s literal
  | _ => false
  end.

(** The mutable fields of the server object. *)
Record Session : Type := mkSession {
  initialized : bool;
  shutdown : bool
}.

Definition INITIAL_SESSION : Session :=
  {| initialized := false; shutdown := false |}.

Definition INSTRUCTIONS : string :=
  "Use kmsg_read for read-only operations. "
  ++ "Use kmsg_send and kmsg_send_image with confirm=false (or omitted) for sending. "
  ++ "Use confirm=true to intentionally require a confirmation step.".

Section Dispatcher.
Context {rt : PyRuntime} (cfg : Config).

(** [arguments] is [request.get("params", {})]: any JSON value. *)
Definition _handle_tools_call (arguments : json) : prog JSONDict :=
  match arguments with
  | JObj arguments =>
      let name := get_or arguments "name" JNull in
      match get_or arguments "arguments" (JObj []) with
      | JObj call_args =>
          result_obj <-
            (if is_str name "kmsg_read" then _call_kmsg_read cfg call_args
             else if is_str name "kmsg_send" then _call_kmsg_send cfg call_args
             else if is_str name "kmsg_send_image" then _call_kmsg_send_image cfg call_args
             else Throw (MCPError (-32601) ("Unknown tool: " ++ py_str name) [])) ;;
          Ret [("content", JArr (_make_text_content (json_dumps_pretty (JObj result_obj))));
               ("isError", JBool (negb (py_bool (get_or result_obj "ok" (JBool false)))));
               ("structuredContent", JObj result_obj)]
      | _ => Throw (MCPError (-32602) "tool arguments must be an object" [])
      end
  | other =>
      Throw (PyExc AttributeError
               ("'" ++ py_type_name other ++ "' object has no attribute 'get'"))
  end.

(** The catalogue of [tools/list]; the schemas are data only. *)
Definition common_flags : JSONDict :=
  [("deep_recovery",
    JObj [("type", JStr "boolean");
          ("default", JBool (default_deep_recovery cfg));
          ("description", JStr "Enable deep recovery mode for window resolution")]);
   ("keep_window",
    JObj [("type", JStr "boolean");
          ("default", JBool false);
          ("description", JStr "Keep auto-opened KakaoTalk window")]);
   ("trace_ax",
    JObj [("type", JStr "boolean");
          ("default", JBool (default_trace_ax cfg));
          ("description", JStr "Include AX tracing logs")])].

Definition confirm_flag : string * json :=
  ("confirm",
   JObj [("type", JStr "boolean");
         ("default", JBool false);
         ("description", JStr "If true, do not send and return CONFIRMATION_REQUIRED")]).

Definition chat_property : string * json :=
  ("chat", JObj [("type", JStr "string"); ("description", JStr "Chat room or user name")]).

Definition tool_definition (name description : string) (properties : JSONDict)
    (required : list string) : json :=
  JObj [("name", JStr name);
        ("description", JStr description);
        ("inputSchema",
         JObj [("type", JStr "object");
               ("properties", JObj properties);
               ("required", JArr (map JStr required));
               ("additionalProperties", JBool false)])].

Definition _tool_definitions : list json :=
  [tool_definition "kmsg_read"
     "Read recent KakaoTalk messages from a chat via kmsg."
     (chat_property
      :: ("limit", JObj [("type", JStr "integer"); ("minimum", JInt 1);
                         ("maximum", JInt 100); ("default", JInt 20)])
      :: common_flags)
     ["chat"];
   tool_definition "kmsg_send"
     "Send a KakaoTalk message via kmsg. Default sends immediately; confirm=true triggers confirmation-required response."
     (chat_property
      :: ("message", JObj [("type", JStr "string"); ("description", JStr "Message body")])
      :: confirm_flag :: common_flags)
     ["chat"; "message"];
   tool_definition "kmsg_send_image"
     "Send an image to a KakaoTalk chat via kmsg. Default sends immediately; confirm=true triggers confirmation-required response."
     (chat_property
      :: ("image_path", JObj [("type", JStr "string");
                              ("description", JStr "Path to the image file")])
      :: confirm_flag :: common_flags)
     ["chat"; "image_path"]].

Definition initialize_result (detail : JSONDict) : JSONDict :=
  [("protocolVersion", JStr PROTOCOL_VERSION);
   ("capabilities", JObj [("tools", JObj [])]);
   ("serverInfo", JObj [("name", JStr "openclaw-kmsg-mcp");
                        ("version", JStr (server_version cfg))]);
   ("instructions", JStr INSTRUCTIONS);
   ("meta", JObj [("startup_check", JObj detail)])].

(** [_handle_request]: the session after the call, and what the call
    returned ([None]: no response) or raised.  An assignment to the
    session made before an exception stays. *)
Definition _handle_request (session : Session) (request : JSONDict)
    : prog (Session * outcome (option JSONDict)) :=
  let method := get_or request "method" JNull in
  let req_id := get_or request "id" JNull in
  if is_str method "initialize" then
    let session := {| initialized := true; shutdown := shutdown session |} in
    probe <- attempt (check_ready cfg) ;;
    match probe with
    | Raised exc => Ret (session, Raised exc)
    | Returned (ready, detail) =>
        let detail :=
          if negb ready then
            dict_set detail "note"
              (JStr "MCP server started, but kmsg readiness check failed")
          else detail in
        Ret (session, Returned (Some (_json_rpc_result req_id (initialize_result detail))))
    end
  else if is_str method "notifications/initialized" then
    Ret (session, Returned None)
  else if is_str method "ping" then
    Ret (session, Returned (Some (_json_rpc_result req_id [])))
  else if negb (initialized session) then
    Ret (session, Raised (MCPError (-32002) "Server not initialized" []))
  else if is_str method "tools/list" then
    Ret (session, Returned (Some (_json_rpc_result req_id [("tools", JArr _tool_definitions)])))
  else if is_str method "tools/call" then
    called <- attempt (_handle_tools_call (get_or request "params" (JObj []))) ;;
    match called with
    | Raised exc => Ret (session, Raised exc)
    | Returned result => Ret (session, Returned (Some (_json_rpc_result req_id result)))
    end
  else if is_str method "shutdown" then
    Ret ({| initialized := initialized session; shutdown := true |},
         Returned (Some (_json_rpc_result req_id [])))
  else if is_str method "exit" then
    Ret ({| initialized := initialized session; shutdown := true |}, Returned None)
  else
    Ret (session, Raised (MCPError (-32601) ("Method not found: " ++ py_str method) [])).

(** The [try]/[except] of [serve_forever] around one request: the response
    to write, if any. *)
Definition response_for (req_id : json) (handled : outcome (option JSONDict))
    : option JSONDict :=
  match handled with
  | Returned response => response
  | Raised exc =>
      match req_id with
      | JNull => None
      | _ =>
          match exc with
          | MCPError code message data => Some (_json_rpc_error req_id code message data)
          | PyExc _ text =>
              Some (_json_rpc_error req_id (-32000) "Internal server error"
                      [("detail", JStr text)])
          end
      end
  end.

End Dispatcher.

(** *** [OpenClawKmsgMCPServer]: the framing codec *)

Module Framing.

(** [stream.readline()]: the bytes up to and including the first line
    feed, or all of them when there is none. *)
Fixpoint readline (stream : string) : string * string :=
  match stream with
  | EmptyString => (EmptyString, EmptyString)
  | String c rest =>
      if Ascii.eqb c (ascii_of_nat 10) then (String c EmptyString, rest)
      else let '(line, rest') := readline rest in (String c line, rest')
  end.

(** [stream.read(n)]. *)
Definition read (n : nat) (stream : string) : string * string :=
  (take n stream, drop n stream).

Definition headers_t : Type := list (string * string).

Fixpoint headers_set (h : headers_t) (key value : string) : headers_t :=
  match h with
  | [] => [(key, value)]
  | (k, v) :: h' =>
      if String.eqb k key then (k, value) :: h' else (k, v) :: headers_set h' key value
  end.

Fixpoint headers_get (h : headers_t) (key default : string) : string :=
  match h with
  | [] => default
  | (k, v) :: h' => if String.eqb k key then v else headers_get h' key default
  end.

(** The [while True] loop over the header lines; every turn consumes at
    least one byte, so [fuel] above the length of the stream is never used
    up.  [None]: the stream ended inside the header block.  A line is
    decoded with [errors="replace"], which never raises; the bytes of the
    line are kept as they are, a byte that does not decode standing for
    the replacement character (no white space, no colon, no letter of a
    header name, no digit). *)
Fixpoint read_headers (fuel : nat) (headers : headers_t) (stream : string)
    : option headers_t * string :=
  match fuel with
  | O => (None, stream)
  | S fuel' =>
      let '(line, rest) := readline stream in
      if String.eqb line EmptyString then (None, rest)
      else if String.eqb line CRLF || String.eqb line NL then (Some headers, rest)
      else
        let decoded := strip line in
        if String.eqb decoded EmptyString then read_headers fuel' headers rest
        else
          let '(key, sep, value) := partition_colon decoded in
          if negb sep then read_headers fuel' headers rest
          else read_headers fuel' (headers_set headers (lower (strip key)) (strip value)) rest
  end.

Section Codec.
Context {rt : PyRuntime}.

(** The framed body, before it is decoded: [None] where the source returns
    [None], [Raised] where [int()] rejects the header value. *)
Definition read_body (stream : string) : outcome (option string) * string :=
  match read_headers (S (String.length stream)) [] stream with
  | (None, rest) => (Returned None, rest)
  | (Some headers, rest) =>
      match int_of_str (headers_get headers "content-length" "0") with
      | inr text => (Raised (PyExc ValueError text), rest)
      | inl content_length =>
          if (content_length <=? 0)%Z then (Returned None, rest)
          else
            let '(body, rest') := read (Z.to_nat content_length) rest in
            if String.eqb body EmptyString then (Returned None, rest')
            else (Returned (Some body), rest')
      end
  end.

(** [json.loads(body.decode("utf-8"))] under [except json.JSONDecodeError:
    return None]: the error of the strict decoder of UTF-8 and every other
    error of the JSON decoder are not caught. *)
Definition decode_body (body : string) : outcome json :=
  match decode_utf8 body with
  | Raised exc => Raised exc
  | Returned text =>
      match json_loads text with
      | Decoded message => Returned message
      | NotJSON => Returned JNull
      | DecoderError cls text => Raised (PyExc cls text)
      end
  end.

(** [_read_message] on the bytes left on standard input: what it returns
    ([JNull] is Python's [None], no message) or raises, and the bytes left
    after it. *)
Definition _read_message (stream : string) : outcome json * string :=
  match read_body stream with
  | (Returned (Some body), rest) => (decode_body body, rest)
  | (Returned None, rest) => (Returned JNull, rest)
  | (Raised exc, rest) => (Raised exc, rest)
  end.

(** [_write_message]: the bytes written to standard output, or the
    [UnicodeEncodeError] of [encode("utf-8")], raised before anything is
    written. *)
Definition _write_message (payload : json) : outcome string :=
  match encode_utf8 (json_dumps payload) with
  | Raised exc => Raised exc
  | Returned encoded =>
      let header :=
        "Content-Length: " ++ str_of_Z (Z.of_nat (String.length encoded)) ++ CRLF ++ CRLF in
      Returned (header ++ encoded)
  end.

End Codec.

End Framing.
Import Framing.

(** *** [OpenClawKmsgMCPServer]: the serving loop *)

(** ["method" in v] for a decoded message: a key of a [dict], an element
    of a [list], a substring of a [str]; the other values are not
    containers and make the test raise [TypeError]. *)
Definition has_method (v : json) : outcome bool :=
  match v with
  | JObj fields => Returned (existsb (fun kv => String.eqb (fst kv) "method") fields)
  | JArr items => Returned (existsb (fun item => is_str item "method") items)
  | JStr s => Returned (contains "method" s)
  | other =>
      Raised (PyExc TypeError
                ("argument of type '" ++ py_type_name other ++ "' is not iterable"))
  end.

(** The server object while it serves: the session flags, the bytes still
    to be read from standard input, and the bytes written to standard
    output so far. *)
Record Server : Type := mkServer {
  session : Session;
  pending_input : string;
  written : string
}.

(** How [serve_forever] came to an end: it returned, an exception left it,
    or (in the model only) the turns allowed were used up. *)
Inductive ending : Type :=
| Stopped
| Crashed (exc : exn)
| OutOfFuel.

Section Serving.
Context {rt : PyRuntime} (cfg : Config).

(** The [while not self.shutdown] loop, at most [fuel] turns of it.  What
    [_read_message], the test for the method, [request.get] and
    [_write_message] raise is outside the [try] and leaves the loop. *)
Fixpoint serve_loop (fuel : nat) (srv : Server) : prog (Server * ending) :=
  match fuel with
  | O => Ret (srv, OutOfFuel)
  | S fuel' =>
      if shutdown (session srv) then Ret (srv, Stopped)
      else
        let '(message, rest) := _read_message (pending_input srv) in
        let srv := {| session := session srv; pending_input := rest;
                      written := written srv |} in
        match message with
        | Raised exc => Ret (srv, Crashed exc)
        | Returned JNull => Ret (srv, Stopped)
        | Returned request =>
            match has_method request with
            | Raised exc => Ret (srv, Crashed exc)
            | Returned false => serve_loop fuel' srv
            | Returned true =>
                match request with
                | JObj fields =>
                    let req_id := get_or fields "id" JNull in
                    handled <- _handle_request cfg (session srv) fields ;;
                    let srv := {| session := fst handled; pending_input := rest;
                                  written := written srv |} in
                    match response_for req_id (snd handled) with
                    | None => serve_loop fuel' srv
                    | Some response =>
                        match _write_message (JObj response) with
                        | Raised exc => Ret (srv, Crashed exc)
                        | Returned bytes =>
                            serve_loop fuel'
                              {| session := session srv; pending_input := rest;
                                 written := written srv ++ bytes |}
                        end
                    end
                | other =>
                    Ret (srv, Crashed
                           (PyExc AttributeError
                              ("'" ++ py_type_name other
                                   ++ "' object has no attribute 'get'")))
                end
            end
        end
  end.

(** [serve_forever]: every turn that goes on to another has taken at least
    one byte from the input, so one turn more than there are bytes is
    enough. *)
Definition serve_forever (srv : Server) : prog (Server * ending) :=
  serve_loop (S (String.length (pending_input srv))) srv.

End Serving.

(** *** Start-up *)

(** How reading the file [VERSION] ends: at the end of the file, or with
    an exception raised by [open] or by the iteration over the lines. *)
Inductive reading_end : Type :=
| EndOfFile
| ReadRaises (cls : exc_class) (text : string).

(** What the constructors read from the process environment and the file
    system: the environment variables ([None]: unset), what
    [shutil.which("kmsg")] finds, what [os.path.expanduser] makes of
    [~/.local/bin/kmsg], the lines the iteration over the file [VERSION]
    yields and how the reading ends.  A file that cannot be opened yields
    no line and ends with the [OSError]; bytes that are not UTF-8 end the
    reading with a [UnicodeDecodeError]. *)
Record Startup : Type := mkStartup {
  env_KMSG_BIN : option string;
  which_kmsg : option string;
  expanded_fallback : string;
  env_KMSG_DEFAULT_DEEP_RECOVERY : option string;
  env_KMSG_TRACE_DEFAULT : option string;
  env_KMSG_MCP_VERSION : option string;
  version_lines : list string;
  version_end : reading_end
}.

(** [os.environ.get(name, default)]. *)
Definition environ_get (value : option string) (default : string) : string :=
  match value with
  | Some v => v
  | None => default
  end.

Definition _resolve_kmsg_bin (st : Startup) : string :=
  let env_bin := strip (environ_get (env_KMSG_BIN st) EmptyString) in
  if nonempty env_bin then env_bin
  else
    match which_kmsg st with
    | Some which_bin => if nonempty which_bin then which_bin else expanded_fallback st
    | None => expanded_fallback st
    end.

(** The [for line in fp] loop of [_resolve_server_version]. *)
Fixpoint first_candidate (lines : list string) : option string :=
  match lines with
  | [] => None
  | line :: rest =>
      let candidate := strip line in
      if nonempty candidate then Some candidate else first_candidate rest
  end.

(** Only [OSError] is caught around the reading; any other exception
    leaves the constructor. *)
Definition _resolve_server_version (st : Startup) : outcome string :=
  let explicit := strip (environ_get (env_KMSG_MCP_VERSION st) EmptyString) in
  if nonempty explicit then Returned explicit
  else
    match first_candidate (version_lines st) with
    | Some candidate => Returned candidate
    | None =>
        match version_end st with
        | EndOfFile => Returned "0.0.0"
        | ReadRaises cls text =>
            if exc_class_eqb cls OSError then Returned "0.0.0"
            else Raised (PyExc cls text)
        end
    end.

(** [OpenClawKmsgMCPServer.__init__]: the configuration the server starts
    with, when the constructor returns. *)
Definition server_config (st : Startup) : outcome Config :=
  let runner_bin := _resolve_kmsg_bin st in
  let deep_recovery_default :=
    String.eqb (lower (environ_get (env_KMSG_DEFAULT_DEEP_RECOVERY st) "false")) "true" in
  let trace_default :=
    String.eqb (lower (environ_get (env_KMSG_TRACE_DEFAULT st) "false")) "true" in
  match _resolve_server_version st with
  | Returned version =>
      Returned {| kmsg_bin := runner_bin;
                  default_deep_recovery := deep_recovery_default;
                  default_trace_ax := trace_default;
                  server_version := version |}
  | Raised e => Raised e
  end.

Definition new_server (input : string) : Server :=
  {| session := INITIAL_SESSION; pending_input := input; written := EmptyString |}.

(** ** Part VI. A scripted environment for running the model *)

Module Demo.

(** What a started program does. *)
Inductive behaviour : Type :=
| Exits (rc : Z) (out err : string) (duration : Q)
| Hangs (out err : string)                  (* output so far, then nothing *)
| CannotStart (exc : exn).

(** The clock, the behaviour of the programs still to be started, the
    programs started so far (a handle is an index), and the regular files. *)
Record World : Type := mkWorld {
  now : Q;
  script : list behaviour;
  children : list behaviour;
  files : list string
}.

Definition advance (w : World) (dt : Q) : World :=
  {| now := Qred (now w + dt); script := script w;
     children := children w; files := files w |}.

Definition NUL : string := byte_string [0%nat].

(** [subprocess.Popen] refuses an argument that holds a NUL with a
    [ValueError], before anything is started; otherwise the next program
    of the script decides. *)
Definition demo_popen (args : list string) (w : World) : (exn + pid) * World :=
  if existsb (contains NUL) args then
    (inl (PyExc ValueError "embedded null byte"), w)
  else
  match script w with
  | [] =>
      (inl (PyExc OSError "[Errno 2] No such file or directory"), w)
  | CannotStart exc :: later =>
      (inl exc, {| now := now w; script := later;
                   children := children w; files := files w |})
  | b :: later =>
      (inr (List.length (children w)),
       {| now := now w; script := later;
          children := (children w ++ [b])%list; files := files w |})
  end.

Definition demo_communicate (p : pid) (timeout_sec : Q) (w : World)
    : option (Z * string * string) * World :=
  match nth_error (children w) p with
  | Some (Exits rc out err duration) =>
      if Qle_bool duration timeout_sec then (Some (rc, out, err), advance w duration)
      else (None, advance w timeout_sec)
  | _ => (None, advance w timeout_sec)
  end.

Definition demo_drain (p : pid) (w : World) : (string * string) * World :=
  match nth_error (children w) p with
  | Some (Exits _ out err _) | Some (Hangs out err) => ((out, err), w)
  | _ => ((EmptyString, EmptyString), w)
  end.

Definition demo_os : OS World :=
  {| os_clock := fun w => (now w, w);
     os_popen := demo_popen;
     os_communicate := demo_communicate;
     os_kill := fun _ w => w;
     os_drain := demo_drain;
     os_isfile := fun path w => (existsb (String.eqb path) (files w), w) |}.

Definition world (programs : list behaviour) (regular_files : list string) : World :=
  {| now := 0; script := programs; children := []; files := regular_files |}.

Definition demo_float_repr (f : spec_float) : string := "0.0".

Definition demo_float_repr_nonempty (f : spec_float)
    : demo_float_repr f <> EmptyString :=
  fun H => match H in _ = s return match s with
                                   | EmptyString => False
                                   | String _ _ => True
                                   end with
           | eq_refl => I
           end.

(** [int(s)] where every digit is ASCII. *)
Definition demo_int_of_str (s : string) : Z + string :=
  match int_of_text s with
  | Some z => inl z
  | None => inr ("invalid literal for int() with base 10: '" ++ s ++ "'")
  end.

Definition demo_int_of_str_decimal (s : string) (z : Z) (H : int_of_text s = Some z)
    : demo_int_of_str s = inl z :=
  @eq_ind_r _ (Some z)
    (fun parsed =>
       match parsed with
       | Some z' => inl z'
       | None => inr ("invalid literal for int() with base 10: '" ++ s ++ "'")
       end = inl z)
    eq_refl _ H.

Definition demo_encode_error_text (s : string) : string :=
  "'utf-8' codec can't encode character: surrogates not allowed".

Definition demo_decode_error_text (b : string) : string :=
  "'utf-8' codec can't decode byte: invalid start byte".

(** A runtime that decodes nothing, used to encode the documents below. *)
Definition encoder_runtime : PyRuntime :=
  {| float_repr := demo_float_repr;
     float_repr_nonempty := demo_float_repr_nonempty;
     str_repr := fun s => "'" ++ s ++ "'";
     json_loads := fun _ => NotJSON;
     int_of_str := demo_int_of_str;
     int_of_str_decimal := demo_int_of_str_decimal;
     encode_error_text := demo_encode_error_text;
     decode_error_text := demo_decode_error_text |}.

(** A decoder that knows the encodings of some documents and takes every
    other text for something that is not JSON. *)
Definition decoder_of (documents : list json) (text : string) : decoded :=
  match find (fun v => String.eqb (json_dumps (rt := encoder_runtime) v) text)
             documents with
  | Some v => Decoded v
  | None => NotJSON
  end.

Definition alice_document : json :=
  JObj [("chat", JStr "Alice"); ("count", JInt 2);
        ("messages", JArr [JStr "hi"; JStr "there"])].

Definition ping_request : json :=
  JObj [("jsonrpc", JStr "2.0"); ("id", JInt 7); ("method", JStr "ping")].

Definition documents : list json := [alice_document; ping_request].

(** The runtime of the examples: its decoder knows the encodings of
    [documents] and rejects every other text. *)
Definition runtime : PyRuntime :=
  {| float_repr := demo_float_repr;
     float_repr_nonempty := demo_float_repr_nonempty;
     str_repr := fun s => "'" ++ s ++ "'";
     json_loads := decoder_of documents;
     int_of_str := demo_int_of_str;
     int_of_str_decimal := demo_int_of_str_decimal;
     encode_error_text := demo_encode_error_text;
     decode_error_text := demo_decode_error_text |}.

Definition config : Config :=
  {| kmsg_bin := "/usr/local/bin/kmsg";
     default_deep_recovery := false;
     default_trace_ax := false;
     server_version := "0.0.0" |}.

Definition alice_stdout : string := json_dumps (rt := encoder_runtime) alice_document.

End Demo.

(** ** Part VII. Reading a tool payload *)

(** [payload["error"][field]]. *)
Definition error_field (field : string) (payload : JSONDict) : option json :=
  match dict_get payload "error" with
  | Some (JObj error) => dict_get error field
  | _ => None
  end.

(** [payload["meta"]["latency_ms"]]. *)
Definition meta_latency (payload : JSONDict) : option json :=
  match dict_get payload "meta" with
  | Some (JObj meta) => dict_get meta "latency_ms"
  | _ => None
  end.

(** ** Part VIII. The vocabulary of the properties *)

(** Texts of the source that the statements quote. *)
Definition CONFIRM_HINT : string :=
  "Ask user for explicit approval, then call again with confirm=false (or omit confirm).".

Definition MISSING_FILE_MESSAGE : string := "image_path must point to an existing file".

(** [request.get("method")]. *)
Definition method_of (request : JSONDict) : json := get_or request "method" JNull.

(** [MCPError(code=-32002, message="Server not initialized")]. *)
Definition NOT_INITIALIZED : exn := MCPError (-32002) "Server not initialized" [].

(** What the retry appends to the command. *)
Definition DEEP_RETRY_FLAG : list string := ["--deep-recovery"].

(** When the source retries, in the words of the design: the first run
    failed without timing out, its output classifies as CHAT_NOT_FOUND, and
    deep recovery was off. *)
Definition retry_due (deep_recovery : bool) (first : CommandResult) : bool :=
  negb (timed_out first)
  && negb (returncode first =? 0)%Z
  && String.eqb (_extract_error_code (combined_output first)) "CHAT_NOT_FOUND"
  && negb deep_recovery.

(** What [_call_kmsg_read] answers once the retry has run, read off the
    branch after [retry = self.runner.run(...)]; [exec_read_retry] proves
    that this is what [read_retry] computes. *)
Definition retry_verdict {rt : PyRuntime} (cfg : Config) (arguments : JSONDict)
    (second : outcome CommandResult) : outcome JSONDict :=
  match second with
  | Raised exc => Raised exc
  | Returned retry =>
      if (returncode retry =? 0)%Z && negb (timed_out retry) then
        read_success cfg arguments retry
      else
        Returned (_error_payload (_extract_error_code (combined_output retry))
                    "kmsg read failed after deep-recovery retry"
                    (_map_hint (_extract_error_code (combined_output retry)))
                    (stdout retry) (stderr retry) (latency_ms retry))
  end.

(** What [_call_kmsg_read] answers when the first run is the only one;
    [exec_read_after_first] proves that this is what [read_after_first]
    computes when no retry is due. *)
Definition single_run_verdict {rt : PyRuntime} (cfg : Config) (arguments : JSONDict)
    (first : CommandResult) : outcome JSONDict :=
  if timed_out first then
    Returned (_error_payload "PROCESS_TIMEOUT" "kmsg read timed out"
                "Increase stability (keep KakaoTalk open/focused) and retry."
                (stdout first) (stderr first) (latency_ms first))
  else if negb (returncode first =? 0)%Z then
    Returned (_error_payload (_extract_error_code (combined_output first))
                "kmsg read failed"
                (_map_hint (_extract_error_code (combined_output first)))
                (stdout first) (stderr first) (latency_ms first))
  else read_success cfg arguments first.

(** Two scripted environments: a program that misses the chat twice, and
    one that misses it and then hangs. *)
Definition twice_missing : Demo.World :=
  Demo.world [Demo.Exits 1 "SEARCH_MISS: Alice" EmptyString (1 # 2);
              Demo.Exits 1 "SEARCH_MISS: Alice" EmptyString (3 # 1);
              Demo.Exits 0 Demo.alice_stdout EmptyString (1 # 2)] [].

Definition miss_then_hang : Demo.World :=
  Demo.world [Demo.Exits 1 "SEARCH_MISS: Alice" EmptyString (1 # 2);
              Demo.Hangs "partial output" "still searching"] [].

(** The codes [_extract_error_code] can return. *)
Definition CLASSIFIER_CODES : list string :=
  ["KMSG_BIN_NOT_FOUND"; "KAKAO_WINDOW_UNAVAILABLE"; "CHAT_NOT_FOUND";
   "ACCESSIBILITY_PERMISSION_DENIED"; "UNKNOWN_EXEC_FAILURE"].

(** A payload is an error envelope ([ok] false, with a code) or a success
    ([ok] true, no [error]). *)
Inductive payload_shape : JSONDict -> Prop :=
| shape_error (code message hint out err : string) (latency : Z) :
    payload_shape (_error_payload code message hint out err latency)
| shape_success (rest : JSONDict) :
    dict_get rest "error" = None ->
    payload_shape (("ok", JBool true) :: rest).

(** [needle] occurs in [text]. *)
Definition occurs (needle text : string) : Prop :=
  exists before after, text = before ++ needle ++ after.

(** [needle], written in lower case, occurs in [text] in some mix of
    cases. *)
Definition occurs_ignoring_case (needle text : string) : Prop :=
  exists before found after, text = before ++ found ++ after /\ lower found = needle.

(** The five kinds of the design. *)
Inductive ErrorKind : Type :=
| BINARY_NOT_FOUND
| WINDOW_UNAVAILABLE
| TARGET_NOT_FOUND
| PERMISSION_DENIED
| UNKNOWN_EXECUTION_FAILURE.

(** The code the source writes for each kind. *)
Definition kind_code (kind : ErrorKind) : string :=
  match kind with
  | BINARY_NOT_FOUND => "KMSG_BIN_NOT_FOUND"
  | WINDOW_UNAVAILABLE => "KAKAO_WINDOW_UNAVAILABLE"
  | TARGET_NOT_FOUND => "CHAT_NOT_FOUND"
  | PERMISSION_DENIED => "ACCESSIBILITY_PERMISSION_DENIED"
  | UNKNOWN_EXECUTION_FAILURE => "UNKNOWN_EXEC_FAILURE"
  end.

(** The static table of remediation hints. *)
Definition kind_hint (kind : ErrorKind) : string :=
  match kind with
  | BINARY_NOT_FOUND => "Set a valid KMSG_BIN path or install kmsg into PATH."
  | WINDOW_UNAVAILABLE =>
      "KakaoTalk window was not ready. Open KakaoTalk and retry (or enable deep_recovery)."
  | TARGET_NOT_FOUND =>
      "Chat was not found in search results. Verify chat name spacing and visibility."
  | PERMISSION_DENIED =>
      "Grant Accessibility permission in System Settings > Privacy & Security > Accessibility."
  | UNKNOWN_EXECUTION_FAILURE =>
      "Check raw_stdout/raw_stderr and rerun with trace_ax=true for details."
  end.

(** The four tests of the design, in its words. *)
Definition binary_missing (text : string) : Prop :=
  occurs_ignoring_case "no such file or directory" text
  \/ occurs_ignoring_case "not found" text.
Definition window_not_ready (text : string) : Prop := occurs "WINDOW_NOT_READY" text.
Definition search_missed (text : string) : Prop := occurs "SEARCH_MISS" text.
Definition permission_denied (text : string) : Prop :=
  occurs "Accessibility" text \/ occurs "손쉬운 사용" text.

(** [kind] is the first kind, in the order of the design, whose test
    [text] passes; the last kind is the one left when none does. *)
Definition first_match (text : string) (kind : ErrorKind) : Prop :=
  match kind with
  | BINARY_NOT_FOUND => binary_missing text
  | WINDOW_UNAVAILABLE => ~ binary_missing text /\ window_not_ready text
  | TARGET_NOT_FOUND =>
      ~ binary_missing text /\ ~ window_not_ready text /\ search_missed text
  | PERMISSION_DENIED =>
      ~ binary_missing text /\ ~ window_not_ready text /\ ~ search_missed text
      /\ permission_denied text
  | UNKNOWN_EXECUTION_FAILURE =>
      ~ binary_missing text /\ ~ window_not_ready text /\ ~ search_missed text
      /\ ~ permission_denied text
  end.

(** Texts made of ASCII digits, and texts with no line feed. *)
Fixpoint all_digits (s : string) : bool :=
  match s with
  | EmptyString => true
  | String c s' => is_digit c && all_digits s'
  end.

Fixpoint no_line_feed (s : string) : bool :=
  match s with
  | EmptyString => true
  | String c s' => negb (Ascii.eqb c (ascii_of_nat 10)) && no_line_feed s'
  end.

(** No white space begins [s]; none ends it. *)
Definition solid_start (s : string) : Prop := match_any whitespace s = None.
Definition solid_end (s : string) : Prop :=
  match_any (map rev whitespace) (rev s) = None.

(** The one header [_write_message] writes. *)
Definition HEADER_NAME : string := "Content-Length".

(** Further vocabulary: texts, projections and predicates that the later
    statements use. *)

Definition MISSING_BINARY_HINT : string :=
  "Set a valid KMSG_BIN path or install kmsg into PATH.".

(** The result [_handle_tools_call] builds from a tool payload. *)
Definition tool_result {rt : PyRuntime} (payload : JSONDict) : JSONDict :=
  [("content", JArr (_make_text_content (json_dumps_pretty (JObj payload))));
   ("isError", JBool (negb (py_bool (get_or payload "ok" (JBool false)))));
   ("structuredContent", JObj payload)].

(** The names the catalogue of [tools/list] gives. *)
Definition listed_names (cfg : Config) : list json :=
  map (fun tool => match tool with
                   | JObj fields => get_or fields "name" JNull
                   | _ => JNull
                   end) (_tool_definitions cfg).

Definition UNKNOWN_TOOL {rt : PyRuntime} (name : json) : exn :=
  MCPError (-32601) ("Unknown tool: " ++ py_str name) [].

Definition NOT_AN_OBJECT : exn :=
  MCPError (-32602) "tool arguments must be an object" [].

Definition is_MCPError (e : exn) : bool :=
  match e with
  | MCPError _ _ _ => true
  | PyExc _ _ => false
  end.

(** The exception is one the operating system raised when it was asked
    for a process. *)
Definition raised_by_popen {W : Type} (os : OS W) (e : exn) : Prop :=
  exists args w, fst (os_popen os args w) = inl e.

(** [_handle_tools_call] once the tool is chosen: the payload wrapped, an
    exception passed on. *)
Definition wrapped {rt : PyRuntime} {W : Type}
    (ran : outcome JSONDict * W * list event) : outcome JSONDict * W * list event :=
  let '(r, w, trace) := ran in
  (match r with
   | Returned payload => Returned (tool_result payload)
   | Raised exc => Raised exc
   end, w, trace).

(** What [initialize] answers to a probe that returned. *)
Definition initialize_answer (cfg : Config) (req_id : json)
    (probe : outcome (bool * JSONDict)) : outcome (option JSONDict) :=
  match probe with
  | Raised exc => Raised exc
  | Returned (ready, detail) =>
      Returned (Some (_json_rpc_result req_id
                        (initialize_result cfg
                           (if negb ready then
                              dict_set detail "note"
                                (JStr "MCP server started, but kmsg readiness check failed")
                            else detail))))
  end.

(** What [tools/call] answers once the tool layer returned or raised. *)
Definition tools_call_answer (req_id : json) (called : outcome JSONDict)
    : outcome (option JSONDict) :=
  match called with
  | Raised exc => Raised exc
  | Returned result => Returned (Some (_json_rpc_result req_id result))
  end.

(** [error[field]] of a JSON-RPC error response. *)
Definition rpc_error_field (field : string) (response : JSONDict) : option json :=
  match dict_get response "error" with
  | Some (JObj error) => dict_get error field
  | _ => None
  end.

(** The time limits the source hands to [run]. *)
Definition TIME_LIMITS : list Q :=
  [2 # 1; 4 # 1; 8 # 1; 15 # 1; 10 # 1; 18 # 1; 12 # 1; 20 # 1].

(** A trace that starts at most two processes, each the configured binary,
    waits with a limit only with the limits of the source, looks at the
    file system at most once, and waits without a limit only for the
    processes it killed. *)
Definition bounded_trace (cfg : Config) (trace : list event) : Prop :=
  Forall (fun argv => hd_error argv = Some (kmsg_bin cfg)) (spawned trace)
  /\ Forall (fun limit => In limit TIME_LIMITS) (waited trace)
  /\ (List.length (spawned trace) <= 2)%nat
  /\ (List.length (consulted trace) <= 1)%nat
  /\ drained trace = killed trace.

Definition INTERNAL_ERROR (req_id : json) (detail : string) : JSONDict :=
  _json_rpc_error req_id (-32000) "Internal server error" [("detail", JStr detail)].

Definition READY_SESSION : Session := {| initialized := true; shutdown := false |}.

(** Not empty, and with no white space at either end. *)
Definition trimmed (s : string) : Prop := s <> EmptyString /\ strip s = s.

(** One frame as a client writes it: the header, a blank line, the body. *)
Definition frame (body : string) : string :=
  "Content-Length: " ++ str_of_Z (Z.of_nat (String.length body)) ++ CRLF ++ CRLF ++ body.

(** The numeral of a length is one [str()] writes and [int()] reads: it
    has no more digits than the limit, as the length of every [bytes]
    object has. *)
Definition within_digit_limit (n : nat) : bool :=
  (String.length (str_of_Z (Z.of_nat n)) <=? MAX_STR_DIGITS)%nat.

(** The frames of some responses, one after the other. *)
Fixpoint frames {rt : PyRuntime} (responses : list JSONDict) : string :=
  match responses with
  | [] => EmptyString
  | response :: later => frame (json_dumps (JObj response)) ++ frames later
  end.

(** ["method" in request] for a [dict]. *)
Definition names_method (request : JSONDict) : bool :=
  existsb (fun kv => String.eqb (fst kv) "method") request.

(** The response [serve_forever] has to write once a request was handled,
    if any. *)
Definition response_to (request : JSONDict)
    (handled : Session * outcome (option JSONDict)) : option JSONDict :=
  response_for (get_or request "id" JNull) (snd handled).

(** The server after a request was handled: the session the handler left,
    the input after the frame, and the frame of the response added to the
    output when there is a response. *)
Definition after_request {rt : PyRuntime} (out later : string) (request : JSONDict)
    (handled : Session * outcome (option JSONDict)) : Server :=
  {| session := fst handled;
     pending_input := later;
     written :=
       match response_to request handled with
       | Some response => out ++ frame (json_dumps (JObj response))
       | None => out
       end |}.

(** The loop when the response cannot be encoded: the session the handler
    left, the input after the frame, nothing written, and the exception of
    the encoder on its way out. *)
Definition write_failed (out later : string)
    (handled : Session * outcome (option JSONDict)) (exc : exn) : Server * ending :=
  ({| session := fst handled; pending_input := later; written := out |}, Crashed exc).

(** What a run of the loop leaves behind. *)
Definition served {rt : PyRuntime} (srv srv' : Server) : Prop :=
  (exists consumed, pending_input srv = consumed ++ pending_input srv')
  /\ (exists responses,
        written srv' = written srv ++ frames responses
        /\ Forall (fun response => dict_get response "jsonrpc" = Some (JStr "2.0"))
             responses)
  /\ (initialized (session srv) = true -> initialized (session srv') = true).

(** A dialogue for running the loop: the requests a client sends, and a
    runtime whose decoder knows their encodings and takes every other text
    for something that is not JSON. *)
Module Dialogue.

Definition initialize_request : JSONDict :=
  [("jsonrpc", JStr "2.0"); ("id", JInt 1); ("method", JStr "initialize")].

Definition ping_request : JSONDict :=
  [("jsonrpc", JStr "2.0"); ("id", JInt 7); ("method", JStr "ping")].

Definition shutdown_request : JSONDict :=
  [("jsonrpc", JStr "2.0"); ("id", JInt 2); ("method", JStr "shutdown")].

Definition progress_notification : JSONDict :=
  [("jsonrpc", JStr "2.0"); ("method", JStr "notifications/progress")].

Definition requests : list json :=
  [JObj initialize_request; JObj ping_request; JObj shutdown_request;
   JObj progress_notification; JInt 5].

Definition body (message : json) : string :=
  json_dumps (rt := Demo.encoder_runtime) message.

(** A [ping] whose id is the lone surrogate U+D800, and the body a client
    writes for it: the id as the escape, which [json.loads] turns into the
    surrogate. *)
Definition lone_surrogate : string := byte_string [237; 160; 128]%nat.

Definition surrogate_ping : JSONDict :=
  [("jsonrpc", JStr "2.0"); ("id", JStr lone_surrogate); ("method", JStr "ping")].

Definition surrogate_ping_body : string :=
  let quoted (s : string) := DQUOTE ++ s ++ DQUOTE in
  "{" ++ quoted "jsonrpc" ++ ": " ++ quoted "2.0" ++ ", "
      ++ quoted "id" ++ ": " ++ quoted (BACKSLASH ++ "ud800") ++ ", "
      ++ quoted "method" ++ ": " ++ quoted "ping" ++ "}".

Definition runtime : PyRuntime :=
  {| float_repr := Demo.demo_float_repr;
     float_repr_nonempty := Demo.demo_float_repr_nonempty;
     str_repr := fun s => "'" ++ s ++ "'";
     json_loads := fun text =>
       if String.eqb text surrogate_ping_body then Decoded (JObj surrogate_ping)
       else Demo.decoder_of requests text;
     int_of_str := Demo.demo_int_of_str;
     int_of_str_decimal := Demo.demo_int_of_str_decimal;
     encode_error_text := Demo.demo_encode_error_text;
     decode_error_text := Demo.demo_decode_error_text |}.

(** A binary that answers [--version] and [status]. *)
Definition healthy : Demo.World :=
  Demo.world [Demo.Exits 0 "kmsg 1.2" EmptyString (1 # 10);
              Demo.Exits 0 "ready" EmptyString (1 # 10)] [].

End Dialogue.

(** [payload["meta"][field]]. *)
Definition meta_field (field : string) (payload : JSONDict) : option json :=
  match dict_get payload "meta" with
  | Some (JObj meta) => dict_get meta field
  | _ => None
  end.

(** What a success of a sending tool says about the run [r] behind it. *)
Definition reports_sent {rt : PyRuntime} (cfg : Config) (arguments payload : JSONDict)
    (r : CommandResult) : Prop :=
  returncode r = 0 /\ timed_out r = false
  /\ dict_get payload "sent" = Some (JBool true)
  /\ dict_get payload "chat" = Some (JStr (arg_chat arguments))
  /\ dict_get payload "error" = None
  /\ meta_field "stdout" payload = Some (JStr (stdout r))
  /\ meta_field "latency_ms" payload = Some (JInt (latency_ms r))
  /\ meta_field "stderr_trace" payload
     = if arg_trace_ax cfg arguments && nonempty (strip (stderr r))
       then Some (JStr (stderr r)) else None.

(** [tool["name"]] and [tool["inputSchema"]["required"]] of an entry of the
    catalogue. *)
Definition tool_name (tool : json) : json :=
  match tool with
  | JObj fields => get_or fields "name" JNull
  | _ => JNull
  end.

Definition required_arguments (tool : json) : list json :=
  match tool with
  | JObj fields =>
      match dict_get fields "inputSchema" with
      | Some (JObj schema) =>
          match dict_get schema "required" with
          | Some (JArr names) => names
          | _ => []
          end
      | _ => []
      end
  | _ => []
  end.

(** * Properties *)

(** Boolean tests on natural numbers in the hypotheses, as propositions. *)
Ltac bool_to_nat :=
  repeat match goal with
  | H : (_ && _)%bool = true |- _ => apply andb_true_iff in H; destruct H
  | H : (_ || _)%bool = true |- _ => apply orb_true_iff in H; destruct H
  | H : (_ || _)%bool = false |- _ => apply orb_false_iff in H; destruct H
  | H : (_ <=? _)%nat = true |- _ => apply Nat.leb_le in H
  | H : (_ <=? _)%nat = false |- _ => apply Nat.leb_gt in H
  | H : (_ =? _)%nat = true |- _ => apply Nat.eqb_eq in H
  | H : (_ =? _)%nat = false |- _ => apply Nat.eqb_neq in H
  end.

(** ** Running programs *)

Section ExecFacts.
Context {W : Type} (os : OS W).

Lemma exec_bind {A B : Type} (m : prog A) (f : A -> prog B) (w : W) :
  exec os (bind m f) w =
  match exec os m w with
  | (Returned a, w1, tr1) =>
      let '(r, w2, tr2) := exec os (f a) w1 in (r, w2, (tr1 ++ tr2)%list)
  | (Raised e, w1, tr1) => (Raised e, w1, tr1)
  end.
Proof.
  revert w; induction m as [a|e|k IH|args k IH|p t k IH|p k IH|p k IH|path k IH];
    intro w; simpl.
  - destruct (exec os (f a) w) as [[r w2] tr2]; reflexivity.
  - reflexivity.
  - destruct (os_clock os w) as [t w1]. rewrite IH.
    destruct (exec os (k t) w1) as [[[a|e] w2] tr]; [|reflexivity].
    destruct (exec os (f a) w2) as [[r w3] tr2]; reflexivity.
  - destruct (os_popen os args w) as [h w1]. rewrite IH.
    destruct (exec os (k h) w1) as [[[a|e] w2] tr]; [|reflexivity].
    destruct (exec os (f a) w2) as [[r w3] tr2]; reflexivity.
  - destruct (os_communicate os p t w) as [c w1]. rewrite IH.
    destruct (exec os (k c) w1) as [[[a|e] w2] tr]; [|reflexivity].
    destruct (exec os (f a) w2) as [[r w3] tr2]; reflexivity.
  - rewrite IH.
    destruct (exec os k (os_kill os p w)) as [[[a|e] w2] tr]; [|reflexivity].
    destruct (exec os (f a) w2) as [[r w3] tr2]; reflexivity.
  - destruct (os_drain os p w) as [c w1]. rewrite IH.
    destruct (exec os (k c) w1) as [[[a|e] w2] tr]; [|reflexivity].
    destruct (exec os (f a) w2) as [[r w3] tr2]; reflexivity.
  - destruct (os_isfile os path w) as [b w1]. rewrite IH.
    destruct (exec os (k b) w1) as [[[a|e] w2] tr]; [|reflexivity].
    destruct (exec os (f a) w2) as [[r w3] tr2]; reflexivity.
Qed.

Lemma exec_attempt {A : Type} (m : prog A) (w : W) :
  exec os (attempt m) w =
  let '(r, w1, tr) := exec os m w in (Returned r, w1, tr).
Proof.
  revert w; induction m as [a|e|k IH|args k IH|p t k IH|p k IH|p k IH|path k IH];
    intro w; simpl; try reflexivity.
  - destruct (os_clock os w) as [t w1]. rewrite IH.
    destruct (exec os (k t) w1) as [[r w2] tr]; reflexivity.
  - destruct (os_popen os args w) as [h w1]. rewrite IH.
    destruct (exec os (k h) w1) as [[r w2] tr]; reflexivity.
  - destruct (os_communicate os p t w) as [c w1]. rewrite IH.
    destruct (exec os (k c) w1) as [[r w2] tr]; reflexivity.
  - rewrite IH.
    destruct (exec os k (os_kill os p w)) as [[r w2] tr]; reflexivity.
  - destruct (os_drain os p w) as [c w1]. rewrite IH.
    destruct (exec os (k c) w1) as [[r w2] tr]; reflexivity.
  - destruct (os_isfile os path w) as [b w1]. rewrite IH.
    destruct (exec os (k b) w1) as [[r w2] tr]; reflexivity.
Qed.

End ExecFacts.

Lemma spawned_app (tr1 tr2 : list event) :
  spawned (tr1 ++ tr2) = (spawned tr1 ++ spawned tr2)%list.
Proof.
  induction tr1 as [|[] tr1 IH]; simpl; rewrite ?IH; reflexivity.
Qed.

Lemma waited_app (tr1 tr2 : list event) :
  waited (tr1 ++ tr2) = (waited tr1 ++ waited tr2)%list.
Proof.
  induction tr1 as [|[] tr1 IH]; simpl; rewrite ?IH; reflexivity.
Qed.

Lemma consulted_app (tr1 tr2 : list event) :
  consulted (tr1 ++ tr2) = (consulted tr1 ++ consulted tr2)%list.
Proof.
  induction tr1 as [|[] tr1 IH]; simpl; rewrite ?IH; reflexivity.
Qed.

Lemma killed_app (tr1 tr2 : list event) :
  killed (tr1 ++ tr2) = (killed tr1 ++ killed tr2)%list.
Proof.
  induction tr1 as [|[] tr1 IH]; simpl; rewrite ?IH; reflexivity.
Qed.

Lemma drained_app (tr1 tr2 : list event) :
  drained (tr1 ++ tr2) = (drained tr1 ++ drained tr2)%list.
Proof.
  induction tr1 as [|[] tr1 IH]; simpl; rewrite ?IH; reflexivity.
Qed.

(** ** The process executor *)

Section RunFacts.
Context {W : Type} (os : OS W).

(** [run] against an operating system, operation by operation. *)
Lemma exec_run (args : list string) (timeout_sec : Q) (w : W) :
  exec os (run args timeout_sec) w =
  let '(start, w0) := os_clock os w in
  let '(started, w1) := os_popen os args w0 in
  match started with
  | inl exc =>
      if is_OSError exc then
        let '(now, w2) := os_clock os w1 in
        (Returned {| returncode := 127; stdout := EmptyString; stderr := exn_text exc;
                     latency_ms := elapsed_ms start now; timed_out := false |},
         w2, [EvClock; EvPopen args; EvClock])
      else (Raised exc, w1, [EvClock; EvPopen args])
  | inr proc =>
      let '(finished, w2) := os_communicate os proc timeout_sec w1 in
      match finished with
      | Some (rc, out, err) =>
          let '(now, w3) := os_clock os w2 in
          (Returned {| returncode := rc; stdout := out; stderr := err;
                       latency_ms := elapsed_ms start now; timed_out := false |},
           w3, [EvClock; EvPopen args; EvCommunicate proc timeout_sec; EvClock])
      | None =>
          let '(captured, w3) := os_drain os proc (os_kill os proc w2) in
          let '(now, w4) := os_clock os w3 in
          (Returned {| returncode := 124; stdout := fst captured; stderr := snd captured;
                       latency_ms := elapsed_ms start now; timed_out := true |},
           w4, [EvClock; EvPopen args; EvCommunicate proc timeout_sec;
                EvKill proc; EvDrain proc; EvClock])
      end
  end.
Proof.
  unfold run; simpl.
  destruct (os_clock os w) as [start w0].
  destruct (os_popen os args w0) as [[exc|proc] w1]; simpl.
  - destruct (is_OSError exc); simpl; [|reflexivity].
    destruct (os_clock os w1) as [t w2]; reflexivity.
  - destruct (os_communicate os proc timeout_sec w1) as [[[[rc out] err]|] w2]; simpl.
    + destruct (os_clock os w2) as [t w3]; reflexivity.
    + destruct (os_drain os proc (os_kill os proc w2)) as [captured w3].
      destruct (os_clock os w3) as [t w4]; reflexivity.
Qed.

(** One call of [run] asks for exactly one process, with the arguments it
    was given, and never looks at the file system. *)
Lemma run_trace (args : list string) (timeout_sec : Q) (w : W) :
  spawned (trace_of os (run args timeout_sec) w) = [args] /\
  consulted (trace_of os (run args timeout_sec) w) = [] /\
  (waited (trace_of os (run args timeout_sec) w) = []
   \/ waited (trace_of os (run args timeout_sec) w) = [timeout_sec]).
Proof.
  unfold trace_of. rewrite exec_run.
  destruct (os_clock os w) as [start w0].
  destruct (os_popen os args w0) as [[exc|proc] w1].
  - destruct (is_OSError exc); [destruct (os_clock os w1)|]; simpl; auto.
  - destruct (os_communicate os proc timeout_sec w1) as [[[[rc out] err]|] w2].
    + destruct (os_clock os w2); simpl; auto.
    + destruct (os_drain os proc (os_kill os proc w2)) as [captured w3].
      destruct (os_clock os w3); simpl; auto.
Qed.

(** [run] waits without a limit only for the process it has just
    killed. *)
Lemma run_drains (args : list string) (timeout_sec : Q) (w : W) :
  drained (trace_of os (run args timeout_sec) w)
  = killed (trace_of os (run args timeout_sec) w).
Proof.
  unfold trace_of. rewrite exec_run.
  destruct (os_clock os w) as [start w0].
  destruct (os_popen os args w0) as [[exc|proc] w1].
  - destruct (is_OSError exc); [destruct (os_clock os w1)|]; reflexivity.
  - destruct (os_communicate os proc timeout_sec w1) as [[[[rc out] err]|] w2].
    + destruct (os_clock os w2); reflexivity.
    + destruct (os_drain os proc (os_kill os proc w2)) as [captured w3].
      destruct (os_clock os w3); reflexivity.
Qed.

(** A result that reports a timeout reports exit status 124. *)
Lemma run_timed_out_status (args : list string) (timeout_sec : Q) (w : W)
    (r : CommandResult) :
  result_of os (run args timeout_sec) w = Returned r ->
  timed_out r = true -> returncode r = 124.
Proof.
  unfold result_of. rewrite exec_run.
  destruct (os_clock os w) as [start w0].
  destruct (os_popen os args w0) as [[exc|proc] w1].
  - destruct (is_OSError exc); [destruct (os_clock os w1)|]; simpl;
      intros E; inversion E; subst; simpl; discriminate.
  - destruct (os_communicate os proc timeout_sec w1) as [[[[rc out] err]|] w2].
    + destruct (os_clock os w2); simpl; intros E; inversion E; subst; simpl; discriminate.
    + destruct (os_drain os proc (os_kill os proc w2)) as [captured w3].
      destruct (os_clock os w3); simpl; intros E; inversion E; subst; reflexivity.
Qed.

End RunFacts.

(** C5, as the code has it.  [run] turns every run into a result except
    one: it catches [OSError] alone when the process is created.  A program
    that cannot be started for an operating-system reason gives the
    synthetic result (status 127, empty stdout, the failure text as stderr,
    no timeout); a program that finishes in time gives its status and
    output; a program that does not is killed, drained, and reported with
    status 124, [timed_out] set and the captured output.  An exception of
    another class raised at process creation is not caught and leaves
    [run] as an exception. *)
Theorem run_outcomes {W : Type} (os : OS W) (w : W) (args : list string)
    (timeout_sec : Q) :
  let result := result_of os (run args timeout_sec) w in
  let trace := trace_of os (run args timeout_sec) w in
  match os_popen os args (snd (os_clock os w)) with
  | (inl exc, _) =>
      if is_OSError exc then
        exists latency,
          result = Returned {| returncode := 127; stdout := EmptyString;
                               stderr := exn_text exc; latency_ms := latency;
                               timed_out := false |}
      else result = Raised exc
  | (inr proc, w1) =>
      match os_communicate os proc timeout_sec w1 with
      | (Some (rc, out, err), _) =>
          exists latency,
            result = Returned {| returncode := rc; stdout := out; stderr := err;
                                 latency_ms := latency; timed_out := false |}
      | (None, w2) =>
          let captured := fst (os_drain os proc (os_kill os proc w2)) in
          (exists latency,
             result = Returned {| returncode := 124; stdout := fst captured;
                                  stderr := snd captured; latency_ms := latency;
                                  timed_out := true |})
          /\ In (EvKill proc) trace
      end
  end.
Proof.
  unfold result_of, trace_of. rewrite exec_run.
  destruct (os_clock os w) as [start w0]; simpl.
  destruct (os_popen os args w0) as [[exc|proc] w1].
  - destruct (is_OSError exc); [|reflexivity].
    destruct (os_clock os w1) as [t w2]; simpl; eauto.
  - destruct (os_communicate os proc timeout_sec w1) as [[[[rc out] err]|] w2].
    + destruct (os_clock os w2) as [t w3]; simpl; eauto.
    + destruct (os_drain os proc (os_kill os proc w2)) as [captured w3].
      destruct (os_clock os w3) as [t w4]; simpl. split; eauto 6.
Qed.

(** C5 as stated fails: a chat name with a NUL in it makes process
    creation raise [ValueError], which [run] lets through. *)
Lemma run_lets_ValueError_through :
  result_of Demo.demo_os
    (run ["/usr/local/bin/kmsg"; "read"; "a" ++ Demo.NUL ++ "b"; "--json"; "--limit"; "20"]
         (8 # 1))
    (Demo.world [Demo.Exits 0 "{}" EmptyString (1 # 2)] [])
  = Raised (PyExc ValueError "embedded null byte").
Proof. vm_compute. reflexivity. Qed.

(** ** The confirmation gate of the sending tools *)

(** C1, as the code has it.  In the two sending tools a truthy [confirm]
    means that nothing is done to the environment at all (no process, no
    clock reading, no file lookup) and that the reported latency is 0.  The
    required fields are checked first: when both are non-empty after
    trimming the code is CONFIRMATION_REQUIRED, otherwise it is
    INVALID_ARGUMENT.  (The read tool has no [confirm] argument and does
    not look at one.) *)
Theorem confirm_gate {rt : PyRuntime} (cfg : Config) {W : Type} (os : OS W) (w : W)
    (arguments : JSONDict) :
  arg_confirm arguments = true ->
  (exists payload,
     exec os (_call_kmsg_send cfg arguments) w = (Returned payload, w, [])
     /\ meta_latency payload = Some (JInt 0)
     /\ error_field "code" payload =
        Some (JStr (if nonempty (arg_chat arguments) && nonempty (arg_message arguments)
                    then "CONFIRMATION_REQUIRED" else "INVALID_ARGUMENT")))
  /\
  (exists payload,
     exec os (_call_kmsg_send_image cfg arguments) w = (Returned payload, w, [])
     /\ meta_latency payload = Some (JInt 0)
     /\ error_field "code" payload =
        Some (JStr (if nonempty (arg_chat arguments) && nonempty (arg_image_path arguments)
                    then "CONFIRMATION_REQUIRED" else "INVALID_ARGUMENT"))).
Proof.
  intros Hconfirm. split.
  - unfold _call_kmsg_send. rewrite Hconfirm.
    destruct (nonempty (arg_chat arguments)), (nonempty (arg_message arguments));
      simpl; eexists; repeat split; reflexivity.
  - unfold _call_kmsg_send_image. rewrite Hconfirm.
    destruct (nonempty (arg_chat arguments)), (nonempty (arg_image_path arguments));
      simpl; eexists; repeat split; reflexivity.
Qed.

Lemma confirm_gate_witness :
  exists payload,
    exec Demo.demo_os
      (_call_kmsg_send (rt := Demo.runtime) Demo.config
         [("chat", JStr "Alice"); ("message", JStr "hi"); ("confirm", JBool true)])
      (Demo.world [Demo.Exits 0 "sent" EmptyString (1 # 2)] [])
    = (Returned payload, Demo.world [Demo.Exits 0 "sent" EmptyString (1 # 2)] [], [])
    /\ meta_latency payload = Some (JInt 0)
    /\ error_field "code" payload = Some (JStr "CONFIRMATION_REQUIRED").
Proof.
  exact (proj1 (confirm_gate (rt := Demo.runtime) Demo.config Demo.demo_os
                  (Demo.world [Demo.Exits 0 "sent" EmptyString (1 # 2)] [])
                  [("chat", JStr "Alice"); ("message", JStr "hi"); ("confirm", JBool true)]
                  eq_refl)).
Defined.

(** C1 as stated fails twice: with [confirm] true and no [chat] the send
    tool answers INVALID_ARGUMENT, and the read tool runs the program
    whatever [confirm] says. *)
Lemma confirm_gate_counterexample :
  option_map (error_field "code")
    (match result_of Demo.demo_os
             (_call_kmsg_send (rt := Demo.runtime) Demo.config
                [("message", JStr "hi"); ("confirm", JBool true)])
             (Demo.world [] []) with
     | Returned payload => Some payload
     | Raised _ => None
     end)
  = Some (Some (JStr "INVALID_ARGUMENT"))
  /\
  spawned (trace_of Demo.demo_os
             (_call_kmsg_read (rt := Demo.runtime) Demo.config
                [("chat", JStr "Alice"); ("confirm", JBool true)])
             (Demo.world [Demo.Exits 0 Demo.alice_stdout EmptyString (1 # 2)] []))
  = [["/usr/local/bin/kmsg"; "read"; "Alice"; "--json"; "--limit"; "20"]].
Proof. split; vm_compute; reflexivity. Qed.

(** ** The confirmation gate and the file check *)

(** C9.  In [_call_kmsg_send_image] the confirmation gate comes before the
    look at the file system: with non-empty [chat] and [image_path] and a
    truthy [confirm] the answer is CONFIRMATION_REQUIRED and nothing is
    asked of the environment, whether the file exists or not; and whenever
    the answer is the missing-file envelope, [confirm] was absent or
    falsy. *)
Theorem confirm_before_file_check {rt : PyRuntime} (cfg : Config) {W : Type}
    (os : OS W) (w : W) (arguments : JSONDict) :
  (nonempty (arg_chat arguments) = true ->
   nonempty (arg_image_path arguments) = true ->
   arg_confirm arguments = true ->
   exec os (_call_kmsg_send_image cfg arguments) w =
   (Returned (_error_payload "CONFIRMATION_REQUIRED"
                "kmsg_send_image blocked because confirm=true requests pre-send confirmation"
                CONFIRM_HINT EmptyString EmptyString 0), w, [])
   /\ consulted (trace_of os (_call_kmsg_send_image cfg arguments) w) = [])
  /\
  (forall payload,
     result_of os (_call_kmsg_send_image cfg arguments) w = Returned payload ->
     error_field "message" payload = Some (JStr MISSING_FILE_MESSAGE) ->
     error_field "code" payload = Some (JStr "INVALID_ARGUMENT")
     /\ (dict_get arguments "confirm" = None
         \/ exists v, dict_get arguments "confirm" = Some v /\ py_bool v = false)).
Proof.
  split.
  - intros Hchat Hpath Hconfirm. unfold trace_of, _call_kmsg_send_image.
    rewrite Hchat, Hpath, Hconfirm. simpl. split; reflexivity.
  - intros payload. unfold result_of, _call_kmsg_send_image.
    destruct (negb (nonempty (arg_chat arguments))
              || negb (nonempty (arg_image_path arguments))).
    { simpl. intros E; inversion E; subst. discriminate. }
    destruct (arg_confirm arguments) eqn:Hconfirm.
    { simpl. intros E; inversion E; subst. discriminate. }
    assert (Habsent : dict_get arguments "confirm" = None
                      \/ exists v, dict_get arguments "confirm" = Some v /\ py_bool v = false).
    { unfold arg_confirm, get_or in Hconfirm.
      destruct (dict_get arguments "confirm") as [v|]; [right; eauto | left; reflexivity]. }
    cbn [exec orb]. destruct (os_isfile os (arg_image_path arguments) w) as [is_file w1].
    destruct is_file; cbn [negb].
    + rewrite exec_bind.
      destruct (exec os (run _ _) w1) as [[[r|e] w2] tr]; simpl; [|discriminate].
      intros E; inversion E; subst. unfold send_after_run.
      destruct (timed_out r); [discriminate|].
      destruct (negb (returncode r =? 0)%Z); discriminate.
    + intros E; inversion E; subst. intros _. split; [reflexivity | exact Habsent].
Qed.

Lemma confirm_before_file_check_witness :
  exec Demo.demo_os
    (_call_kmsg_send_image (rt := Demo.runtime) Demo.config
       [("chat", JStr "Alice"); ("image_path", JStr "/tmp/no-such.png");
        ("confirm", JBool true)])
    (Demo.world [] [])
  = (Returned (_error_payload "CONFIRMATION_REQUIRED"
                 "kmsg_send_image blocked because confirm=true requests pre-send confirmation"
                 CONFIRM_HINT EmptyString EmptyString 0), Demo.world [] [], [])
  /\ consulted (trace_of Demo.demo_os
                  (_call_kmsg_send_image (rt := Demo.runtime) Demo.config
                     [("chat", JStr "Alice"); ("image_path", JStr "/tmp/no-such.png");
                      ("confirm", JBool true)])
                  (Demo.world [] [])) = [].
Proof.
  exact (proj1 (confirm_before_file_check (rt := Demo.runtime) Demo.config Demo.demo_os
                  (Demo.world [] [])
                  [("chat", JStr "Alice"); ("image_path", JStr "/tmp/no-such.png");
                   ("confirm", JBool true)])
               eq_refl eq_refl eq_refl).
Defined.

(** Without [confirm] the same call does consult the file system and gets
    the missing-file envelope. *)
Example missing_file_without_confirm :
  exec Demo.demo_os
    (_call_kmsg_send_image (rt := Demo.runtime) Demo.config
       [("chat", JStr "Alice"); ("image_path", JStr "/tmp/no-such.png")])
    (Demo.world [] [])
  = (Returned (_error_payload "INVALID_ARGUMENT" MISSING_FILE_MESSAGE
                 "Provide a valid local image file path." EmptyString EmptyString 0),
     Demo.world [] [], [EvIsFile "/tmp/no-such.png"]).
Proof. vm_compute. reflexivity. Qed.

(** ** The dispatcher before [initialize] *)

(** C3, as the code has it.  While the session is not initialized,
    [initialize] is served and initializes the session, [ping] is answered,
    and the notification [notifications/initialized] is taken without a
    response and without an error.  Every other method, [tools/call]
    included, raises the protocol error -32002 ("Server not initialized")
    and does nothing to the environment: no tool handler runs and no
    process is started.  For a request with an id that error is answered
    as a JSON-RPC error envelope with the same code and message. *)
Theorem not_initialized_gate {rt : PyRuntime} (cfg : Config) {W : Type}
    (os : OS W) (w : W) (session : Session) (request : JSONDict) :
  initialized session = false ->
  let method := method_of request in
  let req_id := get_or request "id" JNull in
  let handled := exec os (_handle_request cfg session request) w in
  (is_str method "initialize" = true ->
   exists answer w' trace,
     handled = (Returned ({| initialized := true; shutdown := shutdown session |}, answer),
                w', trace))
  /\ (is_str method "initialize" = false ->
      is_str method "notifications/initialized" = true ->
      handled = (Returned (session, Returned None), w, []))
  /\ (is_str method "initialize" = false ->
      is_str method "notifications/initialized" = false ->
      is_str method "ping" = true ->
      handled = (Returned (session, Returned (Some (_json_rpc_result req_id []))), w, []))
  /\ (is_str method "initialize" = false ->
      is_str method "notifications/initialized" = false ->
      is_str method "ping" = false ->
      handled = (Returned (session, Raised NOT_INITIALIZED), w, [])
      /\ (req_id <> JNull ->
          response_for req_id (Raised NOT_INITIALIZED)
          = Some (_json_rpc_error req_id (-32002) "Server not initialized" []))).
Proof.
  intros Hinit method req_id handled. subst handled.
  unfold _handle_request. fold (method_of request). fold method. fold req_id.
  split; [|split; [|split]].
  - intros Hm. rewrite Hm. rewrite exec_bind, exec_attempt.
    destruct (exec os (check_ready cfg) w) as [[[[ready detail]|e] w1] tr];
      simpl; eauto.
  - intros H1 H2. rewrite H1, H2. reflexivity.
  - intros H1 H2 H3. rewrite H1, H2, H3. reflexivity.
  - intros H1 H2 H3. rewrite H1, H2, H3, Hinit. split; [reflexivity|].
    intros Hid. unfold response_for, NOT_INITIALIZED.
    destruct req_id; try reflexivity. contradiction.
Qed.

Lemma not_initialized_gate_witness :
  exec Demo.demo_os
    (_handle_request (rt := Demo.runtime) Demo.config INITIAL_SESSION
       [("jsonrpc", JStr "2.0"); ("id", JInt 1); ("method", JStr "tools/call");
        ("params", JObj [("name", JStr "kmsg_send");
                         ("arguments", JObj [("chat", JStr "Alice");
                                             ("message", JStr "hi")])])])
    (Demo.world [Demo.Exits 0 "sent" EmptyString (1 # 2)] [])
  = (Returned (INITIAL_SESSION, Raised NOT_INITIALIZED),
     Demo.world [Demo.Exits 0 "sent" EmptyString (1 # 2)] [], []).
Proof.
  exact (proj1 (proj2 (proj2 (proj2
    (not_initialized_gate (rt := Demo.runtime) Demo.config Demo.demo_os
       (Demo.world [Demo.Exits 0 "sent" EmptyString (1 # 2)] []) INITIAL_SESSION
       [("jsonrpc", JStr "2.0"); ("id", JInt 1); ("method", JStr "tools/call");
        ("params", JObj [("name", JStr "kmsg_send");
                         ("arguments", JObj [("chat", JStr "Alice");
                                             ("message", JStr "hi")])])]
       eq_refl))) eq_refl eq_refl eq_refl)).
Defined.

(** C3 as stated fails: before [initialize], the method
    [notifications/initialized] is not refused; the call returns without a
    response and raises nothing. *)
Lemma not_initialized_counterexample :
  _handle_request (rt := Demo.runtime) Demo.config INITIAL_SESSION
    [("jsonrpc", JStr "2.0"); ("method", JStr "notifications/initialized")]
  = Ret (INITIAL_SESSION, Returned None).
Proof. reflexivity. Qed.

(** ** The read tool: one run, and at most one retry *)

Section ReadFacts.
Context {rt : PyRuntime} (cfg : Config) {W : Type} (os : OS W).

Lemma exec_raise_or_return {A : Type} (r : outcome A) (w : W) :
  exec os (raise_or_return r) w = (r, w, []).
Proof. destruct r; reflexivity. Qed.

Lemma exec_read_retry (arguments : JSONDict) (cmd : list string) (w : W) :
  exec os (read_retry cfg arguments cmd) w =
  let '(second, w2, tr2) := exec os (run (cmd ++ DEEP_RETRY_FLAG)%list (15 # 1)) w in
  (retry_verdict cfg arguments second, w2, tr2).
Proof.
  unfold read_retry. rewrite exec_bind. fold DEEP_RETRY_FLAG.
  destruct (exec os (run (cmd ++ DEEP_RETRY_FLAG)%list (15 # 1)) w)
    as [[[retry|exc] w2] tr2]; [|reflexivity].
  unfold retry_verdict.
  destruct ((returncode retry =? 0)%Z && negb (timed_out retry)).
  - rewrite exec_raise_or_return. rewrite app_nil_r. reflexivity.
  - cbn [exec]. rewrite app_nil_r. reflexivity.
Qed.

Lemma exec_read_after_first (arguments : JSONDict) (cmd : list string)
    (first : CommandResult) (w : W) :
  exec os (read_after_first cfg arguments cmd first) w =
  if retry_due (arg_deep_recovery cfg arguments) first then
    exec os (read_retry cfg arguments cmd) w
  else (single_run_verdict cfg arguments first, w, []).
Proof.
  unfold read_after_first, retry_due, single_run_verdict.
  destruct (timed_out first); [reflexivity|].
  destruct (negb (returncode first =? 0)%Z); cbn [negb andb].
  - destruct (String.eqb (_extract_error_code (combined_output first)) "CHAT_NOT_FOUND"
              && negb (arg_deep_recovery cfg arguments)); reflexivity.
  - apply exec_raise_or_return.
Qed.

(** A call that passes validation is the first run followed by
    [read_after_first]. *)
Lemma exec_call_kmsg_read (arguments : JSONDict) (raw : Z) (w : W) :
  nonempty (arg_chat arguments) = true ->
  py_int (get_or arguments "limit" (JInt 20)) = Returned raw ->
  let cmd := read_cmd cfg arguments (clamp_limit raw) in
  exec os (_call_kmsg_read cfg arguments) w =
  match exec os (run cmd (read_timeout cfg arguments)) w with
  | (Returned first, w1, tr1) =>
      let '(r, w2, tr2) := exec os (read_after_first cfg arguments cmd first) w1 in
      (r, w2, (tr1 ++ tr2)%list)
  | (Raised exc, w1, tr1) => (Raised exc, w1, tr1)
  end.
Proof.
  intros Hchat Hlimit cmd. unfold _call_kmsg_read.
  rewrite Hchat, Hlimit. cbn [negb]. rewrite exec_bind. reflexivity.
Qed.

(** The processes a validated read call starts: the command, and after it
    at most the same command with the deep-recovery flag appended. *)
Lemma read_spawned (arguments : JSONDict) (raw : Z) (w : W) :
  nonempty (arg_chat arguments) = true ->
  py_int (get_or arguments "limit" (JInt 20)) = Returned raw ->
  let cmd := read_cmd cfg arguments (clamp_limit raw) in
  spawned (trace_of os (_call_kmsg_read cfg arguments) w) = [cmd]
  \/ spawned (trace_of os (_call_kmsg_read cfg arguments) w)
     = [cmd; (cmd ++ DEEP_RETRY_FLAG)%list].
Proof.
  intros Hchat Hlimit cmd. unfold trace_of.
  rewrite (exec_call_kmsg_read arguments w Hchat Hlimit). fold cmd.
  pose proof (run_trace os cmd (read_timeout cfg arguments) w) as [Hs _].
  unfold trace_of in Hs.
  destruct (exec os (run cmd (read_timeout cfg arguments)) w) as [[[first|exc] w1] tr1];
    simpl in Hs; [|left; exact Hs].
  rewrite exec_read_after_first.
  destruct (retry_due (arg_deep_recovery cfg arguments) first).
  - rewrite exec_read_retry.
    pose proof (run_trace os (cmd ++ DEEP_RETRY_FLAG)%list (15 # 1) w1) as [Hs2 _].
    unfold trace_of in Hs2.
    destruct (exec os (run (cmd ++ DEEP_RETRY_FLAG)%list (15 # 1)) w1) as [[second w2] tr2].
    simpl in Hs2. right. cbn [snd]. rewrite spawned_app, Hs, Hs2. reflexivity.
  - left. cbn [snd]. rewrite app_nil_r. exact Hs.
Qed.

(** The sending tools start at most one process. *)
Lemma send_spawned_once (arguments : JSONDict) (w : W) :
  (List.length (spawned (trace_of os (_call_kmsg_send cfg arguments) w)) <= 1)%nat.
Proof.
  unfold trace_of, _call_kmsg_send.
  destruct (negb (nonempty (arg_chat arguments))
            || negb (nonempty (arg_message arguments))); [simpl; lia|].
  destruct (arg_confirm arguments); [simpl; lia|].
  rewrite exec_bind.
  match goal with |- context [exec os (run ?c ?t) w] =>
    pose proof (run_trace os c t w) as [Hs _]; unfold trace_of in Hs;
    destruct (exec os (run c t) w) as [[[r|exc] w1] tr1] end;
    simpl in *; rewrite ?app_nil_r, Hs; simpl; lia.
Qed.

Lemma send_image_spawned_once (arguments : JSONDict) (w : W) :
  (List.length (spawned (trace_of os (_call_kmsg_send_image cfg arguments) w)) <= 1)%nat.
Proof.
  unfold trace_of, _call_kmsg_send_image.
  destruct (negb (nonempty (arg_chat arguments))
            || negb (nonempty (arg_image_path arguments))); [simpl; lia|].
  destruct (arg_confirm arguments); [simpl; lia|].
  cbn [exec]. destruct (os_isfile os (arg_image_path arguments) w) as [is_file w0].
  destruct is_file; cbn [negb]; [|simpl; lia].
  rewrite exec_bind.
  match goal with |- context [exec os (run ?c ?t) w0] =>
    pose proof (run_trace os c t w0) as [Hs _]; unfold trace_of in Hs;
    destruct (exec os (run c t) w0) as [[[r|exc] w1] tr1] end;
    simpl in *; rewrite ?app_nil_r, Hs; simpl; lia.
Qed.

End ReadFacts.

Lemma retry_due_iff (deep_recovery : bool) (first : CommandResult) :
  retry_due deep_recovery first = true <->
  timed_out first = false /\ returncode first <> 0
  /\ _extract_error_code (combined_output first) = "CHAT_NOT_FOUND"
  /\ deep_recovery = false.
Proof.
  unfold retry_due. rewrite !andb_true_iff, !negb_true_iff, String.eqb_eq, Z.eqb_neq.
  tauto.
Qed.

(** C2.  The sending tools never start more than one process.  For a read
    call that passes validation and whose first run returned [first]: when
    [first] did not time out, exited non-zero, classifies as
    CHAT_NOT_FOUND, and deep recovery was off, exactly one more run
    follows, with ["--deep-recovery"] appended to the same command and a
    time limit of 15 seconds; what that run gives is final (its success is
    decoded, its failure, a second CHAT_NOT_FOUND included, becomes an
    error envelope, and nothing runs after it).  In every other case the
    first run is the only one. *)
Theorem retry_policy {rt : PyRuntime} (cfg : Config) {W : Type} (os : OS W) (w : W)
    (arguments : JSONDict) :
  (List.length (spawned (trace_of os (_call_kmsg_send cfg arguments) w)) <= 1)%nat
  /\ (List.length (spawned (trace_of os (_call_kmsg_send_image cfg arguments) w)) <= 1)%nat
  /\ forall (raw : Z) (first : CommandResult) (w1 : W) (tr1 : list event),
      nonempty (arg_chat arguments) = true ->
      py_int (get_or arguments "limit" (JInt 20)) = Returned raw ->
      let cmd := read_cmd cfg arguments (clamp_limit raw) in
      let retry_cmd := (cmd ++ ["--deep-recovery"])%list in
      let call := _call_kmsg_read cfg arguments in
      let retry_conditions :=
        timed_out first = false /\ returncode first <> 0
        /\ _extract_error_code (combined_output first) = "CHAT_NOT_FOUND"
        /\ arg_deep_recovery cfg arguments = false in
      exec os (run cmd (read_timeout cfg arguments)) w = (Returned first, w1, tr1) ->
      (retry_conditions ->
       exists second w2 tr2,
         exec os (run retry_cmd (15 # 1)) w1 = (second, w2, tr2)
         /\ exec os call w = (retry_verdict cfg arguments second, w2, (tr1 ++ tr2)%list)
         /\ spawned (trace_of os call w) = [cmd; retry_cmd]
         /\ (waited tr2 = [] \/ waited tr2 = [15 # 1])
         /\ forall retry,
              second = Returned retry ->
              returncode retry <> 0 \/ timed_out retry = true ->
              exists payload,
                result_of os call w = Returned payload
                /\ dict_get payload "ok" = Some (JBool false)
                /\ error_field "code" payload
                   = Some (JStr (_extract_error_code (combined_output retry))))
      /\ (~ retry_conditions ->
          exec os call w = (single_run_verdict cfg arguments first, w1, tr1)
          /\ spawned (trace_of os call w) = [cmd]).
Proof.
  split; [apply send_spawned_once|]. split; [apply send_image_spawned_once|].
  intros raw first w1 tr1 Hchat Hlimit cmd retry_cmd call retry_conditions Hfirst.
  pose proof (run_trace os cmd (read_timeout cfg arguments) w) as [Hs1 _].
  unfold trace_of in Hs1. rewrite Hfirst in Hs1. simpl in Hs1.
  assert (Hcall : exec os call w =
                  let '(r, w2, tr2) :=
                    exec os (read_after_first cfg arguments cmd first) w1 in
                  (r, w2, (tr1 ++ tr2)%list)).
  { unfold call. rewrite (exec_call_kmsg_read cfg os arguments w Hchat Hlimit).
    fold cmd. rewrite Hfirst. reflexivity. }
  rewrite exec_read_after_first in Hcall.
  split.
  - intros Hdue. apply retry_due_iff in Hdue. rewrite Hdue in Hcall.
    rewrite exec_read_retry in Hcall. fold retry_cmd in Hcall.
    pose proof (run_trace os retry_cmd (15 # 1) w1) as [Hs2 [_ Hw2]].
    unfold trace_of in Hs2, Hw2. unfold DEEP_RETRY_FLAG in Hcall. fold retry_cmd in Hcall.
    destruct (exec os (run retry_cmd (15 # 1)) w1) as [[second w2] tr2].
    simpl in Hs2, Hw2.
    exists second, w2, tr2. split; [reflexivity|]. split; [exact Hcall|].
    split; [unfold trace_of; rewrite Hcall; cbn [snd]; rewrite spawned_app, Hs1, Hs2;
            reflexivity|].
    split; [exact Hw2|].
    intros retry -> Hfail. unfold result_of. rewrite Hcall. cbn [fst retry_verdict].
    assert (Hcond : (returncode retry =? 0)%Z && negb (timed_out retry) = false).
    { destruct Hfail as [Hrc|Hto].
      - apply Z.eqb_neq in Hrc. rewrite Hrc. reflexivity.
      - rewrite Hto. apply andb_false_r. }
    rewrite Hcond. eexists. split; [reflexivity|]. split; reflexivity.
  - intros Hnot.
    assert (Hdue : retry_due (arg_deep_recovery cfg arguments) first = false).
    { destruct (retry_due (arg_deep_recovery cfg arguments) first) eqn:E; [|reflexivity].
      apply retry_due_iff in E. contradiction. }
    rewrite Hdue in Hcall. rewrite app_nil_r in Hcall.
    split; [exact Hcall|]. unfold trace_of. rewrite Hcall. exact Hs1.
Qed.

(** Two misses in a row: two runs and no third, the second with the flag
    and 15 seconds, and the envelope says CHAT_NOT_FOUND. *)
Lemma retry_policy_witness :
  spawned (trace_of Demo.demo_os
             (_call_kmsg_read (rt := Demo.runtime) Demo.config [("chat", JStr "Alice")])
             twice_missing)
  = [["/usr/local/bin/kmsg"; "read"; "Alice"; "--json"; "--limit"; "20"];
     ["/usr/local/bin/kmsg"; "read"; "Alice"; "--json"; "--limit"; "20";
      "--deep-recovery"]].
Proof.
  destruct (proj1 (proj2 (proj2
    (retry_policy (rt := Demo.runtime) Demo.config Demo.demo_os twice_missing
       [("chat", JStr "Alice")])) 20
       {| returncode := 1; stdout := "SEARCH_MISS: Alice"; stderr := EmptyString;
          latency_ms := 500; timed_out := false |}
       (snd (fst (exec Demo.demo_os
                    (run ["/usr/local/bin/kmsg"; "read"; "Alice"; "--json"; "--limit"; "20"]
                         (8 # 1)) twice_missing)))
       [EvClock;
        EvPopen ["/usr/local/bin/kmsg"; "read"; "Alice"; "--json"; "--limit"; "20"];
        EvCommunicate 0%nat (8 # 1); EvClock]
       eq_refl eq_refl eq_refl)
    (conj eq_refl (conj (fun H : 1 = 0 => ltac:(discriminate H))
                     (conj eq_refl eq_refl))))
    as (second & w2 & tr2 & _ & _ & Hspawned & _).
  exact Hspawned.
Defined.

(** ** The classifier's range *)

Lemma extract_error_code_range (text : string) :
  In (_extract_error_code text) CLASSIFIER_CODES.
Proof.
  unfold _extract_error_code, CLASSIFIER_CODES.
  destruct (contains "no such file or directory" (lower text) || contains "not found" (lower text));
    [simpl; auto|].
  destruct (contains "WINDOW_NOT_READY" text); [simpl; auto|].
  destruct (contains "SEARCH_MISS" text); [simpl; auto|].
  destruct (contains "Accessibility" text || contains "손쉬운 사용" text); simpl; auto 6.
Qed.

Lemma extract_error_code_other (text code : string) :
  ~ In code CLASSIFIER_CODES -> _extract_error_code text <> code.
Proof.
  intros Hout Heq. apply Hout. rewrite <- Heq. apply extract_error_code_range.
Qed.

(** ** Timeouts *)

(** The part of C4 that fails, in general: when the deep-recovery retry
    fails in any way, a timeout included, the envelope carries the code the
    classifier gives the captured output, and that is never
    PROCESS_TIMEOUT. *)
Lemma retry_timeout_never_reported {rt : PyRuntime} (cfg : Config)
    (arguments : JSONDict) (retry : CommandResult) :
  timed_out retry = true ->
  exists code,
    retry_verdict cfg arguments (Returned retry)
    = Returned (_error_payload code "kmsg read failed after deep-recovery retry"
                  (_map_hint code) (stdout retry) (stderr retry) (latency_ms retry))
    /\ code <> "PROCESS_TIMEOUT".
Proof.
  intros Hto. exists (_extract_error_code (combined_output retry)).
  unfold retry_verdict. rewrite Hto, andb_false_r. split; [reflexivity|].
  apply extract_error_code_other. unfold CLASSIFIER_CODES. simpl.
  intros [H|[H|[H|[H|[H|[]]]]]]; discriminate H.
Qed.

(** X1.  A timeout of the first run of the read tool, and of the only run
    of either sending tool, is reported as PROCESS_TIMEOUT, with the output
    the executor captured as raw_stdout and raw_stderr and with its
    latency. *)
Theorem first_run_timeout_reported {rt : PyRuntime} (cfg : Config) {W : Type}
    (os : OS W) (arguments : JSONDict) (w w1 : W) (r : CommandResult)
    (tr1 : list event) :
  timed_out r = true ->
  (forall raw,
     nonempty (arg_chat arguments) = true ->
     py_int (get_or arguments "limit" (JInt 20)) = Returned raw ->
     exec os (run (read_cmd cfg arguments (clamp_limit raw)) (read_timeout cfg arguments)) w
     = (Returned r, w1, tr1) ->
     exec os (_call_kmsg_read cfg arguments) w
     = (Returned (_error_payload "PROCESS_TIMEOUT" "kmsg read timed out"
                    "Increase stability (keep KakaoTalk open/focused) and retry."
                    (stdout r) (stderr r) (latency_ms r)), w1, tr1))
  /\ (nonempty (arg_chat arguments) = true ->
      nonempty (arg_message arguments) = true ->
      arg_confirm arguments = false ->
      exec os (run (send_cmd cfg arguments)
                   (if arg_deep_recovery cfg arguments then 18 # 1 else 10 # 1)) w
      = (Returned r, w1, tr1) ->
      exec os (_call_kmsg_send cfg arguments) w
      = (Returned (_error_payload "PROCESS_TIMEOUT" "kmsg send timed out"
                     "Retry after ensuring KakaoTalk is responsive."
                     (stdout r) (stderr r) (latency_ms r)), w1, tr1))
  /\ (forall w0,
      nonempty (arg_chat arguments) = true ->
      nonempty (arg_image_path arguments) = true ->
      arg_confirm arguments = false ->
      os_isfile os (arg_image_path arguments) w = (true, w0) ->
      exec os (run (send_image_cmd cfg arguments)
                   (if arg_deep_recovery cfg arguments then 20 # 1 else 12 # 1)) w0
      = (Returned r, w1, tr1) ->
      exec os (_call_kmsg_send_image cfg arguments) w
      = (Returned (_error_payload "PROCESS_TIMEOUT" "kmsg send-image timed out"
                     "Retry after ensuring KakaoTalk is responsive."
                     (stdout r) (stderr r) (latency_ms r)),
         w1, EvIsFile (arg_image_path arguments) :: tr1)).
Proof.
  intros Hto. split; [|split].
  - intros raw Hchat Hlimit Hrun.
    rewrite (exec_call_kmsg_read cfg os arguments w Hchat Hlimit). rewrite Hrun.
    rewrite exec_read_after_first. unfold retry_due, single_run_verdict.
    rewrite Hto. cbn [negb andb]. rewrite app_nil_r. reflexivity.
  - intros Hchat Hmessage Hconfirm Hrun. unfold _call_kmsg_send.
    rewrite Hchat, Hmessage, Hconfirm. cbn [negb orb]. rewrite exec_bind, Hrun.
    cbn [exec]. unfold send_after_run. rewrite Hto. rewrite app_nil_r. reflexivity.
  - intros w0 Hchat Hpath Hconfirm Hfile Hrun. unfold _call_kmsg_send_image.
    rewrite Hchat, Hpath, Hconfirm. cbn [negb orb exec]. rewrite Hfile. cbn [negb].
    rewrite exec_bind, Hrun.
    cbn [exec]. unfold send_after_run. rewrite Hto. rewrite app_nil_r. reflexivity.
Qed.

(** A send whose program hangs is cut off at 10 seconds. *)
Lemma first_run_timeout_reported_witness :
  exec Demo.demo_os
    (_call_kmsg_send (rt := Demo.runtime) Demo.config
       [("chat", JStr "Alice"); ("message", JStr "hi")])
    (Demo.world [Demo.Hangs "typing" EmptyString] [])
  = (Returned (_error_payload "PROCESS_TIMEOUT" "kmsg send timed out"
                 "Retry after ensuring KakaoTalk is responsive."
                 "typing" EmptyString 10000),
     world_after Demo.demo_os
       (run ["/usr/local/bin/kmsg"; "send"; "Alice"; "hi"] (10 # 1))
       (Demo.world [Demo.Hangs "typing" EmptyString] []),
     trace_of Demo.demo_os
       (run ["/usr/local/bin/kmsg"; "send"; "Alice"; "hi"] (10 # 1))
       (Demo.world [Demo.Hangs "typing" EmptyString] [])).
Proof.
  exact (proj1 (proj2
    (first_run_timeout_reported (rt := Demo.runtime) Demo.config Demo.demo_os
       [("chat", JStr "Alice"); ("message", JStr "hi")]
       (Demo.world [Demo.Hangs "typing" EmptyString] [])
       (world_after Demo.demo_os
          (run ["/usr/local/bin/kmsg"; "send"; "Alice"; "hi"] (10 # 1))
          (Demo.world [Demo.Hangs "typing" EmptyString] []))
       {| returncode := 124; stdout := "typing"; stderr := EmptyString;
          latency_ms := 10000; timed_out := true |}
       (trace_of Demo.demo_os
          (run ["/usr/local/bin/kmsg"; "send"; "Alice"; "hi"] (10 # 1))
          (Demo.world [Demo.Hangs "typing" EmptyString] []))
       eq_refl))
    eq_refl eq_refl eq_refl eq_refl).
Defined.

(** C4 at its failing input: the first run misses, the deep-recovery retry
    hangs and is killed at 15 seconds; the envelope keeps the partial
    output but its code is UNKNOWN_EXEC_FAILURE, not PROCESS_TIMEOUT. *)
Theorem retry_timeout_misreported :
  exec Demo.demo_os
    (_call_kmsg_read (rt := Demo.runtime) Demo.config [("chat", JStr "Alice")])
    miss_then_hang
  = (Returned (_error_payload "UNKNOWN_EXEC_FAILURE"
                 "kmsg read failed after deep-recovery retry"
                 "Check raw_stdout/raw_stderr and rerun with trace_ax=true for details."
                 "partial output" "still searching" 15000),
     {| Demo.now := 31 # 2; Demo.script := [];
        Demo.children := [Demo.Exits 1 "SEARCH_MISS: Alice" EmptyString (1 # 2);
                          Demo.Hangs "partial output" "still searching"];
        Demo.files := [] |},
     [EvClock;
      EvPopen ["/usr/local/bin/kmsg"; "read"; "Alice"; "--json"; "--limit"; "20"];
      EvCommunicate 0%nat (8 # 1); EvClock;
      EvClock;
      EvPopen ["/usr/local/bin/kmsg"; "read"; "Alice"; "--json"; "--limit"; "20";
               "--deep-recovery"];
      EvCommunicate 1%nat (15 # 1); EvKill 1%nat; EvDrain 1%nat; EvClock]).
Proof. vm_compute. reflexivity. Qed.

(** ** The shape of a tool payload *)

Lemma payload_shape_ok (payload : JSONDict) :
  payload_shape payload -> exists ok, dict_get payload "ok" = Some (JBool ok).
Proof. intros [|]; simpl; eauto. Qed.

Section ShapeFacts.
Context {rt : PyRuntime} (cfg : Config) {W : Type} (os : OS W).

Lemma read_success_shape (arguments : JSONDict) (r : CommandResult) (payload : JSONDict) :
  read_success cfg arguments r = Returned payload ->
  payload_shape payload
  /\ error_field "code" payload <> Some (JStr "INVALID_ARGUMENT").
Proof.
  unfold read_success.
  destruct (json_loads (stdout r)) as [[| | | | | |fields]| |cls text];
    intros E; inversion E; subst; split;
    try (apply shape_error); try (apply shape_success; reflexivity);
    simpl; discriminate.
Qed.

Lemma classified_not_invalid_argument (text : string) :
  _extract_error_code text <> "INVALID_ARGUMENT".
Proof.
  apply extract_error_code_other. unfold CLASSIFIER_CODES. simpl.
  intros [H|[H|[H|[H|[H|[]]]]]]; discriminate H.
Qed.

Lemma error_code_of_payload (code message hint out err : string) (latency : Z) :
  error_field "code" (_error_payload code message hint out err latency)
  = Some (JStr code).
Proof. reflexivity. Qed.

Lemma retry_verdict_shape (arguments : JSONDict) (second : outcome CommandResult)
    (payload : JSONDict) :
  retry_verdict cfg arguments second = Returned payload ->
  payload_shape payload
  /\ error_field "code" payload <> Some (JStr "INVALID_ARGUMENT").
Proof.
  unfold retry_verdict. destruct second as [retry|exc]; [|discriminate].
  destruct ((returncode retry =? 0)%Z && negb (timed_out retry)).
  - apply read_success_shape.
  - intros E; inversion E; subst. split; [apply shape_error|].
    rewrite error_code_of_payload. intros H; inversion H as [Hc].
    exact (classified_not_invalid_argument _ Hc).
Qed.

Lemma single_run_verdict_shape (arguments : JSONDict) (first : CommandResult)
    (payload : JSONDict) :
  single_run_verdict cfg arguments first = Returned payload ->
  payload_shape payload
  /\ error_field "code" payload <> Some (JStr "INVALID_ARGUMENT").
Proof.
  unfold single_run_verdict. destruct (timed_out first).
  - intros E; inversion E; subst. split; [apply shape_error|]. simpl. discriminate.
  - destruct (negb (returncode first =? 0)%Z).
    + intros E; inversion E; subst. split; [apply shape_error|].
      rewrite error_code_of_payload. intros H; inversion H as [Hc].
      exact (classified_not_invalid_argument _ Hc).
    + apply read_success_shape.
Qed.

(** Once a read call has passed validation, whatever it returns is an
    envelope or a success, and never INVALID_ARGUMENT. *)
Lemma read_validated_shape (arguments : JSONDict) (raw : Z) (w : W) (payload : JSONDict) :
  nonempty (arg_chat arguments) = true ->
  py_int (get_or arguments "limit" (JInt 20)) = Returned raw ->
  result_of os (_call_kmsg_read cfg arguments) w = Returned payload ->
  payload_shape payload
  /\ error_field "code" payload <> Some (JStr "INVALID_ARGUMENT").
Proof.
  intros Hchat Hlimit. unfold result_of.
  rewrite (exec_call_kmsg_read cfg os arguments w Hchat Hlimit).
  destruct (exec os (run _ _) w) as [[[first|exc] w1] tr1]; [|discriminate].
  rewrite exec_read_after_first.
  destruct (retry_due (arg_deep_recovery cfg arguments) first).
  - rewrite exec_read_retry.
    destruct (exec os (run _ _) w1) as [[second w2] tr2]. cbn [fst].
    apply retry_verdict_shape.
  - cbn [fst]. apply single_run_verdict_shape.
Qed.

Lemma read_shape (arguments : JSONDict) (w : W) (payload : JSONDict) :
  result_of os (_call_kmsg_read cfg arguments) w = Returned payload ->
  payload_shape payload.
Proof.
  destruct (nonempty (arg_chat arguments)) eqn:Hchat.
  - destruct (py_int (get_or arguments "limit" (JInt 20))) as [raw|exc] eqn:Hlimit.
    + intros H. exact (proj1 (read_validated_shape arguments w Hchat Hlimit H)).
    + unfold result_of, _call_kmsg_read. rewrite Hchat, Hlimit. cbn [negb].
      destruct exc as [code message data|[] text]; simpl;
        intros E; inversion E; subst; apply shape_error.
  - unfold result_of, _call_kmsg_read. rewrite Hchat. simpl.
    intros E; inversion E; subst; apply shape_error.
Qed.

Lemma send_after_run_shape (timed_out_message failed_message : string)
    (arguments : JSONDict) (r : CommandResult) :
  payload_shape (send_after_run cfg timed_out_message failed_message arguments r).
Proof.
  unfold send_after_run. destruct (timed_out r); [apply shape_error|].
  destruct (negb (returncode r =? 0)%Z); [apply shape_error|].
  apply shape_success. reflexivity.
Qed.

Lemma send_shape (arguments : JSONDict) (w : W) (payload : JSONDict) :
  result_of os (_call_kmsg_send cfg arguments) w = Returned payload ->
  payload_shape payload.
Proof.
  unfold result_of, _call_kmsg_send.
  destruct (negb (nonempty (arg_chat arguments))
            || negb (nonempty (arg_message arguments))).
  { simpl. intros E; inversion E; subst; apply shape_error. }
  destruct (arg_confirm arguments).
  { simpl. intros E; inversion E; subst; apply shape_error. }
  rewrite exec_bind.
  destruct (exec os (run _ _) w) as [[[r|exc] w1] tr1]; [|discriminate].
  simpl. intros E; inversion E; subst. apply send_after_run_shape.
Qed.

Lemma send_image_shape (arguments : JSONDict) (w : W) (payload : JSONDict) :
  result_of os (_call_kmsg_send_image cfg arguments) w = Returned payload ->
  payload_shape payload.
Proof.
  unfold result_of, _call_kmsg_send_image.
  destruct (negb (nonempty (arg_chat arguments))
            || negb (nonempty (arg_image_path arguments))).
  { simpl. intros E; inversion E; subst; apply shape_error. }
  destruct (arg_confirm arguments).
  { simpl. intros E; inversion E; subst; apply shape_error. }
  cbn [exec]. destruct (os_isfile os (arg_image_path arguments) w) as [is_file w0].
  destruct is_file; cbn [negb].
  - rewrite exec_bind.
    destruct (exec os (run _ _) w0) as [[[r|exc] w1] tr1]; [|discriminate].
    simpl. intros E; inversion E; subst. apply send_after_run_shape.
  - simpl. intros E; inversion E; subst; apply shape_error.
Qed.

End ShapeFacts.

(** ** The limit of the read tool *)



(** A limit of 0 reaches the program as 1. *)
Example limit_zero_becomes_one :
  spawned (trace_of Demo.demo_os
             (_call_kmsg_read (rt := Demo.runtime) Demo.config
                [("chat", JStr "Alice"); ("limit", JInt 0)])
             (Demo.world [Demo.Exits 0 Demo.alice_stdout EmptyString (1 # 2)] []))
  = [["/usr/local/bin/kmsg"; "read"; "Alice"; "--json"; "--limit"; "1"]].
Proof. vm_compute. reflexivity. Qed.

(** ** The result of [tools/call] *)

(** C10.  Whenever [_handle_tools_call] returns, its result is built from
    the payload that the tool named in the call returned in that very run
    (the same operations on the environment, the same state after them):
    that payload has a Boolean [ok] field, [isError] is its negation, the
    text content is the payload pretty-printed with sorted keys, and
    [structuredContent] is the payload itself. *)
Theorem tools_call_result {rt : PyRuntime} (cfg : Config) {W : Type} (os : OS W)
    (w w' : W) (params : json) (result : JSONDict) (trace : list event) :
  exec os (_handle_tools_call cfg params) w = (Returned result, w', trace) ->
  exists (fields call_args payload : JSONDict) (ok : bool),
    params = JObj fields
    /\ get_or fields "arguments" (JObj []) = JObj call_args
    /\ ((get_or fields "name" JNull = JStr "kmsg_read"
         /\ exec os (_call_kmsg_read cfg call_args) w = (Returned payload, w', trace))
        \/ (get_or fields "name" JNull = JStr "kmsg_send"
            /\ exec os (_call_kmsg_send cfg call_args) w = (Returned payload, w', trace))
        \/ (get_or fields "name" JNull = JStr "kmsg_send_image"
            /\ exec os (_call_kmsg_send_image cfg call_args) w
               = (Returned payload, w', trace)))
    /\ dict_get payload "ok" = Some (JBool ok)
    /\ result =
       [("content", JArr [JObj [("type", JStr "text");
                                ("text", JStr (json_dumps_pretty (JObj payload)))]]);
        ("isError", JBool (negb ok));
        ("structuredContent", JObj payload)].
Proof.
  unfold _handle_tools_call.
  destruct params as [| | | | | |fields]; try discriminate.
  destruct (get_or fields "arguments" (JObj [])) as [| | | | | |call_args] eqn:Hargs;
    try discriminate.
  cbv zeta. rewrite exec_bind.
  assert (Hbuilt : forall payload ok,
             dict_get payload "ok" = Some (JBool ok) ->
             [("content",
               JArr (_make_text_content (json_dumps_pretty (JObj payload))));
              ("isError", JBool (negb (py_bool (get_or payload "ok" (JBool false)))));
              ("structuredContent", JObj payload)]
             = [("content", JArr [JObj [("type", JStr "text");
                                        ("text", JStr (json_dumps_pretty (JObj payload)))]]);
                ("isError", JBool (negb ok));
                ("structuredContent", JObj payload)]).
  { intros payload ok Hok. unfold get_or. rewrite Hok. reflexivity. }
  destruct (is_str (get_or fields "name" JNull) "kmsg_read") eqn:E1.
  { destruct (exec os (_call_kmsg_read cfg call_args) w) as [[[payload|exc] w1] tr1]
      eqn:Hexec; [|discriminate].
    cbn [exec]. rewrite app_nil_r. intros E; inversion E; subst.
    assert (Hshape : payload_shape payload).
    { apply (read_shape cfg os call_args w). unfold result_of. rewrite Hexec. reflexivity. }
    destruct (payload_shape_ok Hshape) as [ok Hok].
    exists fields, call_args, payload, ok. split; [reflexivity|]. split; [exact Hargs|].
    split; [left; split; [|exact Hexec]|split; [exact Hok | apply Hbuilt, Hok]].
    destruct (get_or fields "name" JNull); simpl in E1; try discriminate E1.
    apply String.eqb_eq in E1. rewrite E1. reflexivity. }
  destruct (is_str (get_or fields "name" JNull) "kmsg_send") eqn:E2.
  { destruct (exec os (_call_kmsg_send cfg call_args) w) as [[[payload|exc] w1] tr1]
      eqn:Hexec; [|discriminate].
    cbn [exec]. rewrite app_nil_r. intros E; inversion E; subst.
    assert (Hshape : payload_shape payload).
    { apply (send_shape cfg os call_args w). unfold result_of. rewrite Hexec. reflexivity. }
    destruct (payload_shape_ok Hshape) as [ok Hok].
    exists fields, call_args, payload, ok. split; [reflexivity|]. split; [exact Hargs|].
    split; [right; left; split; [|exact Hexec]|split; [exact Hok | apply Hbuilt, Hok]].
    destruct (get_or fields "name" JNull); simpl in E2; try discriminate E2.
    apply String.eqb_eq in E2. rewrite E2. reflexivity. }
  destruct (is_str (get_or fields "name" JNull) "kmsg_send_image") eqn:E3;
    [|discriminate].
  destruct (exec os (_call_kmsg_send_image cfg call_args) w) as [[[payload|exc] w1] tr1]
    eqn:Hexec; [|discriminate].
  cbn [exec]. rewrite app_nil_r. intros E; inversion E; subst.
  assert (Hshape : payload_shape payload).
  { apply (send_image_shape cfg os call_args w). unfold result_of. rewrite Hexec.
    reflexivity. }
  destruct (payload_shape_ok Hshape) as [ok Hok].
  exists fields, call_args, payload, ok. split; [reflexivity|]. split; [exact Hargs|].
  split; [right; right; split; [|exact Hexec]|split; [exact Hok | apply Hbuilt, Hok]].
  destruct (get_or fields "name" JNull); simpl in E3; try discriminate E3.
  apply String.eqb_eq in E3. rewrite E3. reflexivity.
Qed.

(** A sent message: the result is built from the payload of [kmsg_send],
    [ok] is true and [isError] is false. *)
Lemma tools_call_result_witness :
  let params :=
    [("name", JStr "kmsg_send");
     ("arguments", JObj [("chat", JStr "Alice"); ("message", JStr "hi")])] in
  let w := Demo.world [Demo.Exits 0 "sent" EmptyString (1 # 2)] [] in
  let sent :=
    [("ok", JBool true); ("chat", JStr "Alice"); ("sent", JBool true);
     ("meta", JObj [("latency_ms", JInt 500); ("stdout", JStr "sent")])] in
  exists (fields call_args payload : JSONDict) (ok : bool),
    JObj params = JObj fields
    /\ get_or fields "arguments" (JObj []) = JObj call_args
    /\ ((get_or fields "name" JNull = JStr "kmsg_read"
         /\ exec Demo.demo_os (_call_kmsg_read (rt := Demo.runtime) Demo.config call_args) w
            = (Returned payload,
               world_after Demo.demo_os
                 (_handle_tools_call (rt := Demo.runtime) Demo.config (JObj params)) w,
               trace_of Demo.demo_os
                 (_handle_tools_call (rt := Demo.runtime) Demo.config (JObj params)) w))
        \/ (get_or fields "name" JNull = JStr "kmsg_send"
            /\ exec Demo.demo_os (_call_kmsg_send (rt := Demo.runtime) Demo.config call_args) w
               = (Returned payload,
                  world_after Demo.demo_os
                    (_handle_tools_call (rt := Demo.runtime) Demo.config (JObj params)) w,
                  trace_of Demo.demo_os
                    (_handle_tools_call (rt := Demo.runtime) Demo.config (JObj params)) w))
        \/ (get_or fields "name" JNull = JStr "kmsg_send_image"
            /\ exec Demo.demo_os
                 (_call_kmsg_send_image (rt := Demo.runtime) Demo.config call_args) w
               = (Returned payload,
                  world_after Demo.demo_os
                    (_handle_tools_call (rt := Demo.runtime) Demo.config (JObj params)) w,
                  trace_of Demo.demo_os
                    (_handle_tools_call (rt := Demo.runtime) Demo.config (JObj params)) w)))
    /\ dict_get payload "ok" = Some (JBool ok)
    /\ [("content",
         JArr (_make_text_content (json_dumps_pretty (rt := Demo.runtime) (JObj sent))));
        ("isError", JBool false);
        ("structuredContent", JObj sent)]
       = [("content", JArr [JObj [("type", JStr "text");
                                  ("text", JStr (json_dumps_pretty (rt := Demo.runtime)
                                                   (JObj payload)))]]);
          ("isError", JBool (negb ok));
          ("structuredContent", JObj payload)].
Proof.
  exact (@tools_call_result Demo.runtime Demo.config _ Demo.demo_os
           (Demo.world [Demo.Exits 0 "sent" EmptyString (1 # 2)] [])
           (world_after Demo.demo_os
              (_handle_tools_call (rt := Demo.runtime) Demo.config
                 (JObj [("name", JStr "kmsg_send");
                        ("arguments",
                         JObj [("chat", JStr "Alice"); ("message", JStr "hi")])]))
              (Demo.world [Demo.Exits 0 "sent" EmptyString (1 # 2)] []))
           (JObj [("name", JStr "kmsg_send");
                  ("arguments", JObj [("chat", JStr "Alice"); ("message", JStr "hi")])])
           [("content",
             JArr (_make_text_content
                     (json_dumps_pretty (rt := Demo.runtime)
                        (JObj [("ok", JBool true); ("chat", JStr "Alice");
                               ("sent", JBool true);
                               ("meta", JObj [("latency_ms", JInt 500);
                                              ("stdout", JStr "sent")])]))));
            ("isError", JBool false);
            ("structuredContent",
             JObj [("ok", JBool true); ("chat", JStr "Alice"); ("sent", JBool true);
                   ("meta", JObj [("latency_ms", JInt 500); ("stdout", JStr "sent")])])]
           (trace_of Demo.demo_os
              (_handle_tools_call (rt := Demo.runtime) Demo.config
                 (JObj [("name", JStr "kmsg_send");
                        ("arguments",
                         JObj [("chat", JStr "Alice"); ("message", JStr "hi")])]))
              (Demo.world [Demo.Exits 0 "sent" EmptyString (1 # 2)] []))
           eq_refl).
Defined.

(** A refused call: [ok] is false and [isError] is true. *)
Example tools_call_error_flag :
  option_map (fun result => (dict_get result "isError",
                             match dict_get result "structuredContent" with
                             | Some (JObj payload) => dict_get payload "ok"
                             | _ => None
                             end))
    (match result_of Demo.demo_os
             (_handle_tools_call (rt := Demo.runtime) Demo.config
                (JObj [("name", JStr "kmsg_send");
                       ("arguments", JObj [("chat", JStr "Alice")])]))
             (Demo.world [] []) with
     | Returned result => Some result
     | Raised _ => None
     end)
  = Some (Some (JBool true), Some (JBool false)).
Proof. vm_compute. reflexivity. Qed.

(** ** Substrings *)

Section SubstringFacts.

Lemma append_assoc (a b c : string) : (a ++ b) ++ c = a ++ b ++ c.
Proof. induction a as [|x a IH]; simpl; [reflexivity | rewrite IH; reflexivity]. Qed.

Lemma append_nil_r (a : string) : a ++ EmptyString = a.
Proof. induction a as [|x a IH]; simpl; [reflexivity | rewrite IH; reflexivity]. Qed.

Lemma prefix_iff (p s : string) :
  prefix p s = true <-> exists after, s = p ++ after.
Proof.
  revert s; induction p as [|a p IH]; intros s.
  - destruct s; simpl; split; eauto.
  - destruct s as [|b s]; simpl.
    + split; [discriminate | intros [after H]; discriminate H].
    + destruct (ascii_dec a b) as [->|Hne].
      * rewrite IH. split; intros [after H]; exists after.
        -- rewrite H; reflexivity.
        -- inversion H; reflexivity.
      * split; [discriminate | intros [after H]; inversion H; subst; contradiction].
Qed.

Lemma contains_iff (needle s : string) :
  contains needle s = true <-> occurs needle s.
Proof.
  unfold occurs. induction s as [|c s IH]; cbn [contains].
  - rewrite orb_false_r, prefix_iff. split.
    + intros [after H]. exists EmptyString, after. exact H.
    + intros [[|b before] [after H]]; [eauto | discriminate H].
  - rewrite orb_true_iff, prefix_iff, IH. split.
    + intros [[after H]|[before [after H]]].
      * exists EmptyString, after. exact H.
      * exists (String c before), after. rewrite H. reflexivity.
    + intros [[|b before] [after H]].
      * left. exists after. exact H.
      * right. inversion H. eauto.
Qed.

Lemma lower_app (a b : string) : lower (a ++ b) = lower a ++ lower b.
Proof. induction a as [|x a IH]; simpl; [reflexivity | rewrite IH; reflexivity]. Qed.

Lemma lower_app_inv (s a b : string) :
  lower s = a ++ b -> exists x y, s = x ++ y /\ lower x = a /\ lower y = b.
Proof.
  revert s; induction a as [|c a IH]; intros s H.
  - exists EmptyString, s. auto.
  - destruct s as [|d s]; [discriminate H|]. simpl in H. inversion H as [[Hc Hs]].
    destruct (IH s Hs) as (x & y & -> & Hx & Hy).
    exists (String d x), y. simpl. rewrite Hx. auto.
Qed.

Lemma contains_lower_iff (needle s : string) :
  contains needle (lower s) = true <-> occurs_ignoring_case needle s.
Proof.
  rewrite contains_iff. unfold occurs, occurs_ignoring_case. split.
  - intros (before & after & H).
    destruct (lower_app_inv s _ _ H) as (x & rest & -> & Hx & Hrest).
    destruct (lower_app_inv rest _ _ Hrest) as (found & y & -> & Hfound & Hy).
    exists x, found, y. auto.
  - intros (before & found & after & -> & Hfound).
    exists (lower before), (lower after). rewrite !lower_app, Hfound. reflexivity.
Qed.

End SubstringFacts.

(** ** The error classifier *)

Lemma binary_missing_iff (text : string) :
  contains "no such file or directory" (lower text) || contains "not found" (lower text) = true
  <-> binary_missing text.
Proof.
  unfold binary_missing. rewrite orb_true_iff, !contains_lower_iff. tauto.
Qed.

Lemma permission_denied_iff (text : string) :
  contains "Accessibility" text || contains "손쉬운 사용" text = true
  <-> permission_denied text.
Proof.
  unfold permission_denied. rewrite orb_true_iff, !contains_iff. tauto.
Qed.

Lemma first_match_unique (text : string) (k1 k2 : ErrorKind) :
  first_match text k1 -> first_match text k2 -> k1 = k2.
Proof.
  destruct k1, k2; simpl; try reflexivity; tauto.
Qed.

(** C6.  For every text the classifier answers with the code of exactly
    one of the five kinds: the first, in the fixed order, whose test the
    text passes (the two generic phrases in any mix of cases, the markers
    and the permission phrases, the localized one among them, as written),
    and the last kind when none does; and [_map_hint] sends the code of
    each kind to the one hint the table fixes for it. *)
Theorem classifier_priority (text : string) :
  (exists kind,
     _extract_error_code text = kind_code kind
     /\ first_match text kind
     /\ forall other, first_match text other -> other = kind)
  /\ forall kind, _map_hint (kind_code kind) = kind_hint kind.
Proof.
  split; [|intros []; reflexivity].
  assert (Hfound : exists kind,
             _extract_error_code text = kind_code kind /\ first_match text kind).
  { unfold _extract_error_code.
    destruct (contains "no such file or directory" (lower text)
              || contains "not found" (lower text)) eqn:H1.
    { exists BINARY_NOT_FOUND. split; [reflexivity|]. apply binary_missing_iff, H1. }
    assert (N1 : ~ binary_missing text).
    { rewrite <- binary_missing_iff, H1. discriminate. }
    destruct (contains "WINDOW_NOT_READY" text) eqn:H2.
    { exists WINDOW_UNAVAILABLE. split; [reflexivity|]. split; [exact N1|].
      apply contains_iff, H2. }
    assert (N2 : ~ window_not_ready text).
    { unfold window_not_ready. rewrite <- contains_iff, H2. discriminate. }
    destruct (contains "SEARCH_MISS" text) eqn:H3.
    { exists TARGET_NOT_FOUND. split; [reflexivity|]. split; [exact N1|].
      split; [exact N2|]. apply contains_iff, H3. }
    assert (N3 : ~ search_missed text).
    { unfold search_missed. rewrite <- contains_iff, H3. discriminate. }
    destruct (contains "Accessibility" text || contains "손쉬운 사용" text) eqn:H4.
    { exists PERMISSION_DENIED. split; [reflexivity|]. simpl.
      rewrite <- permission_denied_iff, H4. auto. }
    exists UNKNOWN_EXECUTION_FAILURE. split; [reflexivity|]. simpl.
    rewrite <- permission_denied_iff, H4. repeat split; auto; discriminate. }
  destruct Hfound as (kind & Hcode & Hfirst).
  exists kind. split; [exact Hcode|]. split; [exact Hfirst|].
  intros other Hother. exact (first_match_unique text other kind Hother Hfirst).
Qed.

(** A miss reported in words is taken for a missing binary: the generic
    phrase comes first. *)
Example classifier_order_matters :
  _extract_error_code "SEARCH_MISS: Chat Not Found" = "KMSG_BIN_NOT_FOUND"
  /\ _extract_error_code "SEARCH_MISS: Alice" = "CHAT_NOT_FOUND"
  /\ _extract_error_code "손쉬운 사용 권한" = "ACCESSIBILITY_PERMISSION_DENIED"
  /\ _extract_error_code "accessibility" = "UNKNOWN_EXEC_FAILURE".
Proof. repeat split; vm_compute; reflexivity. Qed.

(** ** Trimming and decimal numerals *)

Section TextFacts.

Lemma length_append (a b : string) :
  String.length (a ++ b) = (String.length a + String.length b)%nat.
Proof. induction a as [|x a IH]; simpl; [reflexivity | rewrite IH; reflexivity]. Qed.

Lemma rev_acc_append (s acc : string) : rev_acc s acc = rev s ++ acc.
Proof.
  unfold rev. revert acc; induction s as [|c s IH]; intros acc; simpl.
  - reflexivity.
  - rewrite IH, (IH (String c EmptyString)), append_assoc. reflexivity.
Qed.

Lemma rev_cons (c : ascii) (s : string) : rev (String c s) = rev s ++ String c EmptyString.
Proof. unfold rev at 1. simpl. apply rev_acc_append. Qed.

Lemma rev_append (a b : string) : rev (a ++ b) = rev b ++ rev a.
Proof.
  induction a as [|c a IH]; simpl.
  - rewrite append_nil_r. reflexivity.
  - rewrite !rev_cons, IH, append_assoc. reflexivity.
Qed.

Lemma rev_involutive (s : string) : rev (rev s) = s.
Proof.
  induction s as [|c s IH]; [reflexivity|].
  rewrite rev_cons, rev_append, IH. reflexivity.
Qed.

Lemma all_digits_append (a b : string) :
  all_digits (a ++ b) = all_digits a && all_digits b.
Proof.
  induction a as [|c a IH]; simpl; [reflexivity|].
  rewrite IH, andb_assoc. reflexivity.
Qed.

Lemma all_digits_rev (s : string) : all_digits (rev s) = all_digits s.
Proof.
  induction s as [|c s IH]; [reflexivity|].
  rewrite rev_cons, all_digits_append, IH. simpl.
  rewrite andb_true_r. apply andb_comm.
Qed.

Lemma rev_nonempty (s : string) : s <> EmptyString -> rev s <> EmptyString.
Proof.
  destruct s as [|c s]; [contradiction|]. intros _. rewrite rev_cons.
  destruct (rev s); discriminate.
Qed.

Lemma digit_solid (c : ascii) (s : string) :
  is_digit c = true ->
  match_any whitespace (String c s) = None
  /\ match_any (map rev whitespace) (String c s) = None.
Proof.
  destruct c as [[] [] [] [] [] [] [] []]; intros H;
    try discriminate H; split; reflexivity.
Qed.

Lemma digit_no_line_feed (s : string) : all_digits s = true -> no_line_feed s = true.
Proof.
  induction s as [|c s IH]; [reflexivity|]. simpl.
  intros H. apply andb_true_iff in H as [Hc Hs]. rewrite (IH Hs), andb_true_r.
  destruct c as [[] [] [] [] [] [] [] []]; try discriminate Hc; reflexivity.
Qed.

Lemma digits_solid_start (s : string) :
  all_digits s = true -> solid_start s.
Proof.
  unfold solid_start. destruct s as [|c s]; [reflexivity|]. simpl.
  intros H. apply andb_true_iff in H as [Hc _]. apply (digit_solid c s Hc).
Qed.

(** A text that ends in a digit does not end in white space. *)
Lemma digits_solid_end (before s : string) :
  all_digits s = true -> s <> EmptyString -> solid_end (before ++ s).
Proof.
  intros Hd Hne. unfold solid_end. rewrite rev_append.
  pose proof (rev_nonempty Hne) as Hr. pose proof (all_digits_rev s) as Ha.
  rewrite Hd in Ha. destruct (rev s) as [|c r]; [contradiction|]. simpl in Ha.
  apply andb_true_iff in Ha as [Hc _]. simpl. apply (digit_solid c _ Hc).
Qed.

Lemma drop_while_none (pats : list string) (fuel : nat) (s : string) :
  match_any pats s = None -> drop_while pats fuel s = s.
Proof. intros H. destruct fuel; simpl; [|rewrite H]; reflexivity. Qed.

Lemma lstrip_solid (s : string) : solid_start s -> lstrip s = s.
Proof. apply drop_while_none. Qed.

Lemma rstrip_solid (s : string) : solid_end s -> rstrip s = s.
Proof.
  intros H. unfold rstrip. rewrite (drop_while_none _ _ _ H). apply rev_involutive.
Qed.

Lemma strip_solid (s : string) : solid_start s -> solid_end s -> strip s = s.
Proof.
  intros Hs He. unfold strip. rewrite (lstrip_solid Hs). apply (rstrip_solid He).
Qed.

Lemma lstrip_space (s : string) : solid_start s -> lstrip (String " " s) = s.
Proof.
  intros H. unfold lstrip. simpl.
  replace (prefix EmptyString s) with true by (destruct s; reflexivity).
  simpl. apply (drop_while_none _ _ _ H).
Qed.

Lemma drop_while_step (pats : list string) (fuel n : nat) (s : string) :
  match_any pats s = Some n ->
  drop_while pats (S fuel) s = drop_while pats fuel (drop n s).
Proof. intros H. simpl. rewrite H. reflexivity. Qed.

Lemma match_line_feed (tail : string) :
  match_any (map rev whitespace) (String (ascii_of_nat 10) tail) = Some 1%nat.
Proof. destruct tail; reflexivity. Qed.

Lemma match_carriage_return (tail : string) :
  match_any (map rev whitespace) (String (ascii_of_nat 13) tail) = Some 1%nat.
Proof. destruct tail; reflexivity. Qed.

Lemma rstrip_crlf (s : string) : solid_end s -> rstrip (s ++ CRLF) = s.
Proof.
  intros H. unfold rstrip. rewrite rev_append, length_append, Nat.add_comm.
  change (rev CRLF ++ rev s)
    with (String (ascii_of_nat 10) (String (ascii_of_nat 13) (rev s))).
  change (String.length CRLF + String.length s)%nat with (S (S (String.length s))).
  rewrite (drop_while_step _ _ _ (match_line_feed _)). cbn [drop].
  rewrite (drop_while_step _ _ _ (match_carriage_return _)). cbn [drop].
  rewrite (drop_while_none _ _ _ H). apply rev_involutive.
Qed.

(** The decimal numeral of a natural number: digits only, at least one. *)
Lemma string_of_uint_digits (d : Decimal.uint) :
  all_digits (NilEmpty.string_of_uint d) = true.
Proof. induction d; simpl; auto. Qed.

Lemma string_of_uint_nonnil (d : Decimal.uint) :
  d <> Decimal.Nil ->
  NilZero.string_of_uint d = NilEmpty.string_of_uint d
  /\ NilEmpty.string_of_uint d <> EmptyString.
Proof. destruct d; intros H; try contradiction; split; simpl; try reflexivity; discriminate. Qed.

Lemma str_of_positive (p : positive) :
  str_of_Z (Z.pos p) = NilEmpty.string_of_uint (Pos.to_uint p)
  /\ str_of_Z (Z.pos p) <> EmptyString.
Proof.
  unfold str_of_Z. simpl.
  destruct (string_of_uint_nonnil (DecimalPos.Unsigned.to_uint_nonnil p)) as [He Hne].
  rewrite He. auto.
Qed.

Lemma str_of_nat_digits (n : nat) :
  all_digits (str_of_Z (Z.of_nat n)) = true
  /\ str_of_Z (Z.of_nat n) <> EmptyString.
Proof.
  destruct (Z.of_nat n) as [|p|p] eqn:E; [split; [reflexivity|discriminate]| |lia].
  destruct (str_of_positive p) as [He Hne]. split; [|exact Hne].
  rewrite He. apply string_of_uint_digits.
Qed.

Lemma digits_ok_digits (s : string) (prev : bool) :
  all_digits s = true -> digits_ok prev s = match s with EmptyString => prev | _ => true end.
Proof.
  revert prev; induction s as [|c s IH]; intros prev; simpl; [reflexivity|].
  intros H. apply andb_true_iff in H as [Hc Hs]. rewrite Hc, (IH true Hs).
  destruct s; reflexivity.
Qed.

Lemma remove_underscores_digits (s : string) :
  all_digits s = true -> remove_underscores s = s.
Proof.
  induction s as [|c s IH]; simpl; [reflexivity|].
  intros H. apply andb_true_iff in H as [Hc Hs]. rewrite (IH Hs).
  destruct c as [[] [] [] [] [] [] [] []]; try discriminate Hc; reflexivity.
Qed.

(** [int(str(n)) == n] for a natural number whose numeral is within the
    digit limit. *)
Lemma unsigned_of_text_str_of_nat (n : nat) :
  (String.length (str_of_Z (Z.of_nat n)) <= MAX_STR_DIGITS)%nat ->
  unsigned_of_text (str_of_Z (Z.of_nat n)) = Some (Z.of_nat n).
Proof.
  intros Hlimit. apply Nat.leb_le in Hlimit.
  destruct (str_of_nat_digits n) as [Hd Hne].
  unfold unsigned_of_text. rewrite (digits_ok_digits _ false Hd).
  rewrite (remove_underscores_digits _ Hd), Hlimit.
  destruct (str_of_Z (Z.of_nat n)) eqn:Es; [contradiction|]. rewrite <- Es.
  cbn [andb].
  destruct (Z.of_nat n) as [|p|p] eqn:E; [reflexivity| |lia].
  rewrite (proj1 (str_of_positive p)), NilEmpty.usu. simpl. unfold N.of_uint.
  rewrite DecimalPos.Unsigned.of_to. reflexivity.
Qed.

Lemma int_of_text_str_of_nat (n : nat) :
  (String.length (str_of_Z (Z.of_nat n)) <= MAX_STR_DIGITS)%nat ->
  int_of_text (str_of_Z (Z.of_nat n)) = Some (Z.of_nat n).
Proof.
  intros Hlimit. destruct (str_of_nat_digits n) as [Hd Hne].
  unfold int_of_text.
  rewrite (strip_solid (digits_solid_start _ Hd)
             (digits_solid_end EmptyString Hd Hne)).
  pose proof (unsigned_of_text_str_of_nat n Hlimit) as Hu.
  destruct (str_of_Z (Z.of_nat n)) as [|c s] eqn:Es; [contradiction|].
  simpl in Hd. apply andb_true_iff in Hd as [Hc _].
  destruct c as [[] [] [] [] [] [] [] []]; try discriminate Hc; exact Hu.
Qed.

Lemma take_append_length (a b : string) : take (String.length a) (a ++ b) = a.
Proof. induction a as [|c a IH]; simpl; [destruct b|rewrite IH]; reflexivity. Qed.

Lemma drop_append_length (a b : string) : drop (String.length a) (a ++ b) = b.
Proof. induction a as [|c a IH]; simpl; [reflexivity | exact IH]. Qed.

Lemma no_line_feed_append (a b : string) :
  no_line_feed (a ++ b) = no_line_feed a && no_line_feed b.
Proof.
  induction a as [|c a IH]; simpl; [reflexivity|].
  rewrite IH, andb_assoc. reflexivity.
Qed.

Lemma readline_line (line rest : string) :
  no_line_feed line = true ->
  readline (line ++ String (ascii_of_nat 10) rest) = (line ++ NL, rest).
Proof.
  induction line as [|c line IH]; simpl; intros H.
  - reflexivity.
  - apply andb_true_iff in H as [Hc Hl]. apply negb_true_iff in Hc.
    rewrite Hc, (IH Hl). reflexivity.
Qed.

End TextFacts.

(** ** The framing codec *)

Section FramingFacts.

Lemma read_headers_step (fuel : nat) (headers : headers_t) (stream : string) :
  read_headers (S fuel) headers stream =
  let '(line, rest) := readline stream in
  if String.eqb line EmptyString then (None, rest)
  else if String.eqb line CRLF || String.eqb line NL then (Some headers, rest)
  else
    let decoded := strip line in
    if String.eqb decoded EmptyString then read_headers fuel headers rest
    else
      let '(key, sep, value) := partition_colon decoded in
      if negb sep then read_headers fuel headers rest
      else read_headers fuel (headers_set headers (lower (strip key)) (strip value)) rest.
Proof. reflexivity. Qed.

(** The header line [_write_message] writes is read back as the one
    header [content-length], with the digits as its value. *)
Lemma header_line_parsed (digits : string) :
  all_digits digits = true -> digits <> EmptyString ->
  let line := (HEADER_NAME ++ ": " ++ digits) ++ CRLF in
  strip line = HEADER_NAME ++ ": " ++ digits
  /\ partition_colon (HEADER_NAME ++ ": " ++ digits) = (HEADER_NAME, true, String " " digits)
  /\ lower (strip HEADER_NAME) = "content-length"
  /\ strip (String " " digits) = digits.
Proof.
  intros Hd Hne line.
  assert (Hend : solid_end (HEADER_NAME ++ ": " ++ digits)).
  { rewrite <- append_assoc. apply (digits_solid_end _ Hd Hne). }
  split; [|split; [|split]].
  - unfold strip, line. rewrite lstrip_solid by reflexivity. apply (rstrip_crlf Hend).
  - reflexivity.
  - vm_compute. reflexivity.
  - unfold strip. rewrite (lstrip_space (digits_solid_start _ Hd)).
    apply rstrip_solid. apply (digits_solid_end EmptyString Hd Hne).
Qed.

(** One frame at the head of the stream: the header block is consumed and
    the length it announces is found. *)
Lemma read_headers_frame (digits tail : string) (fuel : nat) :
  all_digits digits = true -> digits <> EmptyString ->
  read_headers (S (S fuel)) [] (HEADER_NAME ++ ": " ++ digits ++ CRLF ++ CRLF ++ tail)
  = (Some [("content-length", digits)], tail).
Proof.
  intros Hd Hne.
  destruct (header_line_parsed Hd Hne) as (Hstrip & Hpart & Hkey & Hvalue).
  set (first_line := (HEADER_NAME ++ ": " ++ digits) ++ CRLF) in *.
  assert (Hread : readline (HEADER_NAME ++ ": " ++ digits ++ CRLF ++ CRLF ++ tail)
                  = (first_line, CRLF ++ tail)).
  { replace (HEADER_NAME ++ ": " ++ digits ++ CRLF ++ CRLF ++ tail)
      with ((HEADER_NAME ++ ": " ++ digits ++ String (ascii_of_nat 13) EmptyString)
              ++ String (ascii_of_nat 10) (CRLF ++ tail)).
    - rewrite readline_line.
      + unfold first_line. rewrite !append_assoc. reflexivity.
      + rewrite !no_line_feed_append, (digit_no_line_feed _ Hd). reflexivity.
    - rewrite !append_assoc. reflexivity. }
  rewrite read_headers_step, Hread.
  assert (Hhead : exists rest, first_line = String "C" rest).
  { unfold first_line, HEADER_NAME. simpl. eauto. }
  destruct Hhead as [rest Hhead].
  replace (String.eqb first_line EmptyString) with false by (rewrite Hhead; reflexivity).
  replace (String.eqb first_line CRLF) with false by (rewrite Hhead; reflexivity).
  replace (String.eqb first_line NL) with false by (rewrite Hhead; reflexivity).
  cbn [orb]. cbv zeta. rewrite Hstrip.
  replace (String.eqb (HEADER_NAME ++ ": " ++ digits) EmptyString) with false by reflexivity.
  rewrite Hpart. cbn [negb]. rewrite Hkey, Hvalue.
  rewrite read_headers_step. reflexivity.
Qed.

End FramingFacts.

(** The encoding of a value is never the empty text. *)
Lemma json_dumps_nonempty {rt : PyRuntime} (payload : json) :
  json_dumps payload <> EmptyString.
Proof.
  destruct payload as [|[]|z|f|s|items|fields]; simpl; try discriminate.
  - destruct z as [|p|p]; [discriminate| |discriminate].
    apply (proj2 (str_of_positive p)).
  - destruct f as [s|[]| |s m e]; simpl; try discriminate; apply float_repr_nonempty.
Qed.

(** ** The codec of UTF-8 *)

(** Well-formed UTF-8 holds no surrogate: the byte ED is a lead byte only,
    and the byte after it is below A0. *)
Lemma utf8_scan_no_surrogate (s : string) :
  forall (need lo hi : nat) (after_ed : bool),
    (hi <= 191)%nat ->
    (after_ed = true -> need <> O /\ (hi <= 159)%nat) ->
    utf8_scan need lo hi s = true -> surrogate_after after_ed s = false.
Proof.
  induction s as [|c s IH]; intros need lo hi after_ed Hhi Hinv Hscan; [reflexivity|].
  cbn [utf8_scan surrogate_after] in *. cbv beta zeta in *.
  set (b := nat_of_ascii c) in *.
  assert (Hnext : forall need' lo' hi',
             (hi' <= 191)%nat ->
             ((b =? 237)%nat = true -> need' <> O /\ (hi' <= 159)%nat) ->
             utf8_scan need' lo' hi' s = true ->
             surrogate_after (b =? 237)%nat s = false)
    by (intros need' lo' hi'; apply IH).
  destruct need as [|need].
  - assert (Hed : after_ed = false).
    { destruct after_ed; [|reflexivity]. destruct (Hinv eq_refl) as [H _]. destruct (H eq_refl). }
    rewrite Hed. cbn [andb orb].
    destruct (b <=? 127)%nat eqn:E1.
    { refine (Hnext _ _ _ _ _ Hscan); [lia | intros E; bool_to_nat; lia]. }
    destruct ((194 <=? b)%nat && (b <=? 223)%nat) eqn:E2.
    { refine (Hnext _ _ _ _ _ Hscan); [lia | intros E; bool_to_nat; lia]. }
    destruct (b =? 224)%nat eqn:E3.
    { refine (Hnext _ _ _ _ _ Hscan); [lia | intros E; bool_to_nat; lia]. }
    destruct ((225 <=? b)%nat && (b <=? 236)%nat || (238 <=? b)%nat && (b <=? 239)%nat)
      eqn:E4.
    { refine (Hnext _ _ _ _ _ Hscan); [lia|]. intros E.
      apply Nat.eqb_eq in E. rewrite E in E4. discriminate E4. }
    destruct (b =? 237)%nat eqn:E5.
    { apply (Hnext 2%nat 128%nat 159%nat); [lia | intros _; split; [discriminate | lia] | exact Hscan]. }
    destruct (b =? 240)%nat eqn:E6.
    { apply (Hnext 3%nat 144%nat 191%nat); [lia | discriminate | exact Hscan]. }
    destruct ((241 <=? b)%nat && (b <=? 243)%nat) eqn:E7.
    { apply (Hnext 3%nat 128%nat 191%nat); [lia | discriminate | exact Hscan]. }
    destruct (b =? 244)%nat eqn:E8; [|discriminate Hscan].
    apply (Hnext 3%nat 128%nat 143%nat); [lia | discriminate | exact Hscan].
  - apply andb_true_iff in Hscan as [Hin Hscan].
    apply andb_true_iff in Hin as [Hlo Hb]. apply Nat.leb_le in Hb.
    assert (Hfirst : after_ed && (160 <=? b)%nat && (b <=? 191)%nat = false).
    { destruct after_ed; [|reflexivity]. destruct (Hinv eq_refl) as [_ H159].
      replace (160 <=? b)%nat with false by (symmetry; apply Nat.leb_gt; lia).
      reflexivity. }
    rewrite Hfirst. cbn [orb].
    apply (Hnext need 128%nat 191%nat); [lia | | exact Hscan].
    intros E. apply Nat.eqb_eq in E. lia.
Qed.

Lemma utf8_valid_no_surrogate (s : string) :
  utf8_valid s = true -> has_surrogate s = false.
Proof.
  apply utf8_scan_no_surrogate; [lia | discriminate].
Qed.

Section CodecFacts.
Context {rt : PyRuntime}.

Lemma encode_utf8_valid (s : string) : utf8_valid s = true -> encode_utf8 s = Returned s.
Proof.
  intros H. unfold encode_utf8. rewrite (utf8_valid_no_surrogate _ H). reflexivity.
Qed.

Lemma encode_utf8_surrogate (s : string) :
  has_surrogate s = true ->
  encode_utf8 s = Raised (PyExc UnicodeEncodeError (encode_error_text s)).
Proof. intros H. unfold encode_utf8. rewrite H. reflexivity. Qed.

(** What [_write_message] writes is the frame of the encoded value; a
    value whose encoding holds a lone surrogate is not written. *)
Lemma write_message_frame (payload : json) :
  utf8_valid (json_dumps payload) = true ->
  _write_message payload = Returned (frame (json_dumps payload)).
Proof.
  intros H. unfold _write_message, frame. rewrite (encode_utf8_valid _ H).
  cbv zeta. rewrite !append_assoc. reflexivity.
Qed.

Lemma write_message_surrogate (payload : json) :
  has_surrogate (json_dumps payload) = true ->
  _write_message payload
  = Raised (PyExc UnicodeEncodeError (encode_error_text (json_dumps payload))).
Proof.
  intros H. unfold _write_message. rewrite (encode_utf8_surrogate _ H). reflexivity.
Qed.

(** What is written is a frame, whenever something is written. *)
Lemma write_message_returned (payload : json) (bytes : string) :
  _write_message payload = Returned bytes ->
  bytes = frame (json_dumps payload) /\ has_surrogate (json_dumps payload) = false.
Proof.
  unfold _write_message, encode_utf8, frame.
  destruct (has_surrogate (json_dumps payload)); [discriminate|].
  cbv zeta. intros E; inversion E. rewrite !append_assoc. split; reflexivity.
Qed.

(** A frame with any body that is not empty is read back as that body. *)
Lemma read_body_frame (body later : string) :
  body <> EmptyString -> within_digit_limit (String.length body) = true ->
  read_body (frame body ++ later) = (Returned (Some body), later).
Proof.
  intros Hne Hlimit. apply Nat.leb_le in Hlimit. unfold read_body, frame.
  destruct (str_of_nat_digits (String.length body)) as [Hd Hdne].
  pose proof (int_of_str_decimal _ (int_of_text_str_of_nat _ Hlimit)) as Hint.
  set (digits := str_of_Z (Z.of_nat (String.length body))) in *.
  replace (("Content-Length: " ++ digits ++ CRLF ++ CRLF ++ body) ++ later)
    with (HEADER_NAME ++ ": " ++ digits ++ CRLF ++ CRLF ++ body ++ later)
    by (unfold HEADER_NAME; rewrite !append_assoc; reflexivity).
  assert (Hfuel : exists fuel,
             String.length (HEADER_NAME ++ ": " ++ digits ++ CRLF ++ CRLF ++ body ++ later)
             = S fuel).
  { unfold HEADER_NAME. simpl. eauto. }
  destruct Hfuel as [fuel ->].
  rewrite (read_headers_frame (body ++ later) fuel Hd Hdne).
  cbn [headers_get]. replace (String.eqb "content-length" "content-length") with true
    by reflexivity.
  rewrite Hint.
  assert (Hlen : (0 < String.length body)%nat).
  { destruct body; [contradiction | simpl; lia]. }
  replace (Z.of_nat (String.length body) <=? 0)%Z with false
    by (symmetry; apply Z.leb_gt; lia).
  unfold read. rewrite Nat2Z.id, take_append_length, drop_append_length.
  destruct body; [contradiction | reflexivity].
Qed.

Lemma read_message_frame (body later : string) :
  body <> EmptyString -> within_digit_limit (String.length body) = true ->
  _read_message (frame body ++ later) = (decode_body body, later).
Proof.
  intros Hne Hlimit. unfold _read_message.
  rewrite (read_body_frame later Hne Hlimit). reflexivity.
Qed.

Lemma decode_body_valid (body : string) :
  utf8_valid body = true ->
  decode_body body
  = match json_loads body with
    | Decoded message => Returned message
    | NotJSON => Returned JNull
    | DecoderError cls text => Raised (PyExc cls text)
    end.
Proof. intros H. unfold decode_body, decode_utf8. rewrite H. reflexivity. Qed.

Lemma decode_body_invalid (body : string) :
  utf8_valid body = false ->
  decode_body body = Raised (PyExc UnicodeDecodeError (decode_error_text body)).
Proof. intros H. unfold decode_body, decode_utf8. rewrite H. reflexivity. Qed.

End CodecFacts.

(** C8, as the code has it.  For a value whose encoding is well-formed
    UTF-8 (no [str] in it holds a lone surrogate) and has a length that
    [int()] reads back (a numeral of 4300 digits at most, as the length of
    any body that fits in a machine is), what [_write_message]
    writes (the header [Content-Length], a blank line, the encoded body)
    is read back by the read side as exactly the encoded body, byte for
    byte, leaving the rest of the stream untouched; [_read_message] gives
    what the decoder makes of that body, which is the original value
    whenever the decoder inverts the encoder on it.  (A value whose
    encoding holds a lone surrogate is not written at all: see
    [surrogate_is_not_written].) *)
Theorem framing_roundtrip {rt : PyRuntime} (payload : json) (rest : string) :
  let encoded := json_dumps payload in
  utf8_valid encoded = true ->
  within_digit_limit (String.length encoded) = true ->
  exists bytes,
    _write_message payload = Returned bytes
    /\ read_body (bytes ++ rest) = (Returned (Some encoded), rest)
    /\ _read_message (bytes ++ rest)
       = (match json_loads encoded with
          | Decoded message => Returned message
          | NotJSON => Returned JNull
          | DecoderError cls text => Raised (PyExc cls text)
          end, rest)
    /\ (json_loads encoded = Decoded payload ->
        _read_message (bytes ++ rest) = (Returned payload, rest)).
Proof.
  intros encoded Hvalid Hlimit.
  pose proof (json_dumps_nonempty payload) as Hne. fold encoded in Hne.
  exists (frame encoded). split; [apply write_message_frame, Hvalid|].
  split; [apply (read_body_frame rest Hne Hlimit)|].
  rewrite (read_message_frame rest Hne Hlimit), (decode_body_valid _ Hvalid).
  split; [reflexivity|]. intros ->. reflexivity.
Qed.

Lemma framing_roundtrip_witness :
  exists bytes,
    _write_message (rt := Demo.runtime) Demo.ping_request = Returned bytes
    /\ read_body (rt := Demo.runtime) (bytes ++ "Content-Length: 2")
       = (Returned (Some (json_dumps (rt := Demo.runtime) Demo.ping_request)),
          "Content-Length: 2")
    /\ _read_message (rt := Demo.runtime) (bytes ++ "Content-Length: 2")
       = (Returned Demo.ping_request, "Content-Length: 2")
    /\ (@json_loads Demo.runtime (json_dumps (rt := Demo.runtime) Demo.ping_request)
        = Decoded Demo.ping_request ->
        _read_message (rt := Demo.runtime) (bytes ++ "Content-Length: 2")
        = (Returned Demo.ping_request, "Content-Length: 2")).
Proof.
  exact (framing_roundtrip (rt := Demo.runtime) Demo.ping_request "Content-Length: 2"
           eq_refl eq_refl).
Defined.

(** A response whose id holds a lone surrogate (the client wrote the escape
    [\ud800] and the decoder of JSON made the [str] of it): the encoder
    raises and nothing is written. *)
Lemma surrogate_is_not_written :
  _write_message (rt := Demo.runtime)
    (JObj [("jsonrpc", JStr "2.0");
           ("id", JStr (byte_string [237; 160; 128]%nat));
           ("result", JObj [])])
  = Raised (PyExc UnicodeEncodeError
              "'utf-8' codec can't encode character: surrogates not allowed").
Proof. vm_compute. reflexivity. Qed.

(** * Further properties *)

(** ** Trimming, once more *)

Section StripFacts.

Lemma length_rev (s : string) : String.length (rev s) = String.length s.
Proof.
  induction s as [|c s IH]; [reflexivity|].
  rewrite rev_cons, length_append, IH. simpl. lia.
Qed.

Lemma drop_suffix (n : nat) (s : string) : exists before, s = before ++ drop n s.
Proof.
  revert s; induction n as [|n IH]; intros s.
  - exists EmptyString. reflexivity.
  - destruct s as [|c s]; [exists EmptyString; reflexivity|].
    destruct (IH s) as [before H]. exists (String c before). simpl. rewrite <- H. reflexivity.
Qed.

Lemma drop_length (n : nat) (s : string) :
  String.length (drop n s) = (String.length s - n)%nat.
Proof.
  revert s; induction n as [|n IH]; intros s; simpl; [lia|].
  destruct s as [|c s]; simpl; [reflexivity | apply IH].
Qed.

Lemma drop_while_suffix (pats : list string) (fuel : nat) (s : string) :
  exists before, s = before ++ drop_while pats fuel s.
Proof.
  revert s; induction fuel as [|fuel IH]; intros s; simpl.
  - exists EmptyString. reflexivity.
  - destruct (match_any pats s) as [n|]; [|exists EmptyString; reflexivity].
    destruct (drop_suffix n s) as [b1 H1]. destruct (IH (drop n s)) as [b2 H2].
    exists (b1 ++ b2). rewrite append_assoc, <- H2. exact H1.
Qed.

Lemma match_any_some (pats : list string) (s : string) (n : nat) :
  match_any pats s = Some n ->
  exists p, In p pats /\ prefix p s = true /\ n = String.length p.
Proof.
  induction pats as [|p pats IH]; simpl; [discriminate|].
  destruct (prefix p s) eqn:Hp.
  - intros E; inversion E. exists p. auto.
  - intros E. destruct (IH E) as (q & Hin & Hq & Hn). exists q. auto.
Qed.

Lemma match_any_none (pats : list string) (s : string) :
  match_any pats s = None <-> forall p, In p pats -> prefix p s = false.
Proof.
  induction pats as [|p pats IH]; simpl.
  - split; [intros _ p [] | reflexivity].
  - destruct (prefix p s) eqn:Hp.
    + split; [discriminate|]. intros H. rewrite (H p (or_introl eq_refl)) in Hp.
      discriminate Hp.
    + rewrite IH. split.
      * intros H q [<-|Hq]; [exact Hp | exact (H q Hq)].
      * intros H q Hq. apply H. right. exact Hq.
Qed.

Lemma prefix_length (p s : string) :
  prefix p s = true -> (String.length p <= String.length s)%nat.
Proof.
  intros H. apply prefix_iff in H as [after ->]. rewrite length_append. lia.
Qed.

(** With enough turns, what [drop_while] leaves begins with none of the
    patterns. *)
Lemma drop_while_settles (pats : list string) (fuel : nat) (s : string) :
  (forall p, In p pats -> p <> EmptyString) ->
  (String.length s <= fuel)%nat ->
  match_any pats (drop_while pats fuel s) = None.
Proof.
  intros Hpats. revert s; induction fuel as [|fuel IH]; intros s Hlen; simpl.
  - destruct s; [|simpl in Hlen; lia]. apply match_any_none. intros p Hp.
    specialize (Hpats p Hp). destruct p; [contradiction | reflexivity].
  - destruct (match_any pats s) as [n|] eqn:Hm; [|exact Hm].
    apply IH. destruct (match_any_some _ _ Hm) as (p & Hin & Hp & ->).
    specialize (Hpats p Hin). apply prefix_length in Hp. rewrite drop_length.
    destruct p; [contradiction|]. simpl in *. lia.
Qed.

Lemma match_any_none_prefix (pats : list string) (r after : string) :
  match_any pats (r ++ after) = None -> match_any pats r = None.
Proof.
  rewrite !match_any_none. intros H p Hp. specialize (H p Hp).
  destruct (prefix p r) eqn:E; [|reflexivity].
  apply prefix_iff in E as [rest ->].
  assert (Ht : prefix p ((p ++ rest) ++ after) = true).
  { apply prefix_iff. exists (rest ++ after). apply append_assoc. }
  rewrite Ht in H. discriminate H.
Qed.

Lemma whitespace_nonempty (p : string) : In p whitespace -> p <> EmptyString.
Proof.
  unfold whitespace. simpl. intros H.
  repeat (destruct H as [<-|H]; [discriminate|]). contradiction.
Qed.

Lemma reversed_whitespace_nonempty (p : string) :
  In p (map rev whitespace) -> p <> EmptyString.
Proof.
  intros H. apply in_map_iff in H as (q & <- & Hq).
  apply rev_nonempty, (whitespace_nonempty Hq).
Qed.

Lemma lstrip_solid_start (s : string) : solid_start (lstrip s).
Proof.
  apply drop_while_settles; [apply whitespace_nonempty | lia].
Qed.

Lemma rstrip_solid_end (s : string) : solid_end (rstrip s).
Proof.
  unfold solid_end, rstrip. rewrite rev_involutive.
  apply drop_while_settles; [apply reversed_whitespace_nonempty|].
  rewrite length_rev. lia.
Qed.

Lemma rstrip_keeps_solid_start (s : string) : solid_start s -> solid_start (rstrip s).
Proof.
  unfold solid_start, rstrip. intros H.
  destruct (drop_while_suffix (map rev whitespace) (String.length s) (rev s))
    as [before Hb].
  apply (match_any_none_prefix whitespace _ (rev before)).
  rewrite <- rev_append, <- Hb, rev_involutive. exact H.
Qed.

(** What [strip] returns neither begins nor ends with white space, so
    trimming it again changes nothing. *)
Lemma strip_idempotent (s : string) : strip (strip s) = strip s.
Proof.
  apply strip_solid.
  - apply rstrip_keeps_solid_start, lstrip_solid_start.
  - apply rstrip_solid_end.
Qed.

End StripFacts.

(** ** Start-up *)

Lemma first_candidate_some (lines : list string) (candidate : string) :
  first_candidate lines = Some candidate ->
  exists line, In line lines /\ candidate = strip line /\ candidate <> EmptyString.
Proof.
  induction lines as [|line lines IH]; simpl; [discriminate|].
  destruct (nonempty (strip line)) eqn:Hn.
  - intros E; inversion E; subst. exists line. split; [auto|]. split; [reflexivity|].
    intros H. rewrite H in Hn. discriminate Hn.
  - intros E. destruct (IH E) as (l & Hin & Hc & Hne). exists l. auto.
Qed.

Lemma nonempty_true (s : string) : nonempty s = true <-> s <> EmptyString.
Proof.
  unfold nonempty. rewrite negb_true_iff. split.
  - intros H E. rewrite E in H. discriminate H.
  - intros H. apply String.eqb_neq. exact H.
Qed.

Lemma first_candidate_found (blanks : list string) (line : string) (rest : list string) :
  (forall blank, In blank blanks -> strip blank = EmptyString) ->
  strip line <> EmptyString ->
  first_candidate (blanks ++ line :: rest) = Some (strip line).
Proof.
  intros Hblanks Hline. induction blanks as [|blank blanks IH]; simpl.
  - apply nonempty_true in Hline. rewrite Hline. reflexivity.
  - rewrite (Hblanks blank (or_introl eq_refl)). simpl.
    apply IH. intros b Hb. apply Hblanks. right. exact Hb.
Qed.

Lemma first_candidate_none (lines : list string) :
  (forall line, In line lines -> strip line = EmptyString) ->
  first_candidate lines = None.
Proof.
  intros Hall. destruct (first_candidate lines) as [c|] eqn:Hc; [|reflexivity].
  destruct (first_candidate_some _ Hc) as (l & Hin & Hl & Hne).
  rewrite Hl, (Hall l Hin) in Hne. contradiction.
Qed.

(** X2.  Start-up resolution, case by case.  The version: the override
    [KMSG_MCP_VERSION] trimmed when that is not blank, whatever the file
    holds; otherwise the first line of the file VERSION that is not blank,
    trimmed, whatever follows it and however the reading would have ended;
    otherwise, when the reading yields blank lines only, 0.0.0 if it
    reaches the end of the file or ends with an [OSError] (in particular
    when the file cannot be opened), and the exception itself if it ends
    with any other one.  A version that is returned is never empty and
    carries no white space at either end.  The binary: the override
    [KMSG_BIN] trimmed when that is not blank, whatever the search path
    holds; otherwise what the search path gives; otherwise the expanded
    [~/.local/bin/kmsg]. *)
Theorem startup_resolution (st : Startup) :
  let explicit := strip (environ_get (env_KMSG_MCP_VERSION st) EmptyString) in
  let env_bin := strip (environ_get (env_KMSG_BIN st) EmptyString) in
  (explicit <> EmptyString -> _resolve_server_version st = Returned explicit)
  /\ (explicit = EmptyString ->
      forall blanks line rest,
        version_lines st = (blanks ++ line :: rest)%list ->
        (forall blank, In blank blanks -> strip blank = EmptyString) ->
        strip line <> EmptyString ->
        _resolve_server_version st = Returned (strip line))
  /\ (explicit = EmptyString ->
      (forall line, In line (version_lines st) -> strip line = EmptyString) ->
      _resolve_server_version st =
        match version_end st with
        | EndOfFile | ReadRaises OSError _ => Returned "0.0.0"
        | ReadRaises cls text => Raised (PyExc cls text)
        end)
  /\ (forall version,
        _resolve_server_version st = Returned version ->
        version <> EmptyString /\ strip version = version)
  /\ (env_bin <> EmptyString -> _resolve_kmsg_bin st = env_bin)
  /\ (env_bin = EmptyString ->
      forall found, which_kmsg st = Some found -> found <> EmptyString ->
      _resolve_kmsg_bin st = found)
  /\ (env_bin = EmptyString ->
      which_kmsg st = None \/ which_kmsg st = Some EmptyString ->
      _resolve_kmsg_bin st = expanded_fallback st).
Proof.
  cbv zeta. split; [|split; [|split; [|split; [|split; [|split]]]]].
  - intros Hne. unfold _resolve_server_version.
    apply nonempty_true in Hne. rewrite Hne. reflexivity.
  - intros Hblank blanks line rest Hlines Hblanks Hline.
    unfold _resolve_server_version. rewrite Hblank, Hlines.
    rewrite (@first_candidate_found blanks line rest Hblanks Hline). reflexivity.
  - intros Hblank Hall. unfold _resolve_server_version.
    rewrite Hblank, (@first_candidate_none _ Hall). simpl.
    destruct (version_end st) as [|[] text]; reflexivity.
  - intros version. unfold _resolve_server_version.
    destruct (nonempty (strip (environ_get (env_KMSG_MCP_VERSION st) EmptyString))) eqn:Hn.
    + intros E; inversion E; subst. split; [apply nonempty_true, Hn | apply strip_idempotent].
    + destruct (first_candidate (version_lines st)) as [c|] eqn:Hc.
      * intros E; inversion E; subst.
        destruct (first_candidate_some _ Hc) as (l & _ & Hl & Hne).
        split; [exact Hne|]. rewrite Hl. apply strip_idempotent.
      * assert (Hdefault : forall v, Returned "0.0.0" = Returned v ->
                                     v <> EmptyString /\ strip v = v).
        { intros v E; inversion E; subst. split; [discriminate | vm_compute; reflexivity]. }
        destruct (version_end st) as [|cls text]; [apply Hdefault|].
        destruct (exc_class_eqb cls OSError); [apply Hdefault | discriminate].
  - intros Hne. unfold _resolve_kmsg_bin. apply nonempty_true in Hne. rewrite Hne.
    reflexivity.
  - intros Hblank found Hwhich Hfound. unfold _resolve_kmsg_bin.
    rewrite Hblank, Hwhich. simpl. apply nonempty_true in Hfound. rewrite Hfound.
    reflexivity.
  - intros Hblank Hwhich. unfold _resolve_kmsg_bin. rewrite Hblank. simpl.
    destruct Hwhich as [->| ->]; reflexivity.
Qed.

(** A blank override, a file [VERSION] with an empty first line: the second
    line is the version, and the constructor keeps the binary found on the
    search path. *)
Example version_read_from_file :
  let st :=
    {| env_KMSG_BIN := None;
       which_kmsg := Some "/usr/local/bin/kmsg";
       expanded_fallback := "/home/user/.local/bin/kmsg";
       env_KMSG_DEFAULT_DEEP_RECOVERY := Some "TRUE";
       env_KMSG_TRACE_DEFAULT := None;
       env_KMSG_MCP_VERSION := Some "  ";
       version_lines := [NL; " 1.4.2" ++ NL; "ignored" ++ NL];
       version_end := EndOfFile |} in
  server_config st
  = Returned {| kmsg_bin := "/usr/local/bin/kmsg";
                default_deep_recovery := true;
                default_trace_ax := false;
                server_version := "1.4.2" |}.
Proof. vm_compute. reflexivity. Qed.

(** A file [VERSION] that is not UTF-8 text: the [UnicodeDecodeError] is not
    an [OSError], and the constructor raises. *)
Example version_file_undecodable :
  let st :=
    {| env_KMSG_BIN := None;
       which_kmsg := None;
       expanded_fallback := "/home/user/.local/bin/kmsg";
       env_KMSG_DEFAULT_DEEP_RECOVERY := None;
       env_KMSG_TRACE_DEFAULT := None;
       env_KMSG_MCP_VERSION := None;
       version_lines := [];
       version_end := ReadRaises UnicodeDecodeError "invalid start byte" |} in
  server_config st = Raised (PyExc UnicodeDecodeError "invalid start byte").
Proof. vm_compute. reflexivity. Qed.

(** ** What the tools do around the run *)

Section ToolFacts.
Context {rt : PyRuntime} (cfg : Config) {W : Type} (os : OS W).

Lemma exec_call_kmsg_send (arguments : JSONDict) (w : W) :
  exec os (_call_kmsg_send cfg arguments) w =
  if negb (nonempty (arg_chat arguments)) || negb (nonempty (arg_message arguments)) then
    (Returned (_error_payload "INVALID_ARGUMENT" "chat and message are required"
                 "Provide both chat and message." EmptyString EmptyString 0), w, [])
  else if arg_confirm arguments then
    (Returned (_error_payload "CONFIRMATION_REQUIRED"
                 "kmsg_send blocked because confirm=true requests pre-send confirmation"
                 CONFIRM_HINT EmptyString EmptyString 0), w, [])
  else
    match exec os (run (send_cmd cfg arguments)
                       (if arg_deep_recovery cfg arguments then 18 # 1 else 10 # 1)) w with
    | (Returned r, w1, tr1) =>
        (Returned (send_after_run cfg "kmsg send timed out" "kmsg send failed" arguments r),
         w1, tr1)
    | (Raised exc, w1, tr1) => (Raised exc, w1, tr1)
    end.
Proof.
  unfold _call_kmsg_send.
  destruct (negb (nonempty (arg_chat arguments))
            || negb (nonempty (arg_message arguments))); [reflexivity|].
  destruct (arg_confirm arguments); [reflexivity|].
  rewrite exec_bind.
  destruct (exec os (run _ _) w) as [[[r|exc] w1] tr1]; [|reflexivity].
  cbn [exec]. rewrite app_nil_r. reflexivity.
Qed.

Lemma exec_call_kmsg_send_image (arguments : JSONDict) (w : W) :
  exec os (_call_kmsg_send_image cfg arguments) w =
  if negb (nonempty (arg_chat arguments)) || negb (nonempty (arg_image_path arguments)) then
    (Returned (_error_payload "INVALID_ARGUMENT" "chat and image_path are required"
                 "Provide both chat and image_path." EmptyString EmptyString 0), w, [])
  else if arg_confirm arguments then
    (Returned (_error_payload "CONFIRMATION_REQUIRED"
                 "kmsg_send_image blocked because confirm=true requests pre-send confirmation"
                 CONFIRM_HINT EmptyString EmptyString 0), w, [])
  else
    let '(is_file, w0) := os_isfile os (arg_image_path arguments) w in
    if negb is_file then
      (Returned (_error_payload "INVALID_ARGUMENT" MISSING_FILE_MESSAGE
                   "Provide a valid local image file path." EmptyString EmptyString 0),
       w0, [EvIsFile (arg_image_path arguments)])
    else
      match exec os (run (send_image_cmd cfg arguments)
                         (if arg_deep_recovery cfg arguments then 20 # 1 else 12 # 1)) w0 with
      | (Returned r, w1, tr1) =>
          (Returned (send_after_run cfg "kmsg send-image timed out" "kmsg send-image failed"
                       arguments r),
           w1, EvIsFile (arg_image_path arguments) :: tr1)
      | (Raised exc, w1, tr1) =>
          (Raised exc, w1, EvIsFile (arg_image_path arguments) :: tr1)
      end.
Proof.
  unfold _call_kmsg_send_image.
  destruct (negb (nonempty (arg_chat arguments))
            || negb (nonempty (arg_image_path arguments))); [reflexivity|].
  destruct (arg_confirm arguments); [reflexivity|].
  cbn [exec]. destruct (os_isfile os (arg_image_path arguments) w) as [is_file w0].
  destruct is_file; cbn [negb]; [|reflexivity].
  rewrite exec_bind.
  destruct (exec os (run _ _) w0) as [[[r|exc] w1] tr1]; [|reflexivity].
  cbn [exec]. rewrite app_nil_r. reflexivity.
Qed.

Lemma send_after_run_not_invalid (timed_out_message failed_message : string)
    (arguments : JSONDict) (r : CommandResult) :
  error_field "code" (send_after_run cfg timed_out_message failed_message arguments r)
  <> Some (JStr "INVALID_ARGUMENT").
Proof.
  unfold send_after_run. destruct (timed_out r); [simpl; discriminate|].
  destruct (negb (returncode r =? 0)%Z); [|simpl; discriminate].
  rewrite error_code_of_payload. intros H; inversion H as [Hc].
  exact (classified_not_invalid_argument _ Hc).
Qed.

End ToolFacts.

(** X3.  In each of the three tools an INVALID_ARGUMENT answer means that
    no process was started: the envelope carries latency 0 and empty raw
    output.  Validation never comes after a run. *)
Theorem invalid_argument_runs_nothing {rt : PyRuntime} (cfg : Config) {W : Type}
    (os : OS W) (w : W) (arguments payload : JSONDict) :
  error_field "code" payload = Some (JStr "INVALID_ARGUMENT") ->
  let unstarted (call : prog JSONDict) :=
    result_of os call w = Returned payload ->
    spawned (trace_of os call w) = []
    /\ meta_latency payload = Some (JInt 0)
    /\ error_field "raw_stdout" payload = Some (JStr EmptyString)
    /\ error_field "raw_stderr" payload = Some (JStr EmptyString) in
  unstarted (_call_kmsg_read cfg arguments)
  /\ unstarted (_call_kmsg_send cfg arguments)
  /\ unstarted (_call_kmsg_send_image cfg arguments).
Proof.
  intros Hcode unstarted. unfold unstarted. split; [|split].
  - destruct (nonempty (arg_chat arguments)) eqn:Hchat.
    + destruct (py_int (get_or arguments "limit" (JInt 20))) as [raw|exc] eqn:Hlimit.
      * intros H. destruct (read_validated_shape cfg os arguments w Hchat Hlimit H) as [_ Hn].
        contradiction.
      * unfold result_of, trace_of, _call_kmsg_read. rewrite Hchat, Hlimit. cbn [negb].
        destruct exc as [code message data|[] text]; simpl;
          intros E; inversion E; subst; repeat split; reflexivity.
    + unfold result_of, trace_of, _call_kmsg_read. rewrite Hchat. simpl.
      intros E; inversion E; subst; repeat split; reflexivity.
  - unfold result_of, trace_of. rewrite exec_call_kmsg_send.
    destruct (negb (nonempty (arg_chat arguments))
              || negb (nonempty (arg_message arguments))).
    { simpl. intros E; inversion E; subst; repeat split; reflexivity. }
    destruct (arg_confirm arguments).
    { simpl. intros E; inversion E; subst. discriminate Hcode. }
    destruct (exec os (run _ _) w) as [[[r|exc] w1] tr1]; [|discriminate].
    simpl. intros E; inversion E; subst.
    destruct (send_after_run_not_invalid cfg _ _ _ _ Hcode).
  - unfold result_of, trace_of. rewrite exec_call_kmsg_send_image.
    destruct (negb (nonempty (arg_chat arguments))
              || negb (nonempty (arg_image_path arguments))).
    { simpl. intros E; inversion E; subst; repeat split; reflexivity. }
    destruct (arg_confirm arguments).
    { simpl. intros E; inversion E; subst. discriminate Hcode. }
    destruct (os_isfile os (arg_image_path arguments) w) as [is_file w0].
    destruct is_file; cbn [negb].
    + destruct (exec os (run _ _) w0) as [[[r|exc] w1] tr1]; [|discriminate].
      simpl. intros E; inversion E; subst.
      destruct (send_after_run_not_invalid cfg _ _ _ _ Hcode).
    + simpl. intros E; inversion E; subst; repeat split; reflexivity.
Qed.

(** A limit that is not a number is refused before anything runs. *)
Lemma invalid_argument_runs_nothing_witness :
  spawned (trace_of Demo.demo_os
             (_call_kmsg_read (rt := Demo.runtime) Demo.config
                [("chat", JStr "Alice"); ("limit", JStr "many")])
             (Demo.world [Demo.Exits 0 Demo.alice_stdout EmptyString (1 # 2)] []))
  = []
  /\ meta_latency (_error_payload "INVALID_ARGUMENT" "limit must be an integer"
                     "Use integer range 1..100 for limit." EmptyString EmptyString 0)
     = Some (JInt 0)
  /\ error_field "raw_stdout"
       (_error_payload "INVALID_ARGUMENT" "limit must be an integer"
          "Use integer range 1..100 for limit." EmptyString EmptyString 0)
     = Some (JStr EmptyString)
  /\ error_field "raw_stderr"
       (_error_payload "INVALID_ARGUMENT" "limit must be an integer"
          "Use integer range 1..100 for limit." EmptyString EmptyString 0)
     = Some (JStr EmptyString).
Proof.
  exact (proj1 (invalid_argument_runs_nothing (rt := Demo.runtime) Demo.config Demo.demo_os
                  (Demo.world [Demo.Exits 0 Demo.alice_stdout EmptyString (1 # 2)] [])
                  [("chat", JStr "Alice"); ("limit", JStr "many")]
                  (_error_payload "INVALID_ARGUMENT" "limit must be an integer"
                     "Use integer range 1..100 for limit." EmptyString EmptyString 0)
                  eq_refl)
               eq_refl).
Defined.

(** ** A binary that cannot be started *)

Lemma occurs_ignoring_case_after (needle before text : string) :
  occurs_ignoring_case needle text -> occurs_ignoring_case needle (before ++ text).
Proof.
  intros (b & found & after & -> & Hf).
  exists (before ++ b), found, after. rewrite append_assoc. auto.
Qed.

Lemma missing_binary_classified (out text : string) :
  occurs_ignoring_case "no such file or directory" text ->
  _extract_error_code (out ++ NL ++ text) = "KMSG_BIN_NOT_FOUND".
Proof.
  intros H. unfold _extract_error_code.
  assert (Hb : binary_missing (out ++ NL ++ text)).
  { left. rewrite <- append_assoc. apply occurs_ignoring_case_after, H. }
  apply binary_missing_iff in Hb. rewrite Hb. reflexivity.
Qed.

(** [run] when the operating system refuses to create the process. *)
Lemma exec_run_refused {W : Type} (os : OS W) (args : list string) (timeout_sec : Q)
    (w : W) (text : string) :
  fst (os_popen os args (snd (os_clock os w))) = inl (PyExc OSError text) ->
  exists latency w1,
    exec os (run args timeout_sec) w
    = (Returned {| returncode := 127; stdout := EmptyString; stderr := text;
                   latency_ms := latency; timed_out := false |},
       w1, [EvClock; EvPopen args; EvClock]).
Proof.
  rewrite exec_run. destruct (os_clock os w) as [start w0]. simpl.
  destruct (os_popen os args w0) as [started w1]. simpl. intros ->. simpl.
  destruct (os_clock os w1) as [now w2]. eauto.
Qed.

(** X4.  When the operating system cannot create the process and says so
    with an [OSError] whose text mentions "no such file or directory" (in
    any mix of cases), the read and the send tool answer with the code
    KMSG_BIN_NOT_FOUND, the hint to set KMSG_BIN, latency and the text of
    the error as raw_stderr; the process was asked for once and the read
    tool does not retry. *)
Theorem missing_binary_reported {rt : PyRuntime} (cfg : Config) {W : Type} (os : OS W)
    (w : W) (arguments : JSONDict) (text : string) :
  occurs_ignoring_case "no such file or directory" text ->
  (forall raw,
     nonempty (arg_chat arguments) = true ->
     py_int (get_or arguments "limit" (JInt 20)) = Returned raw ->
     let cmd := read_cmd cfg arguments (clamp_limit raw) in
     fst (os_popen os cmd (snd (os_clock os w))) = inl (PyExc OSError text) ->
     exists latency,
       result_of os (_call_kmsg_read cfg arguments) w
       = Returned (_error_payload "KMSG_BIN_NOT_FOUND" "kmsg read failed"
                     MISSING_BINARY_HINT EmptyString text latency)
       /\ spawned (trace_of os (_call_kmsg_read cfg arguments) w) = [cmd])
  /\ (nonempty (arg_chat arguments) = true ->
      nonempty (arg_message arguments) = true ->
      arg_confirm arguments = false ->
      fst (os_popen os (send_cmd cfg arguments) (snd (os_clock os w)))
      = inl (PyExc OSError text) ->
      exists latency,
        result_of os (_call_kmsg_send cfg arguments) w
        = Returned (_error_payload "KMSG_BIN_NOT_FOUND" "kmsg send failed"
                      MISSING_BINARY_HINT EmptyString text latency)
        /\ spawned (trace_of os (_call_kmsg_send cfg arguments) w)
           = [send_cmd cfg arguments]).
Proof.
  intros Hphrase.
  pose proof (missing_binary_classified EmptyString Hphrase) as Hclass.
  split.
  - intros raw Hchat Hlimit cmd Hrefused.
    destruct (exec_run_refused os cmd (read_timeout cfg arguments) w Hrefused)
      as (latency & w1 & Hrun).
    exists latency. unfold result_of, trace_of.
    rewrite (exec_call_kmsg_read cfg os arguments w Hchat Hlimit). fold cmd. rewrite Hrun.
    rewrite exec_read_after_first. unfold retry_due, single_run_verdict, combined_output.
    cbn [timed_out returncode stdout stderr latency_ms negb andb Z.eqb].
    rewrite Hclass. simpl. split; reflexivity.
  - intros Hchat Hmessage Hconfirm Hrefused.
    destruct (exec_run_refused os (send_cmd cfg arguments)
                (if arg_deep_recovery cfg arguments then 18 # 1 else 10 # 1) w Hrefused)
      as (latency & w1 & Hrun).
    exists latency. unfold result_of, trace_of. rewrite exec_call_kmsg_send.
    rewrite Hchat, Hmessage, Hconfirm. cbn [negb orb]. rewrite Hrun.
    unfold send_after_run, combined_output.
    cbn [timed_out returncode stdout stderr latency_ms negb Z.eqb].
    rewrite Hclass. simpl. split; reflexivity.
Qed.

(** No program at all in the scripted environment: the send tool reports
    the missing binary. *)
Lemma missing_binary_reported_witness :
  exists latency,
    result_of Demo.demo_os
      (_call_kmsg_send (rt := Demo.runtime) Demo.config
         [("chat", JStr "Alice"); ("message", JStr "hi")])
      (Demo.world [] [])
    = Returned (_error_payload "KMSG_BIN_NOT_FOUND" "kmsg send failed"
                  MISSING_BINARY_HINT EmptyString
                  "[Errno 2] No such file or directory" latency)
    /\ spawned (trace_of Demo.demo_os
                  (_call_kmsg_send (rt := Demo.runtime) Demo.config
                     [("chat", JStr "Alice"); ("message", JStr "hi")])
                  (Demo.world [] []))
       = [["/usr/local/bin/kmsg"; "send"; "Alice"; "hi"]].
Proof.
  assert (Hphrase : occurs_ignoring_case "no such file or directory"
                      "[Errno 2] No such file or directory").
  { exists "[Errno 2] ", "No such file or directory", EmptyString.
    split; reflexivity. }
  exact (proj2 (missing_binary_reported (rt := Demo.runtime) Demo.config Demo.demo_os
                  (Demo.world [] [])
                  [("chat", JStr "Alice"); ("message", JStr "hi")] Hphrase)
               eq_refl eq_refl eq_refl eq_refl).
Defined.

(** ** The dispatch of [tools/call] *)

Section ToolsCallFacts.
Context {rt : PyRuntime} (cfg : Config).

Lemma is_str_true (v : json) (literal : string) :
  is_str v literal = true <-> v = JStr literal.
Proof.
  destruct v; simpl; try (split; [discriminate | intros H; discriminate H]).
  rewrite String.eqb_eq. split; [intros ->; reflexivity | intros H; inversion H; reflexivity].
Qed.

Lemma listed_names_are (name : json) :
  In name (listed_names cfg)
  <-> name = JStr "kmsg_read" \/ name = JStr "kmsg_send" \/ name = JStr "kmsg_send_image".
Proof.
  unfold listed_names. simpl. split.
  - intros [H|[H|[H|[]]]]; subst; auto.
  - intros [H|[H|H]]; subst; auto.
Qed.

End ToolsCallFacts.

(** ** The dispatcher, request by request *)

Section DispatcherFacts.
Context {rt : PyRuntime} (cfg : Config) {W : Type} (os : OS W).

(** [_handle_request] against an operating system, branch by branch. *)
Lemma exec_handle_request (session : Session) (request : JSONDict) (w : W) :
  exec os (_handle_request cfg session request) w =
  let method := method_of request in
  let req_id := get_or request "id" JNull in
  if is_str method "initialize" then
    let '(probe, w1, tr) := exec os (check_ready cfg) w in
    (Returned ({| initialized := true; shutdown := shutdown session |},
               initialize_answer cfg req_id probe), w1, tr)
  else if is_str method "notifications/initialized" then
    (Returned (session, Returned None), w, [])
  else if is_str method "ping" then
    (Returned (session, Returned (Some (_json_rpc_result req_id []))), w, [])
  else if negb (initialized session) then
    (Returned (session, Raised NOT_INITIALIZED), w, [])
  else if is_str method "tools/list" then
    (Returned (session,
               Returned (Some (_json_rpc_result req_id
                                 [("tools", JArr (_tool_definitions cfg))]))), w, [])
  else if is_str method "tools/call" then
    let '(called, w1, tr) :=
      exec os (_handle_tools_call cfg (get_or request "params" (JObj []))) w in
    (Returned (session, tools_call_answer req_id called), w1, tr)
  else if is_str method "shutdown" then
    (Returned ({| initialized := initialized session; shutdown := true |},
               Returned (Some (_json_rpc_result req_id []))), w, [])
  else if is_str method "exit" then
    (Returned ({| initialized := initialized session; shutdown := true |}, Returned None),
     w, [])
  else
    (Returned (session,
               Raised (MCPError (-32601) ("Method not found: " ++ py_str method) [])),
     w, []).
Proof.
  unfold _handle_request. fold (method_of request). cbv zeta.
  destruct (is_str (method_of request) "initialize").
  { rewrite exec_bind, exec_attempt.
    destruct (exec os (check_ready cfg) w) as [[[[ready detail]|exc] w1] tr];
      cbn [exec initialize_answer]; rewrite app_nil_r; reflexivity. }
  destruct (is_str (method_of request) "notifications/initialized"); [reflexivity|].
  destruct (is_str (method_of request) "ping"); [reflexivity|].
  destruct (negb (initialized session)); [reflexivity|].
  destruct (is_str (method_of request) "tools/list"); [reflexivity|].
  destruct (is_str (method_of request) "tools/call").
  { rewrite exec_bind, exec_attempt.
    destruct (exec os (_handle_tools_call cfg (get_or request "params" (JObj []))) w)
      as [[[result|exc] w1] tr];
      cbn [exec tools_call_answer]; rewrite app_nil_r; reflexivity. }
  destruct (is_str (method_of request) "shutdown"); [reflexivity|].
  destruct (is_str (method_of request) "exit"); reflexivity.
Qed.

Lemma is_str_false (v : json) (literal : string) :
  is_str v literal = false <-> v <> JStr literal.
Proof.
  rewrite <- is_str_true. destruct (is_str v literal); split; congruence.
Qed.

End DispatcherFacts.

(** X6.  How a request moves the session.  Every request leaves
    [_handle_request] with a session and an answer; no request clears a
    flag.  The session becomes initialized exactly on [initialize],
    whatever the readiness probe gives, raises included.  It becomes marked
    for shutdown exactly on [shutdown] or [exit] received when it is
    initialized: before initialization the two are refused and the flag
    stays as it was. *)
Theorem session_transitions {rt : PyRuntime} (cfg : Config) {W : Type} (os : OS W)
    (w : W) (session : Session) (request : JSONDict) :
  exists session' answer w' trace,
    exec os (_handle_request cfg session request) w
    = (Returned (session', answer), w', trace)
    /\ (initialized session' = true <->
        initialized session = true \/ method_of request = JStr "initialize")
    /\ (shutdown session' = true <->
        shutdown session = true
        \/ (initialized session = true
            /\ (method_of request = JStr "shutdown" \/ method_of request = JStr "exit"))).
Proof.
  rewrite exec_handle_request. cbv zeta.
  destruct (is_str (method_of request) "initialize") eqn:E1.
  { apply is_str_true in E1.
    destruct (exec os (check_ready cfg) w) as [[probe w1] tr].
    do 4 eexists. split; [reflexivity|]. rewrite E1. simpl. split.
    - tauto.
    - split; [auto|]. intros [H|[_ [H|H]]]; [exact H | discriminate H | discriminate H]. }
  apply is_str_false in E1.
  destruct (is_str (method_of request) "notifications/initialized") eqn:E2.
  { apply is_str_true in E2. do 4 eexists. split; [reflexivity|]. rewrite E2 in *. split.
    - split; [auto|]. intros [H|H]; [exact H | discriminate H].
    - split; [auto|]. intros [H|[_ [H|H]]]; [exact H | discriminate H | discriminate H]. }
  destruct (is_str (method_of request) "ping") eqn:E3.
  { apply is_str_true in E3. do 4 eexists. split; [reflexivity|]. rewrite E3 in *. split.
    - split; [auto|]. intros [H|H]; [exact H | discriminate H].
    - split; [auto|]. intros [H|[_ [H|H]]]; [exact H | discriminate H | discriminate H]. }
  destruct (initialized session) eqn:Hinit; cbn [negb].
  2:{ do 4 eexists. split; [reflexivity|]. rewrite Hinit. split.
      - split; [auto|]. intros [H|H]; [discriminate H | contradiction].
      - split; [auto|]. intros [H|[H _]]; [exact H | discriminate H]. }
  destruct (is_str (method_of request) "tools/list") eqn:E4.
  { apply is_str_true in E4. do 4 eexists. split; [reflexivity|]. rewrite E4 in *. split.
    - rewrite Hinit. tauto.
    - split; [auto|]. intros [H|[_ [H|H]]]; [exact H | discriminate H | discriminate H]. }
  destruct (is_str (method_of request) "tools/call") eqn:E5.
  { apply is_str_true in E5.
    destruct (exec os (_handle_tools_call cfg (get_or request "params" (JObj []))) w)
      as [[called w1] tr].
    do 4 eexists. split; [reflexivity|]. rewrite E5 in *. split.
    - rewrite Hinit. tauto.
    - split; [auto|]. intros [H|[_ [H|H]]]; [exact H | discriminate H | discriminate H]. }
  destruct (is_str (method_of request) "shutdown") eqn:E6.
  { apply is_str_true in E6. do 4 eexists. split; [reflexivity|]. simpl. tauto. }
  destruct (is_str (method_of request) "exit") eqn:E7.
  { apply is_str_true in E7. do 4 eexists. split; [reflexivity|]. simpl. tauto. }
  apply is_str_false in E6, E7.
  do 4 eexists. split; [reflexivity|]. rewrite Hinit. split; [tauto|].
  split; [auto|]. intros [H|[_ [H|H]]]; [exact H | contradiction | contradiction].
Qed.

(** A [shutdown] that arrives before [initialize] is refused and does not
    stop the server. *)
Example shutdown_before_initialize :
  exec Demo.demo_os
    (_handle_request (rt := Demo.runtime) Demo.config INITIAL_SESSION
       [("jsonrpc", JStr "2.0"); ("id", JInt 3); ("method", JStr "shutdown")])
    (Demo.world [] [])
  = (Returned (INITIAL_SESSION, Raised NOT_INITIALIZED), Demo.world [] [], []).
Proof. vm_compute. reflexivity. Qed.

(** ** The answers of the dispatcher *)

Section AnswerFacts.
Context {rt : PyRuntime} (cfg : Config) {W : Type} (os : OS W).

(** Whatever [_handle_request] returns as a response is a result
    envelope for the id of the request. *)
Lemma returned_response_is_result (session session' : Session) (request response : JSONDict)
    (w w' : W) (trace : list event) :
  exec os (_handle_request cfg session request) w
  = (Returned (session', Returned (Some response)), w', trace) ->
  exists result, response = _json_rpc_result (get_or request "id" JNull) result.
Proof.
  rewrite exec_handle_request. cbv zeta.
  destruct (is_str (method_of request) "initialize").
  { destruct (exec os (check_ready cfg) w) as [[[[ready detail]|exc] w1] tr];
      simpl; intros E; inversion E; eauto. }
  destruct (is_str (method_of request) "notifications/initialized"); [discriminate|].
  destruct (is_str (method_of request) "ping"); [intros E; inversion E; eauto|].
  destruct (negb (initialized session)); [discriminate|].
  destruct (is_str (method_of request) "tools/list"); [intros E; inversion E; eauto|].
  destruct (is_str (method_of request) "tools/call").
  { destruct (exec os (_handle_tools_call cfg (get_or request "params" (JObj []))) w)
      as [[[result|exc] w1] tr]; simpl; intros E; inversion E; eauto. }
  destruct (is_str (method_of request) "shutdown"); [intros E; inversion E; eauto|].
  destruct (is_str (method_of request) "exit"); discriminate.
Qed.

End AnswerFacts.

(** X7.  Every response the server writes for a request carries
    ["jsonrpc": "2.0"] and the id of the request, and is either a result
    (what the handler returned, with no [error] member) or an error with a
    code and a message (the handler raised, with no [result] member).  An
    error is answered only to a request that has an id: a failing
    notification gets no response at all. *)
Theorem response_well_formed {rt : PyRuntime} (cfg : Config) {W : Type} (os : OS W)
    (w w' : W) (session session' : Session) (request response : JSONDict)
    (answer : outcome (option JSONDict)) (trace : list event) :
  exec os (_handle_request cfg session request) w
  = (Returned (session', answer), w', trace) ->
  let req_id := get_or request "id" JNull in
  response_for req_id answer = Some response ->
  dict_get response "jsonrpc" = Some (JStr "2.0")
  /\ dict_get response "id" = Some req_id
  /\ ((answer = Returned (Some response)
       /\ (exists result, dict_get response "result" = Some (JObj result))
       /\ dict_get response "error" = None)
      \/ ((exists exc, answer = Raised exc)
          /\ req_id <> JNull
          /\ (exists code message,
                rpc_error_field "code" response = Some (JInt code)
                /\ rpc_error_field "message" response = Some (JStr message))
          /\ dict_get response "result" = None)).
Proof.
  intros Hexec req_id Hresponse.
  destruct answer as [[returned|]|exc]; simpl in Hresponse.
  - inversion Hresponse; subst returned.
    destruct (returned_response_is_result cfg os _ _ _ Hexec) as [result ->].
    fold req_id. split; [reflexivity|]. split; [reflexivity|]. left.
    split; [reflexivity|]. split; [eexists; reflexivity | reflexivity].
  - discriminate Hresponse.
  - assert (Hid : req_id <> JNull).
    { intros E. rewrite E in Hresponse. discriminate Hresponse. }
    assert (Hsome : Some response =
                    match exc with
                    | MCPError code message data =>
                        Some (_json_rpc_error req_id code message data)
                    | PyExc _ text =>
                        Some (_json_rpc_error req_id (-32000) "Internal server error"
                                [("detail", JStr text)])
                    end).
    { rewrite <- Hresponse. destruct req_id; try reflexivity. contradiction. }
    destruct exc as [code message data|cls text]; inversion Hsome; subst response.
    + split; [reflexivity|]. split; [reflexivity|]. right.
      split; [eauto|]. split; [exact Hid|]. split; [|reflexivity].
      exists code, message. split; reflexivity.
    + split; [reflexivity|]. split; [reflexivity|]. right.
      split; [eauto|]. split; [exact Hid|]. split; [|reflexivity].
      exists (-32000), "Internal server error". split; reflexivity.
Qed.

(** [tools/call] before [initialize], with an id: the error -32002 for that
    id. *)
Lemma response_well_formed_witness :
  rpc_error_field "code"
    (_json_rpc_error (JInt 1) (-32002) "Server not initialized" [])
  = Some (JInt (-32002))
  /\ dict_get (_json_rpc_error (JInt 1) (-32002) "Server not initialized" []) "id"
     = Some (JInt 1).
Proof.
  destruct (@response_well_formed Demo.runtime Demo.config _ Demo.demo_os
              (Demo.world [] []) (Demo.world [] []) INITIAL_SESSION INITIAL_SESSION
              [("jsonrpc", JStr "2.0"); ("id", JInt 1); ("method", JStr "tools/call")]
              (_json_rpc_error (JInt 1) (-32002) "Server not initialized" [])
              (Raised NOT_INITIALIZED) [] eq_refl eq_refl)
    as (_ & Hid & _).
  split; [reflexivity | exact Hid].
Defined.

(** ** What a request may do to the environment *)

Section TraceFacts.
Context {rt : PyRuntime} (cfg : Config) {W : Type} (os : OS W).

Lemma bounded_nil : bounded_trace cfg [].
Proof. unfold bounded_trace. simpl. repeat split; auto. Qed.

Lemma bounded_run (args : list string) (limit : Q) (w : W) :
  hd_error args = Some (kmsg_bin cfg) -> In limit TIME_LIMITS ->
  bounded_trace cfg (trace_of os (run args limit) w).
Proof.
  intros Hhd Hin. destruct (run_trace os args limit w) as (Hs & Hc & Hw).
  unfold bounded_trace. rewrite Hs, Hc, (run_drains os args limit w). simpl.
  split; [auto|]. split; [|split; [lia | split; [lia | reflexivity]]].
  destruct Hw as [->| ->]; auto.
Qed.

Lemma bounded_two_runs (args1 args2 : list string) (limit1 limit2 : Q) (w w1 : W) :
  hd_error args1 = Some (kmsg_bin cfg) -> In limit1 TIME_LIMITS ->
  hd_error args2 = Some (kmsg_bin cfg) -> In limit2 TIME_LIMITS ->
  bounded_trace cfg (trace_of os (run args1 limit1) w ++ trace_of os (run args2 limit2) w1).
Proof.
  intros H1 L1 H2 L2.
  destruct (run_trace os args1 limit1 w) as (Hs1 & Hc1 & Hw1).
  destruct (run_trace os args2 limit2 w1) as (Hs2 & Hc2 & Hw2).
  unfold bounded_trace.
  rewrite spawned_app, waited_app, consulted_app, killed_app, drained_app,
    Hs1, Hs2, Hc1, Hc2, (run_drains os args1 limit1 w), (run_drains os args2 limit2 w1).
  simpl. split; [auto|]. split; [|split; [lia | split; [lia | reflexivity]]].
  destruct Hw1 as [->| ->], Hw2 as [->| ->]; simpl; auto.
Qed.

Lemma bounded_after_lookup (path : string) (trace : list event) :
  consulted trace = [] -> bounded_trace cfg trace ->
  bounded_trace cfg (EvIsFile path :: trace).
Proof.
  unfold bounded_trace. simpl. intros -> (H1 & H2 & H3 & _ & H5). simpl. auto.
Qed.

Lemma read_timeout_limit (arguments : JSONDict) : In (read_timeout cfg arguments) TIME_LIMITS.
Proof. unfold read_timeout, TIME_LIMITS. destruct (arg_deep_recovery cfg arguments); simpl; auto 10. Qed.

Lemma read_bounded (arguments : JSONDict) (w : W) :
  bounded_trace cfg (trace_of os (_call_kmsg_read cfg arguments) w).
Proof.
  destruct (nonempty (arg_chat arguments)) eqn:Hchat.
  2:{ unfold trace_of, _call_kmsg_read. rewrite Hchat. apply bounded_nil. }
  destruct (py_int (get_or arguments "limit" (JInt 20))) as [raw|exc] eqn:Hlimit.
  2:{ unfold trace_of, _call_kmsg_read. rewrite Hchat, Hlimit. cbn [negb].
      destruct exc as [code message data|[] text]; apply bounded_nil. }
  unfold trace_of. rewrite (exec_call_kmsg_read cfg os arguments w Hchat Hlimit).
  set (cmd := read_cmd cfg arguments (clamp_limit raw)).
  pose proof (bounded_run cmd w (eq_refl : hd_error cmd = Some (kmsg_bin cfg))
                (read_timeout_limit arguments)) as B1.
  unfold trace_of in B1.
  destruct (exec os (run cmd (read_timeout cfg arguments)) w) as [[[first|exc] w1] tr1] eqn:E1;
    [|exact B1].
  rewrite exec_read_after_first.
  destruct (retry_due (arg_deep_recovery cfg arguments) first).
  - rewrite exec_read_retry.
    pose proof (bounded_two_runs cmd (cmd ++ DEEP_RETRY_FLAG)%list w w1
                  (eq_refl : hd_error cmd = Some (kmsg_bin cfg))
                  (read_timeout_limit arguments)
                  (eq_refl : hd_error (cmd ++ DEEP_RETRY_FLAG)%list = Some (kmsg_bin cfg))
                  (limit2 := 15 # 1) ltac:(unfold TIME_LIMITS; simpl; auto 10)) as B2.
    unfold trace_of in B2. rewrite E1 in B2.
    destruct (exec os (run (cmd ++ DEEP_RETRY_FLAG)%list (15 # 1)) w1) as [[second w2] tr2].
    exact B2.
  - cbn [snd]. rewrite app_nil_r. exact B1.
Qed.

Lemma send_bounded (arguments : JSONDict) (w : W) :
  bounded_trace cfg (trace_of os (_call_kmsg_send cfg arguments) w).
Proof.
  unfold trace_of. rewrite exec_call_kmsg_send.
  destruct (negb (nonempty (arg_chat arguments))
            || negb (nonempty (arg_message arguments))); [apply bounded_nil|].
  destruct (arg_confirm arguments); [apply bounded_nil|].
  match goal with |- context [exec os (run ?c ?t) w] =>
    assert (B : bounded_trace cfg (trace_of os (run c t) w));
    [apply bounded_run; [reflexivity|];
     unfold TIME_LIMITS; destruct (arg_deep_recovery cfg arguments); simpl; auto 10|];
    unfold trace_of in B; destruct (exec os (run c t) w) as [[[r|exc] w1] tr1] end;
    exact B.
Qed.

Lemma send_image_bounded (arguments : JSONDict) (w : W) :
  bounded_trace cfg (trace_of os (_call_kmsg_send_image cfg arguments) w).
Proof.
  unfold trace_of. rewrite exec_call_kmsg_send_image.
  destruct (negb (nonempty (arg_chat arguments))
            || negb (nonempty (arg_image_path arguments))); [apply bounded_nil|].
  destruct (arg_confirm arguments); [apply bounded_nil|].
  destruct (os_isfile os (arg_image_path arguments) w) as [is_file w0].
  destruct is_file; cbn [negb].
  2:{ apply bounded_after_lookup; [reflexivity | apply bounded_nil]. }
  match goal with |- context [exec os (run ?c ?t) w0] =>
    assert (B : bounded_trace cfg (trace_of os (run c t) w0));
    [apply bounded_run; [reflexivity|];
     unfold TIME_LIMITS; destruct (arg_deep_recovery cfg arguments); simpl; auto 10|];
    destruct (run_trace os c t w0) as (_ & Hc & _);
    unfold trace_of in B, Hc; destruct (exec os (run c t) w0) as [[[r|exc] w1] tr1] end;
    apply bounded_after_lookup; assumption.
Qed.

Lemma check_ready_bounded (w : W) :
  bounded_trace cfg (trace_of os (check_ready cfg) w).
Proof.
  unfold trace_of, check_ready. rewrite exec_bind.
  pose proof (bounded_run [kmsg_bin cfg; "--version"] w (limit := 2 # 1) eq_refl
                ltac:(unfold TIME_LIMITS; simpl; auto 10)) as B1.
  unfold trace_of in B1.
  destruct (exec os (run [kmsg_bin cfg; "--version"] (2 # 1)) w)
    as [[[version|exc] w1] tr1] eqn:E1; [|exact B1].
  destruct (negb (returncode version =? 0)%Z).
  { cbn [exec]. rewrite app_nil_r. exact B1. }
  rewrite exec_bind.
  pose proof (bounded_two_runs [kmsg_bin cfg; "--version"] [kmsg_bin cfg; "status"] w w1
                (limit1 := 2 # 1) (limit2 := 4 # 1) eq_refl
                ltac:(unfold TIME_LIMITS; simpl; auto 10) eq_refl
                ltac:(unfold TIME_LIMITS; simpl; auto 10)) as B2.
  unfold trace_of in B2. rewrite E1 in B2. cbn [snd] in B2.
  destruct (exec os (run [kmsg_bin cfg; "status"] (4 # 1)) w1) as [[[status|exc] w2] tr2];
    [|exact B2].
  destruct (negb (returncode status =? 0)%Z); cbn [exec]; rewrite app_nil_r; exact B2.
Qed.

(** [_handle_tools_call] against an operating system: the refusals, and
    otherwise the tool that was named, its payload wrapped. *)
Lemma exec_handle_tools_call (params : json) (w : W) :
  exec os (_handle_tools_call cfg params) w =
  match params with
  | JObj fields =>
      let name := get_or fields "name" JNull in
      match get_or fields "arguments" (JObj []) with
      | JObj call_args =>
          let wrap (ran : outcome JSONDict * W * list event) :=
            let '(r, w1, tr) := ran in
            (match r with
             | Returned payload => Returned (tool_result payload)
             | Raised exc => Raised exc
             end, w1, tr) in
          if is_str name "kmsg_read" then wrap (exec os (_call_kmsg_read cfg call_args) w)
          else if is_str name "kmsg_send" then wrap (exec os (_call_kmsg_send cfg call_args) w)
          else if is_str name "kmsg_send_image" then
            wrap (exec os (_call_kmsg_send_image cfg call_args) w)
          else (Raised (UNKNOWN_TOOL name), w, [])
      | _ => (Raised NOT_AN_OBJECT, w, [])
      end
  | other =>
      (Raised (PyExc AttributeError
                 ("'" ++ py_type_name other ++ "' object has no attribute 'get'")), w, [])
  end.
Proof.
  unfold _handle_tools_call.
  destruct params as [| | | | | |fields]; try reflexivity.
  destruct (get_or fields "arguments" (JObj [])) as [| | | | | |call_args]; try reflexivity.
  cbv zeta. rewrite exec_bind.
  destruct (is_str (get_or fields "name" JNull) "kmsg_read").
  { destruct (exec os (_call_kmsg_read cfg call_args) w) as [[[payload|exc] w1] tr];
      [|reflexivity]. cbn [exec]. rewrite app_nil_r. reflexivity. }
  destruct (is_str (get_or fields "name" JNull) "kmsg_send").
  { destruct (exec os (_call_kmsg_send cfg call_args) w) as [[[payload|exc] w1] tr];
      [|reflexivity]. cbn [exec]. rewrite app_nil_r. reflexivity. }
  destruct (is_str (get_or fields "name" JNull) "kmsg_send_image").
  { destruct (exec os (_call_kmsg_send_image cfg call_args) w) as [[[payload|exc] w1] tr];
      [|reflexivity]. cbn [exec]. rewrite app_nil_r. reflexivity. }
  reflexivity.
Qed.

Lemma tools_call_bounded (params : json) (w : W) :
  bounded_trace cfg (trace_of os (_handle_tools_call cfg params) w).
Proof.
  unfold trace_of. rewrite exec_handle_tools_call.
  destruct params as [| | | | | |fields]; try apply bounded_nil.
  destruct (get_or fields "arguments" (JObj [])) as [| | | | | |call_args];
    try apply bounded_nil.
  cbv zeta.
  destruct (is_str (get_or fields "name" JNull) "kmsg_read").
  { pose proof (read_bounded call_args w) as B. unfold trace_of in B.
    destruct (exec os (_call_kmsg_read cfg call_args) w) as [[r w1] tr]. exact B. }
  destruct (is_str (get_or fields "name" JNull) "kmsg_send").
  { pose proof (send_bounded call_args w) as B. unfold trace_of in B.
    destruct (exec os (_call_kmsg_send cfg call_args) w) as [[r w1] tr]. exact B. }
  destruct (is_str (get_or fields "name" JNull) "kmsg_send_image").
  { pose proof (send_image_bounded call_args w) as B. unfold trace_of in B.
    destruct (exec os (_call_kmsg_send_image cfg call_args) w) as [[r w1] tr]. exact B. }
  apply bounded_nil.
Qed.

End TraceFacts.

(** ** The catalogue and the dispatcher *)

Section RaiseFacts.
Context {rt : PyRuntime} (cfg : Config) {W : Type} (os : OS W).

(** [run] raises only what [Popen] raised. *)
Lemma run_raised (args : list string) (limit : Q) (w w' : W) (e : exn)
    (trace : list event) :
  exec os (run args limit) w = (Raised e, w', trace) -> raised_by_popen os e.
Proof.
  rewrite exec_run. destruct (os_clock os w) as [start w0].
  destruct (os_popen os args w0) as [[exc|proc] w1] eqn:Hpopen.
  - destruct (is_OSError exc).
    + destruct (os_clock os w1). discriminate.
    + intros E; inversion E; subst. exists args, w0. rewrite Hpopen. reflexivity.
  - destruct (os_communicate os proc limit w1) as [[[[rc out] err]|] w2].
    + destruct (os_clock os w2). discriminate.
    + destruct (os_drain os proc (os_kill os proc w2)) as [captured w3].
      destruct (os_clock os w3). discriminate.
Qed.

Lemma py_int_raised (v : json) (e : exn) :
  py_int v = Raised e -> is_MCPError e = false.
Proof.
  destruct v as [| | |f|s| |]; simpl; try (intros E; inversion E; reflexivity).
  - destruct f; intros E; inversion E; reflexivity.
  - destruct (int_of_str s); intros E; inversion E; reflexivity.
Qed.

Lemma read_success_raised (arguments : JSONDict) (r : CommandResult) (e : exn) :
  read_success cfg arguments r = Raised e -> is_MCPError e = false.
Proof.
  unfold read_success.
  destruct (json_loads (stdout r)) as [[]| |cls text]; intros E; inversion E; reflexivity.
Qed.

Lemma read_raised (arguments : JSONDict) (w w' : W) (e : exn) (trace : list event) :
  exec os (_call_kmsg_read cfg arguments) w = (Raised e, w', trace) ->
  is_MCPError e = true -> raised_by_popen os e.
Proof.
  destruct (nonempty (arg_chat arguments)) eqn:Hchat.
  2:{ unfold _call_kmsg_read. rewrite Hchat. simpl. discriminate. }
  destruct (py_int (get_or arguments "limit" (JInt 20))) as [raw|exc] eqn:Hlimit.
  - rewrite (exec_call_kmsg_read cfg os arguments w Hchat Hlimit). cbv zeta.
    destruct (exec os (run (read_cmd cfg arguments (clamp_limit raw))
                           (read_timeout cfg arguments)) w)
      as [[[first|exc] w1] tr1] eqn:Hrun.
    + rewrite exec_read_after_first.
      destruct (retry_due (arg_deep_recovery cfg arguments) first).
      * rewrite exec_read_retry.
        destruct (exec os (run (read_cmd cfg arguments (clamp_limit raw) ++ DEEP_RETRY_FLAG)%list
                               (15 # 1)) w1)
          as [[[second|exc] w2] tr2] eqn:Hretry.
        -- unfold retry_verdict.
           destruct ((returncode second =? 0)%Z && negb (timed_out second));
             [|discriminate].
           destruct (read_success cfg arguments second) as [payload|exc] eqn:Hs;
             [discriminate|].
           intros E Hmcp; inversion E; subst.
           rewrite (read_success_raised _ _ Hs) in Hmcp. discriminate Hmcp.
        -- cbn [retry_verdict]. intros E _; inversion E; subst.
           apply (run_raised _ _ _ Hretry).
      * unfold single_run_verdict.
        destruct (timed_out first); [discriminate|].
        destruct (negb (returncode first =? 0)%Z); [discriminate|].
        destruct (read_success cfg arguments first) as [payload|exc] eqn:Hs;
          [discriminate|].
        intros E Hmcp; inversion E; subst.
        rewrite (read_success_raised _ _ Hs) in Hmcp. discriminate Hmcp.
    + intros E _; inversion E; subst. apply (run_raised _ _ _ Hrun).
  - pose proof (py_int_raised _ Hlimit) as Hbuiltin.
    unfold _call_kmsg_read. rewrite Hchat, Hlimit. cbn [negb].
    destruct exc as [code message data|cls text]; [discriminate Hbuiltin|].
    destruct cls; cbn [exec]; intros E Hmcp; inversion E; subst; discriminate Hmcp.
Qed.

Lemma send_raised (arguments : JSONDict) (w w' : W) (e : exn) (trace : list event) :
  exec os (_call_kmsg_send cfg arguments) w = (Raised e, w', trace) ->
  raised_by_popen os e.
Proof.
  rewrite exec_call_kmsg_send.
  destruct (negb (nonempty (arg_chat arguments))
            || negb (nonempty (arg_message arguments))); [discriminate|].
  destruct (arg_confirm arguments); [discriminate|].
  destruct (exec os (run (send_cmd cfg arguments)
                         (if arg_deep_recovery cfg arguments then 18 # 1 else 10 # 1)) w)
    as [[[r|exc] w1] tr1] eqn:Hrun; [discriminate|].
  intros E; inversion E; subst. apply (run_raised _ _ _ Hrun).
Qed.

Lemma send_image_raised (arguments : JSONDict) (w w' : W) (e : exn)
    (trace : list event) :
  exec os (_call_kmsg_send_image cfg arguments) w = (Raised e, w', trace) ->
  raised_by_popen os e.
Proof.
  rewrite exec_call_kmsg_send_image.
  destruct (negb (nonempty (arg_chat arguments))
            || negb (nonempty (arg_image_path arguments))); [discriminate|].
  destruct (arg_confirm arguments); [discriminate|].
  destruct (os_isfile os (arg_image_path arguments) w) as [is_file w0].
  destruct (negb is_file); [discriminate|].
  destruct (exec os (run (send_image_cmd cfg arguments)
                         (if arg_deep_recovery cfg arguments then 20 # 1 else 12 # 1)) w0)
    as [[[r|exc] w1] tr1] eqn:Hrun; [discriminate|].
  intros E; inversion E; subst. apply (run_raised _ _ _ Hrun).
Qed.

Lemma wrapped_raised (ran : outcome JSONDict * W * list event) (e : exn) (w' : W)
    (trace : list event) :
  wrapped ran = (Raised e, w', trace) -> ran = (Raised e, w', trace).
Proof.
  destruct ran as [[[payload|exc] w1] tr1]; simpl; [discriminate|].
  intros E; inversion E; reflexivity.
Qed.

End RaiseFacts.

(** X5.  The catalogue and the dispatcher agree, run against any operating
    system.  For a call whose parameters and arguments are objects: when
    the name is none of the names [tools/list] gives (a missing name
    included), running the call raises the protocol error -32601 "Unknown
    tool: <name>", starts no process and leaves the environment as it was;
    when the name is listed, running the call is running the tool of that
    name on the arguments, with its payload wrapped and its exception
    passed on, and the call raises an [MCPError] only if the operating
    system itself raised that very exception when it was asked for a
    process (so never, on a system that raises only its own exceptions). *)
Theorem catalogue_matches_dispatch {rt : PyRuntime} (cfg : Config) {W : Type}
    (os : OS W) (w : W) (fields call_args : JSONDict) :
  get_or fields "arguments" (JObj []) = JObj call_args ->
  let name := get_or fields "name" JNull in
  let call := exec os (_handle_tools_call cfg (JObj fields)) w in
  (~ In name (listed_names cfg) -> call = (Raised (UNKNOWN_TOOL name), w, []))
  /\ (In name (listed_names cfg) ->
      ((name = JStr "kmsg_read"
        /\ call = wrapped (exec os (_call_kmsg_read cfg call_args) w))
       \/ (name = JStr "kmsg_send"
           /\ call = wrapped (exec os (_call_kmsg_send cfg call_args) w))
       \/ (name = JStr "kmsg_send_image"
           /\ call = wrapped (exec os (_call_kmsg_send_image cfg call_args) w)))
      /\ (forall e w' trace,
            call = (Raised e, w', trace) -> is_MCPError e = true ->
            raised_by_popen os e)).
Proof.
  intros Hargs name call. unfold call. rewrite exec_handle_tools_call, Hargs.
  cbv zeta. fold name. split.
  - intros Hout.
    assert (H1 : is_str name "kmsg_read" = false).
    { destruct (is_str name "kmsg_read") eqn:E; [|reflexivity].
      apply is_str_true in E. destruct Hout. apply listed_names_are. auto. }
    assert (H2 : is_str name "kmsg_send" = false).
    { destruct (is_str name "kmsg_send") eqn:E; [|reflexivity].
      apply is_str_true in E. destruct Hout. apply listed_names_are. auto. }
    assert (H3 : is_str name "kmsg_send_image" = false).
    { destruct (is_str name "kmsg_send_image") eqn:E; [|reflexivity].
      apply is_str_true in E. destruct Hout. apply listed_names_are. auto. }
    rewrite H1, H2, H3. reflexivity.
  - intros Hin. apply listed_names_are in Hin.
    destruct Hin as [Hn|[Hn|Hn]]; rewrite Hn;
      cbn [is_str String.eqb Ascii.eqb Bool.eqb]; fold (@wrapped rt W).
    + split; [left; split; reflexivity|].
      intros e w' trace Hcall. apply wrapped_raised in Hcall.
      apply (read_raised cfg os _ _ Hcall).
    + split; [right; left; split; reflexivity|].
      intros e w' trace Hcall _. apply wrapped_raised in Hcall.
      apply (send_raised cfg os _ _ Hcall).
    + split; [right; right; split; reflexivity|].
      intros e w' trace Hcall _. apply wrapped_raised in Hcall.
      apply (send_image_raised cfg os _ _ Hcall).
Qed.

(** A name the catalogue does not list, against the scripted system: the
    protocol error, and the program the script holds is not started. *)
Lemma catalogue_matches_dispatch_witness :
  exec Demo.demo_os
    (_handle_tools_call (rt := Demo.runtime) Demo.config
       (JObj [("name", JStr "kmsg_delete"); ("arguments", JObj [("chat", JStr "Alice")])]))
    (Demo.world [Demo.Exits 0 "deleted" EmptyString (1 # 2)] [])
  = (Raised (MCPError (-32601) "Unknown tool: kmsg_delete" []),
     Demo.world [Demo.Exits 0 "deleted" EmptyString (1 # 2)] [], []).
Proof.
  refine (proj1 (@catalogue_matches_dispatch Demo.runtime Demo.config _ Demo.demo_os
                   (Demo.world [Demo.Exits 0 "deleted" EmptyString (1 # 2)] [])
                   [("name", JStr "kmsg_delete");
                    ("arguments", JObj [("chat", JStr "Alice")])]
                   [("chat", JStr "Alice")] eq_refl) _).
  unfold listed_names. simpl. intros [H|[H|[H|[]]]]; discriminate H.
Defined.

(** A message with a NUL in it: the system raises a [ValueError] when
    asked for the process, and the listed tool passes it on as it is. *)
Example listed_tool_passes_the_systems_exception :
  result_of Demo.demo_os
    (_handle_tools_call (rt := Demo.runtime) Demo.config
       (JObj [("name", JStr "kmsg_send");
              ("arguments", JObj [("chat", JStr "Alice");
                                  ("message", JStr ("h" ++ Demo.NUL ++ "i"))])]))
    (Demo.world [Demo.Exits 0 "sent" EmptyString (1 # 2)] [])
  = Raised (PyExc ValueError "embedded null byte").
Proof. vm_compute. reflexivity. Qed.

(** X8.  Whatever the request and the session, handling one request starts
    at most two processes, each of them the configured binary; every wait
    that has a time limit has one of the limits of the source, none above
    20 seconds; the one wait that has none is the [communicate()] after a
    kill (the processes waited for without a limit are those killed), so
    the time a request takes is bounded only as far as a killed process
    lets go of its pipes; the file system is consulted at most once; and
    only [initialize] and, in an initialized session, [tools/call] do
    anything to the environment at all. *)
Theorem request_bounded {rt : PyRuntime} (cfg : Config) {W : Type} (os : OS W) (w : W)
    (session : Session) (request : JSONDict) :
  let trace := trace_of os (_handle_request cfg session request) w in
  Forall (fun argv => hd_error argv = Some (kmsg_bin cfg)) (spawned trace)
  /\ (List.length (spawned trace) <= 2)%nat
  /\ Forall (fun limit => In limit TIME_LIMITS /\ (limit <= 20 # 1)%Q) (waited trace)
  /\ drained trace = killed trace
  /\ (List.length (consulted trace) <= 1)%nat
  /\ (trace <> [] ->
      method_of request = JStr "initialize"
      \/ (method_of request = JStr "tools/call" /\ initialized session = true)).
Proof.
  intros trace.
  assert (Hle : forall limit, In limit TIME_LIMITS -> (limit <= 20 # 1)%Q).
  { unfold TIME_LIMITS. simpl. intros limit H.
    repeat (destruct H as [<-|H]; [unfold Qle; simpl; lia|]). contradiction. }
  assert (Hb : bounded_trace cfg trace
               /\ (trace <> [] ->
                   method_of request = JStr "initialize"
                   \/ (method_of request = JStr "tools/call"
                       /\ initialized session = true))).
  { unfold trace, trace_of. rewrite exec_handle_request. cbv zeta.
    destruct (is_str (method_of request) "initialize") eqn:E1.
    { apply is_str_true in E1. pose proof (check_ready_bounded cfg os w) as B.
      unfold trace_of in B.
      destruct (exec os (check_ready cfg) w) as [[probe w1] tr]. split; [exact B | auto]. }
    destruct (is_str (method_of request) "notifications/initialized");
      [split; [apply bounded_nil | intros H; destruct (H eq_refl)]|].
    destruct (is_str (method_of request) "ping");
      [split; [apply bounded_nil | intros H; destruct (H eq_refl)]|].
    destruct (initialized session); cbn [negb];
      [|split; [apply bounded_nil | intros H; destruct (H eq_refl)]].
    destruct (is_str (method_of request) "tools/list");
      [split; [apply bounded_nil | intros H; destruct (H eq_refl)]|].
    destruct (is_str (method_of request) "tools/call") eqn:E5.
    { apply is_str_true in E5.
      pose proof (tools_call_bounded cfg os (get_or request "params" (JObj [])) w) as B.
      unfold trace_of in B.
      destruct (exec os (_handle_tools_call cfg (get_or request "params" (JObj []))) w)
        as [[called w1] tr]. split; [exact B | auto]. }
    destruct (is_str (method_of request) "shutdown");
      [split; [apply bounded_nil | intros H; destruct (H eq_refl)]|].
    destruct (is_str (method_of request) "exit");
      split; try apply bounded_nil; intros H; destruct (H eq_refl). }
  destruct Hb as [(B1 & B2 & B3 & B4 & B5) Hm].
  split; [exact B1|]. split; [exact B3|].
  split; [|split; [exact B5 | split; [exact B4 | exact Hm]]].
  apply Forall_forall. intros limit Hin.
  rewrite Forall_forall in B2. split; [apply B2, Hin | apply Hle, B2, Hin].
Qed.

(** ** Calls the dispatcher refuses *)

(** X9.  In an initialized session a [tools/call] is refused, before any
    tool runs and with the session unchanged, in three cases: parameters
    that are not an object end in the internal error -32000 (the
    [AttributeError] of [arguments.get]); arguments that are not an object
    in -32602; a name that the catalogue does not list in -32601 with the
    name in the message. *)
Theorem tools_call_refusals {rt : PyRuntime} (cfg : Config) {W : Type} (os : OS W)
    (w : W) (session : Session) (request : JSONDict) :
  initialized session = true ->
  method_of request = JStr "tools/call" ->
  let params := get_or request "params" (JObj []) in
  let req_id := get_or request "id" JNull in
  let refused (exc : exn) :=
    exec os (_handle_request cfg session request) w
    = (Returned (session, Raised exc), w, []) in
  ((forall fields, params <> JObj fields) ->
   refused (PyExc AttributeError
              ("'" ++ py_type_name params ++ "' object has no attribute 'get'"))
   /\ (req_id <> JNull ->
       response_for req_id
         (Raised (PyExc AttributeError
                    ("'" ++ py_type_name params ++ "' object has no attribute 'get'")))
       = Some (INTERNAL_ERROR req_id
                 ("'" ++ py_type_name params ++ "' object has no attribute 'get'"))))
  /\ (forall fields,
        params = JObj fields ->
        (forall call_args, get_or fields "arguments" (JObj []) <> JObj call_args) ->
        refused NOT_AN_OBJECT)
  /\ (forall fields call_args,
        params = JObj fields ->
        get_or fields "arguments" (JObj []) = JObj call_args ->
        ~ In (get_or fields "name" JNull) (listed_names cfg) ->
        refused (UNKNOWN_TOOL (get_or fields "name" JNull))).
Proof.
  intros Hinit Hmethod params req_id refused. unfold refused.
  rewrite exec_handle_request. rewrite Hmethod, Hinit. cbv zeta. cbn [is_str negb].
  replace (String.eqb "tools/call" "initialize") with false by reflexivity.
  replace (String.eqb "tools/call" "notifications/initialized") with false by reflexivity.
  replace (String.eqb "tools/call" "ping") with false by reflexivity.
  replace (String.eqb "tools/call" "tools/list") with false by reflexivity.
  replace (String.eqb "tools/call" "tools/call") with true by reflexivity.
  rewrite exec_handle_tools_call. fold params.
  split; [|split].
  - intros Hnot. split.
    + destruct params as [| | | | | |fields]; try reflexivity.
      destruct (Hnot fields eq_refl).
    + intros Hid. unfold response_for, INTERNAL_ERROR.
      destruct req_id; try reflexivity. contradiction.
  - intros fields -> Hnot.
    destruct (get_or fields "arguments" (JObj [])) as [| | | | | |call_args]; try reflexivity.
    destruct (Hnot call_args eq_refl).
  - intros fields call_args -> -> Hout. cbv zeta.
    assert (H1 : is_str (get_or fields "name" JNull) "kmsg_read" = false).
    { apply is_str_false. intros E. apply Hout, listed_names_are. auto. }
    assert (H2 : is_str (get_or fields "name" JNull) "kmsg_send" = false).
    { apply is_str_false. intros E. apply Hout, listed_names_are. auto. }
    assert (H3 : is_str (get_or fields "name" JNull) "kmsg_send_image" = false).
    { apply is_str_false. intros E. apply Hout, listed_names_are. auto. }
    rewrite H1, H2, H3. reflexivity.
Qed.

(** Arguments given as a list instead of an object. *)
Lemma tools_call_refusals_witness :
  exec Demo.demo_os
    (_handle_request (rt := Demo.runtime) Demo.config READY_SESSION
       [("jsonrpc", JStr "2.0"); ("id", JInt 2); ("method", JStr "tools/call");
        ("params", JObj [("name", JStr "kmsg_send");
                         ("arguments", JArr [JStr "Alice"; JStr "hi"])])])
    (Demo.world [Demo.Exits 0 "sent" EmptyString (1 # 2)] [])
  = (Returned (READY_SESSION, Raised NOT_AN_OBJECT),
     Demo.world [Demo.Exits 0 "sent" EmptyString (1 # 2)] [], []).
Proof.
  refine (proj1 (proj2
    (tools_call_refusals (rt := Demo.runtime) Demo.config Demo.demo_os
       (Demo.world [Demo.Exits 0 "sent" EmptyString (1 # 2)] []) READY_SESSION
       [("jsonrpc", JStr "2.0"); ("id", JInt 2); ("method", JStr "tools/call");
        ("params", JObj [("name", JStr "kmsg_send");
                         ("arguments", JArr [JStr "Alice"; JStr "hi"])])]
       eq_refl eq_refl)) _ eq_refl _).
  intros call_args H. discriminate H.
Defined.

(** ** What the read tool makes of the program's output *)

(** X10.  A read call that passes validation and whose first run exits 0
    starts no other process, and answers by what the standard output
    decodes to.  Text that is not JSON gives the envelope
    INVALID_JSON_OUTPUT with the raw output.  An object gives a success:
    [chat], [fetched_at], [count] and [messages] are the members of the
    object, with the trimmed chat argument, null, 0 and the empty list in
    the place of a missing one, and the latency is the run's.  JSON that is
    not an object makes the call raise [AttributeError], and an error of
    the decoder other than [JSONDecodeError] (a numeral beyond the digit
    limit, a document nested too deep) leaves the call as it is. *)
Theorem read_output_contract {rt : PyRuntime} (cfg : Config) {W : Type} (os : OS W)
    (w w1 : W) (arguments : JSONDict) (raw : Z) (first : CommandResult)
    (tr1 : list event) :
  nonempty (arg_chat arguments) = true ->
  py_int (get_or arguments "limit" (JInt 20)) = Returned raw ->
  exec os (run (read_cmd cfg arguments (clamp_limit raw)) (read_timeout cfg arguments)) w
  = (Returned first, w1, tr1) ->
  returncode first = 0 ->
  exists answer,
    exec os (_call_kmsg_read cfg arguments) w = (answer, w1, tr1)
    /\ spawned tr1 = [read_cmd cfg arguments (clamp_limit raw)]
    /\ match json_loads (stdout first) with
       | NotJSON =>
           answer = Returned (_error_payload "INVALID_JSON_OUTPUT"
                                "kmsg returned non-JSON output for read --json"
                                "Run kmsg read manually and confirm JSON-only stdout."
                                (stdout first) (stderr first) (latency_ms first))
       | DecoderError cls text => answer = Raised (PyExc cls text)
       | Decoded (JObj document) =>
           exists payload,
             answer = Returned payload
             /\ dict_get payload "ok" = Some (JBool true)
             /\ dict_get payload "chat"
                = Some (get_or document "chat" (JStr (arg_chat arguments)))
             /\ dict_get payload "fetched_at" = Some (get_or document "fetched_at" JNull)
             /\ dict_get payload "count" = Some (get_or document "count" (JInt 0))
             /\ dict_get payload "messages" = Some (get_or document "messages" (JArr []))
             /\ meta_latency payload = Some (JInt (latency_ms first))
             /\ dict_get payload "error" = None
       | Decoded other =>
           answer = Raised (PyExc AttributeError
                              ("'" ++ py_type_name other
                                   ++ "' object has no attribute 'get'"))
       end.
Proof.
  intros Hchat Hlimit Hrun Hzero.
  assert (Hto : timed_out first = false).
  { destruct (timed_out first) eqn:E; [|reflexivity].
    assert (Hr : result_of os (run (read_cmd cfg arguments (clamp_limit raw))
                               (read_timeout cfg arguments)) w = Returned first).
    { unfold result_of. rewrite Hrun. reflexivity. }
    pose proof (run_timed_out_status os _ _ w Hr E) as H124. rewrite Hzero in H124.
    discriminate H124. }
  exists (read_success cfg arguments first).
  split.
  - rewrite (exec_call_kmsg_read cfg os arguments w Hchat Hlimit). rewrite Hrun.
    rewrite exec_read_after_first. unfold retry_due, single_run_verdict.
    rewrite Hto, Hzero. cbn [negb andb Z.eqb]. rewrite app_nil_r. reflexivity.
  - split.
    + pose proof (run_trace os (read_cmd cfg arguments (clamp_limit raw))
                    (read_timeout cfg arguments) w) as [Hs _].
      unfold trace_of in Hs. rewrite Hrun in Hs. exact Hs.
    + unfold read_success.
      destruct (json_loads (stdout first)) as [[| | | | | |document]| |cls text];
        try reflexivity.
      eexists. split; [reflexivity|]. unfold meta_latency, with_stderr_trace. simpl.
      repeat split; try reflexivity.
      destruct (arg_trace_ax cfg arguments && nonempty (strip (stderr first))); reflexivity.
Qed.

(** The scenario of a chat with two messages. *)
Lemma read_output_contract_witness :
  exists answer,
    exec Demo.demo_os
      (_call_kmsg_read (rt := Demo.runtime) Demo.config
         [("chat", JStr "Alice"); ("limit", JInt 5)])
      (Demo.world [Demo.Exits 0 Demo.alice_stdout EmptyString (1 # 2)] [])
    = (answer,
       world_after Demo.demo_os
         (run ["/usr/local/bin/kmsg"; "read"; "Alice"; "--json"; "--limit"; "5"] (8 # 1))
         (Demo.world [Demo.Exits 0 Demo.alice_stdout EmptyString (1 # 2)] []),
       trace_of Demo.demo_os
         (run ["/usr/local/bin/kmsg"; "read"; "Alice"; "--json"; "--limit"; "5"] (8 # 1))
         (Demo.world [Demo.Exits 0 Demo.alice_stdout EmptyString (1 # 2)] []))
    /\ spawned (trace_of Demo.demo_os
                  (run ["/usr/local/bin/kmsg"; "read"; "Alice"; "--json"; "--limit"; "5"]
                       (8 # 1))
                  (Demo.world [Demo.Exits 0 Demo.alice_stdout EmptyString (1 # 2)] []))
       = [["/usr/local/bin/kmsg"; "read"; "Alice"; "--json"; "--limit"; "5"]]
    /\ exists payload,
         answer = Returned payload
         /\ dict_get payload "ok" = Some (JBool true)
         /\ dict_get payload "chat" = Some (JStr "Alice")
         /\ dict_get payload "fetched_at" = Some JNull
         /\ dict_get payload "count" = Some (JInt 2)
         /\ dict_get payload "messages" = Some (JArr [JStr "hi"; JStr "there"])
         /\ meta_latency payload = Some (JInt 500)
         /\ dict_get payload "error" = None.
Proof.
  exact (@read_output_contract Demo.runtime Demo.config _ Demo.demo_os
           (Demo.world [Demo.Exits 0 Demo.alice_stdout EmptyString (1 # 2)] [])
           (world_after Demo.demo_os
              (run ["/usr/local/bin/kmsg"; "read"; "Alice"; "--json"; "--limit"; "5"]
                   (8 # 1))
              (Demo.world [Demo.Exits 0 Demo.alice_stdout EmptyString (1 # 2)] []))
           [("chat", JStr "Alice"); ("limit", JInt 5)] 5
           {| returncode := 0; stdout := Demo.alice_stdout; stderr := EmptyString;
              latency_ms := 500; timed_out := false |}
           (trace_of Demo.demo_os
              (run ["/usr/local/bin/kmsg"; "read"; "Alice"; "--json"; "--limit"; "5"]
                   (8 # 1))
              (Demo.world [Demo.Exits 0 Demo.alice_stdout EmptyString (1 # 2)] []))
           eq_refl eq_refl eq_refl eq_refl).
Defined.

(** ** What reaches the program *)

Section ArgumentFacts.
Context {rt : PyRuntime} (cfg : Config) {W : Type} (os : OS W).

Lemma arg_chat_trimmed (arguments : JSONDict) :
  nonempty (arg_chat arguments) = true -> trimmed (arg_chat arguments).
Proof.
  intros H. split; [apply nonempty_true, H | apply strip_idempotent].
Qed.

Lemma arg_message_trimmed (arguments : JSONDict) :
  nonempty (arg_message arguments) = true -> trimmed (arg_message arguments).
Proof.
  intros H. split; [apply nonempty_true, H | apply strip_idempotent].
Qed.

Lemma arg_image_path_trimmed (arguments : JSONDict) :
  nonempty (arg_image_path arguments) = true -> trimmed (arg_image_path arguments).
Proof.
  intros H. split; [apply nonempty_true, H | apply strip_idempotent].
Qed.

End ArgumentFacts.

(** X11.  The program is never handed a blank or padded argument: in every
    process a tool starts, the word after the binary is the subcommand of
    the tool ([read], [send], [send-image]), and the chat, the message and
    the image path that follow are not empty and carry no white space at
    either end. *)
Theorem arguments_reach_trimmed {rt : PyRuntime} (cfg : Config) {W : Type} (os : OS W)
    (w : W) (arguments : JSONDict) :
  Forall (fun argv =>
            nth_error argv 1 = Some "read"
            /\ exists chat, nth_error argv 2 = Some chat /\ trimmed chat)
    (spawned (trace_of os (_call_kmsg_read cfg arguments) w))
  /\ Forall (fun argv =>
               nth_error argv 1 = Some "send"
               /\ exists chat message,
                    nth_error argv 2 = Some chat /\ trimmed chat
                    /\ nth_error argv 3 = Some message /\ trimmed message)
       (spawned (trace_of os (_call_kmsg_send cfg arguments) w))
  /\ Forall (fun argv =>
               nth_error argv 1 = Some "send-image"
               /\ exists chat path,
                    nth_error argv 2 = Some chat /\ trimmed chat
                    /\ nth_error argv 3 = Some path /\ trimmed path)
       (spawned (trace_of os (_call_kmsg_send_image cfg arguments) w)).
Proof.
  split; [|split].
  - destruct (nonempty (arg_chat arguments)) eqn:Hchat.
    2:{ unfold trace_of, _call_kmsg_read. rewrite Hchat. constructor. }
    destruct (py_int (get_or arguments "limit" (JInt 20))) as [raw|exc] eqn:Hlimit.
    2:{ unfold trace_of, _call_kmsg_read. rewrite Hchat, Hlimit. cbn [negb].
        destruct exc as [code message data|[] text]; constructor. }
    pose proof (arg_chat_trimmed arguments Hchat) as Ht.
    assert (Hargv : forall extra,
               nth_error (read_cmd cfg arguments (clamp_limit raw) ++ extra)%list 1
               = Some "read"
               /\ exists chat,
                    nth_error (read_cmd cfg arguments (clamp_limit raw) ++ extra)%list 2
                    = Some chat /\ trimmed chat).
    { intros extra. split; [reflexivity|]. exists (arg_chat arguments). auto. }
    destruct (read_spawned cfg os arguments w Hchat Hlimit) as [-> | ->].
    + constructor; [|constructor].
      rewrite <- (app_nil_r (read_cmd cfg arguments (clamp_limit raw))). apply Hargv.
    + constructor; [|constructor; [|constructor]].
      * rewrite <- (app_nil_r (read_cmd cfg arguments (clamp_limit raw))). apply Hargv.
      * apply Hargv.
  - unfold trace_of. rewrite exec_call_kmsg_send.
    destruct (nonempty (arg_chat arguments)) eqn:Hchat; [|constructor].
    destruct (nonempty (arg_message arguments)) eqn:Hmessage; [|constructor].
    cbn [negb orb]. destruct (arg_confirm arguments); [constructor|].
    match goal with |- context [exec os (run ?c ?t) w] =>
      destruct (run_trace os c t w) as (Hs & _); unfold trace_of in Hs;
      destruct (exec os (run c t) w) as [[[r|exc] w1] tr1] end;
      cbn [snd] in *; rewrite Hs; (constructor; [|constructor]);
      (split; [reflexivity|]);
      exists (arg_chat arguments), (arg_message arguments);
      (split; [reflexivity|]); (split; [apply arg_chat_trimmed, Hchat|]);
      (split; [reflexivity | apply arg_message_trimmed, Hmessage]).
  - unfold trace_of. rewrite exec_call_kmsg_send_image.
    destruct (nonempty (arg_chat arguments)) eqn:Hchat; [|constructor].
    destruct (nonempty (arg_image_path arguments)) eqn:Hpath; [|constructor].
    cbn [negb orb]. destruct (arg_confirm arguments); [constructor|].
    destruct (os_isfile os (arg_image_path arguments) w) as [is_file w0].
    destruct is_file; cbn [negb]; [|constructor].
    match goal with |- context [exec os (run ?c ?t) w0] =>
      destruct (run_trace os c t w0) as (Hs & _); unfold trace_of in Hs;
      destruct (exec os (run c t) w0) as [[[r|exc] w1] tr1] end;
      cbn [snd spawned] in *; rewrite Hs; (constructor; [|constructor]);
      (split; [reflexivity|]);
      exists (arg_chat arguments), (arg_image_path arguments);
      (split; [reflexivity|]); (split; [apply arg_chat_trimmed, Hchat|]);
      (split; [reflexivity | apply arg_image_path_trimmed, Hpath]).
Qed.

(** A padded chat name reaches the program trimmed. *)
Example padded_chat_is_trimmed :
  spawned (trace_of Demo.demo_os
             (_call_kmsg_send (rt := Demo.runtime) Demo.config
                [("chat", JStr "  Alice "); ("message", JStr (" hi" ++ NL))])
             (Demo.world [Demo.Exits 0 "sent" EmptyString (1 # 2)] []))
  = [["/usr/local/bin/kmsg"; "send"; "Alice"; "hi"]].
Proof. vm_compute. reflexivity. Qed.

(** ** The readiness probe *)

Section ProbeFacts.
Context {W : Type} (os : OS W).

(** A run that reports exit status 0 was started, was waited for, and
    finished within its limit. *)
Lemma run_exit_zero (args : list string) (limit : Q) (w w1 : W) (r : CommandResult)
    (trace : list event) :
  exec os (run args limit) w = (Returned r, w1, trace) ->
  returncode r = 0 ->
  exists proc, trace = [EvClock; EvPopen args; EvCommunicate proc limit; EvClock].
Proof.
  rewrite exec_run. destruct (os_clock os w) as [start w0].
  destruct (os_popen os args w0) as [[exc|proc] w2].
  - destruct (is_OSError exc); [destruct (os_clock os w2)|];
      intros E; inversion E; subst; simpl; discriminate.
  - destruct (os_communicate os proc limit w2) as [[[[rc out] err]|] w3].
    + destruct (os_clock os w3). intros E; inversion E; subst. eauto.
    + destruct (os_drain os proc (os_kill os proc w3)) as [captured w4].
      destruct (os_clock os w4). intros E; inversion E; subst; simpl; discriminate.
Qed.

End ProbeFacts.

(** X12.  The readiness probe of [initialize] is decided by two exit
    statuses.  It first runs [--version] with a limit of 2 seconds.  If that
    run does not report exit status 0 (it failed, could not be started or
    timed out), the probe answers not ready at stage [version] with that
    run's output, and [--version] is the only process of the probe.  If it
    does, the probe runs [status] with a limit of 4 seconds, after
    [--version] and in the state [--version] left; it answers ready exactly
    when [status] reports exit status 0 as well, with the trimmed output of
    [--version] as the version, and then each of the two processes was
    waited for and neither was killed; otherwise it answers not ready at
    stage [status] with the output of [status]. *)
Theorem readiness_probe (cfg : Config) {W : Type} (os : OS W) (w w' : W)
    (ready : bool) (detail : JSONDict) (trace : list event) :
  exec os (check_ready cfg) w = (Returned (ready, detail), w', trace) ->
  let version := [kmsg_bin cfg; "--version"] in
  let status := [kmsg_bin cfg; "status"] in
  exists (v : CommandResult) (w1 : W) (tr1 : list event),
    exec os (run version (2 # 1)) w = (Returned v, w1, tr1)
    /\ if (returncode v =? 0)%Z then
         exists (s : CommandResult) (tr2 : list event),
           exec os (run status (4 # 1)) w1 = (Returned s, w', tr2)
           /\ trace = (tr1 ++ tr2)%list
           /\ spawned trace = [version; status]
           /\ if (returncode s =? 0)%Z then
                ready = true
                /\ detail = [("kmsg_bin", JStr (kmsg_bin cfg));
                             ("version", JStr (strip (stdout v)))]
                /\ waited trace = [2 # 1; 4 # 1]
                /\ (forall proc, ~ In (EvKill proc) trace)
              else
                ready = false
                /\ detail = [("stage", JStr "status");
                             ("message", JStr "kmsg status check failed");
                             ("stdout", JStr (stdout s));
                             ("stderr", JStr (stderr s));
                             ("kmsg_bin", JStr (kmsg_bin cfg))]
       else
         ready = false
         /\ w' = w1
         /\ trace = tr1
         /\ spawned trace = [version]
         /\ detail = [("stage", JStr "version");
                      ("message", JStr "kmsg binary not executable");
                      ("stdout", JStr (stdout v));
                      ("stderr", JStr (stderr v));
                      ("kmsg_bin", JStr (kmsg_bin cfg))].
Proof.
  intros Hexec version status. unfold check_ready in Hexec. rewrite exec_bind in Hexec.
  fold version in Hexec.
  destruct (run_trace os version (2 # 1) w) as (Hs1 & _). unfold trace_of in Hs1.
  destruct (exec os (run version (2 # 1)) w) as [[[v|exc] w1] tr1] eqn:E1;
    [|discriminate Hexec].
  exists v, w1, tr1. split; [reflexivity|]. cbn [snd] in Hs1.
  destruct (returncode v =? 0)%Z eqn:Hv; cbn [negb] in Hexec.
  2:{ cbn [exec] in Hexec. rewrite app_nil_r in Hexec. inversion Hexec; subst.
      repeat split; try reflexivity. exact Hs1. }
  apply Z.eqb_eq in Hv. rewrite exec_bind in Hexec. fold status in Hexec.
  destruct (run_trace os status (4 # 1) w1) as (Hs2 & _). unfold trace_of in Hs2.
  destruct (exec os (run status (4 # 1)) w1) as [[[s|exc] w2] tr2] eqn:E2;
    [|discriminate Hexec].
  cbn [snd] in Hs2.
  exists s, tr2.
  destruct (returncode s =? 0)%Z eqn:Hst; cbn [negb exec] in Hexec;
    rewrite app_nil_r in Hexec; inversion Hexec; subst.
  - apply Z.eqb_eq in Hst.
    destruct (run_exit_zero os _ _ _ E1 Hv) as [p1 ->].
    destruct (run_exit_zero os _ _ _ E2 Hst) as [p2 ->].
    repeat split; try reflexivity.
    intros proc Hin. simpl in Hin.
    repeat (destruct Hin as [Hin|Hin]; [discriminate Hin|]). contradiction.
  - repeat split; try reflexivity. rewrite spawned_app, Hs1, Hs2. reflexivity.
Qed.

(** A binary that answers [--version] and then fails [status]. *)
Lemma readiness_probe_witness :
  let w := Demo.world [Demo.Exits 0 "kmsg 1.2" EmptyString (1 # 10);
                       Demo.Exits 1 EmptyString "no window" (1 # 10)] [] in
  let w' := world_after Demo.demo_os (check_ready Demo.config) w in
  let trace := trace_of Demo.demo_os (check_ready Demo.config) w in
  let ready := false in
  let detail :=
    [("stage", JStr "status"); ("message", JStr "kmsg status check failed");
     ("stdout", JStr EmptyString); ("stderr", JStr "no window");
     ("kmsg_bin", JStr "/usr/local/bin/kmsg")] in
  let version := ["/usr/local/bin/kmsg"; "--version"] in
  let status := ["/usr/local/bin/kmsg"; "status"] in
  exists (v : CommandResult) (w1 : Demo.World) (tr1 : list event),
    exec Demo.demo_os (run version (2 # 1)) w = (Returned v, w1, tr1)
    /\ if (returncode v =? 0)%Z then
         exists (s : CommandResult) (tr2 : list event),
           exec Demo.demo_os (run status (4 # 1)) w1 = (Returned s, w', tr2)
           /\ trace = (tr1 ++ tr2)%list
           /\ spawned trace = [version; status]
           /\ if (returncode s =? 0)%Z then
                ready = true
                /\ detail = [("kmsg_bin", JStr "/usr/local/bin/kmsg");
                             ("version", JStr (strip (stdout v)))]
                /\ waited trace = [2 # 1; 4 # 1]
                /\ (forall proc, ~ In (EvKill proc) trace)
              else
                ready = false
                /\ detail = [("stage", JStr "status");
                             ("message", JStr "kmsg status check failed");
                             ("stdout", JStr (stdout s));
                             ("stderr", JStr (stderr s));
                             ("kmsg_bin", JStr "/usr/local/bin/kmsg")]
       else
         ready = false
         /\ w' = w1
         /\ trace = tr1
         /\ spawned trace = [version]
         /\ detail = [("stage", JStr "version");
                      ("message", JStr "kmsg binary not executable");
                      ("stdout", JStr (stdout v));
                      ("stderr", JStr (stderr v));
                      ("kmsg_bin", JStr "/usr/local/bin/kmsg")].
Proof.
  exact (@readiness_probe Demo.config _ Demo.demo_os
           (Demo.world [Demo.Exits 0 "kmsg 1.2" EmptyString (1 # 10);
                        Demo.Exits 1 EmptyString "no window" (1 # 10)] [])
           (world_after Demo.demo_os (check_ready Demo.config)
              (Demo.world [Demo.Exits 0 "kmsg 1.2" EmptyString (1 # 10);
                           Demo.Exits 1 EmptyString "no window" (1 # 10)] []))
           false
           [("stage", JStr "status"); ("message", JStr "kmsg status check failed");
            ("stdout", JStr EmptyString); ("stderr", JStr "no window");
            ("kmsg_bin", JStr "/usr/local/bin/kmsg")]
           (trace_of Demo.demo_os (check_ready Demo.config)
              (Demo.world [Demo.Exits 0 "kmsg 1.2" EmptyString (1 # 10);
                           Demo.Exits 1 EmptyString "no window" (1 # 10)] []))
           eq_refl).
Defined.

(** ** The serving loop *)

Section ServingFacts.
Context {rt : PyRuntime} (cfg : Config) {W : Type} (os : OS W).

(** Reading moves forward: what is left is the end of what there was. *)
Lemma readline_split (stream : string) :
  fst (readline stream) ++ snd (readline stream) = stream.
Proof.
  induction stream as [|c stream IH]; simpl; [reflexivity|].
  destruct (Ascii.eqb c (ascii_of_nat 10)); [reflexivity|].
  destruct (readline stream) as [line rest]. simpl in *. rewrite IH. reflexivity.
Qed.

Lemma take_drop (n : nat) (s : string) : take n s ++ drop n s = s.
Proof.
  revert s; induction n as [|n IH]; intros s.
  - destruct s; reflexivity.
  - destruct s as [|c s]; [reflexivity|]. simpl. rewrite IH. reflexivity.
Qed.

Lemma read_headers_suffix (fuel : nat) (headers : headers_t) (stream : string) :
  exists consumed, stream = consumed ++ snd (read_headers fuel headers stream).
Proof.
  revert headers stream; induction fuel as [|fuel IH]; intros headers stream.
  - exists EmptyString. reflexivity.
  - rewrite read_headers_step. pose proof (readline_split stream) as Hsplit.
    destruct (readline stream) as [line rest]. simpl in Hsplit.
    assert (Hrec : forall h,
               exists consumed, stream = consumed ++ snd (read_headers fuel h rest)).
    { intros h. destruct (IH h rest) as [c Hc]. exists (line ++ c).
      rewrite append_assoc, <- Hc. symmetry. exact Hsplit. }
    destruct (String.eqb line EmptyString); [exists line; symmetry; exact Hsplit|].
    destruct (String.eqb line CRLF || String.eqb line NL);
      [exists line; symmetry; exact Hsplit|].
    cbv zeta. destruct (String.eqb (strip line) EmptyString); [apply Hrec|].
    destruct (partition_colon (strip line)) as [[key sep] value].
    destruct (negb sep); apply Hrec.
Qed.

Lemma append_not_empty (a b : string) : b <> EmptyString -> a ++ b <> EmptyString.
Proof. intros Hb H. destruct a; [exact (Hb H) | discriminate H]. Qed.

Lemma read_body_suffix (stream : string) :
  exists consumed,
    stream = consumed ++ snd (read_body stream)
    /\ forall body, fst (read_body stream) = Returned (Some body) -> consumed <> EmptyString.
Proof.
  unfold read_body.
  destruct (read_headers_suffix (S (String.length stream)) [] stream) as [c Hc].
  destruct (read_headers (S (String.length stream)) [] stream) as [[headers|] rest];
    simpl in Hc.
  2:{ exists c. split; [exact Hc | discriminate]. }
  destruct (int_of_str (headers_get headers "content-length" "0")) as [n|text].
  2:{ exists c. split; [exact Hc | discriminate]. }
  destruct (n <=? 0)%Z; [exists c; split; [exact Hc | discriminate]|].
  unfold read. pose proof (take_drop (Z.to_nat n) rest) as Hsplit.
  destruct (String.eqb (take (Z.to_nat n) rest) EmptyString) eqn:E;
    exists (c ++ take (Z.to_nat n) rest); simpl;
    (split; [rewrite append_assoc, Hsplit; exact Hc|]).
  - discriminate.
  - intros _ _. apply append_not_empty. intros H. rewrite H in E. discriminate E.
Qed.

Lemma read_message_suffix (stream : string) :
  exists consumed,
    stream = consumed ++ snd (_read_message stream)
    /\ forall message,
         fst (_read_message stream) = Returned message -> message <> JNull ->
         consumed <> EmptyString.
Proof.
  unfold _read_message. destruct (read_body_suffix stream) as (c & Hc & Hne).
  destruct (read_body stream) as [[[body|]|exc] rest]; simpl in *;
    exists c; (split; [exact Hc|]); intros message Hm Hnn.
  - apply (Hne body eq_refl).
  - inversion Hm. congruence.
  - discriminate Hm.
Qed.

(** A message that was read took at least one byte. *)
Lemma read_message_shortens (stream rest : string) (message : json) :
  _read_message stream = (Returned message, rest) -> message <> JNull ->
  (String.length rest < String.length stream)%nat.
Proof.
  intros E Hnn. destruct (read_message_suffix stream) as (c & Hc & Hne).
  rewrite E in Hc, Hne. simpl in Hc, Hne. specialize (Hne message eq_refl Hnn).
  rewrite Hc, length_append. destruct c; [contradiction | simpl; lia].
Qed.

Lemma read_message_rest (stream rest : string) (message : outcome json) :
  _read_message stream = (message, rest) -> exists consumed, stream = consumed ++ rest.
Proof.
  intros E. destruct (read_message_suffix stream) as (c & Hc & _).
  rewrite E in Hc. eauto.
Qed.

(** [_handle_request] hands every exception over as a value. *)
Lemma exec_handle_request_returns (session : Session) (request : JSONDict) (w : W) :
  exists session' answer w' trace,
    exec os (_handle_request cfg session request) w
    = (Returned (session', answer), w', trace).
Proof.
  rewrite exec_handle_request. cbv zeta.
  destruct (is_str (method_of request) "initialize").
  { destruct (exec os (check_ready cfg) w) as [[probe w1] tr]. eauto. }
  destruct (is_str (method_of request) "notifications/initialized"); [eauto|].
  destruct (is_str (method_of request) "ping"); [eauto|].
  destruct (negb (initialized session)); [eauto|].
  destruct (is_str (method_of request) "tools/list"); [eauto|].
  destruct (is_str (method_of request) "tools/call").
  { destruct (exec os (_handle_tools_call cfg (get_or request "params" (JObj []))) w)
      as [[called w1] tr]. eauto. }
  destruct (is_str (method_of request) "shutdown"); [eauto|].
  destruct (is_str (method_of request) "exit"); eauto.
Qed.

(** Every response written after a request is an envelope of JSON-RPC 2.0
    for the id of the request. *)
Lemma response_for_envelope (session session' : Session) (request response : JSONDict)
    (answer : outcome (option JSONDict)) (w w' : W) (trace : list event) :
  exec os (_handle_request cfg session request) w
  = (Returned (session', answer), w', trace) ->
  response_for (get_or request "id" JNull) answer = Some response ->
  dict_get response "jsonrpc" = Some (JStr "2.0")
  /\ dict_get response "id" = Some (get_or request "id" JNull).
Proof.
  intros Hexec Hresponse. destruct answer as [[returned|]|exc]; simpl in Hresponse.
  - inversion Hresponse; subst returned.
    destruct (returned_response_is_result cfg os _ _ _ Hexec) as [result ->].
    split; reflexivity.
  - discriminate Hresponse.
  - destruct (get_or request "id" JNull) eqn:Eid; [discriminate Hresponse| | | | | |];
      destruct exc as [code message data|cls text]; inversion Hresponse;
      split; reflexivity.
Qed.

(** The turns [serve_forever] allows are never used up, and more of them
    change nothing. *)
Lemma serve_loop_fuel (fuel : nat) :
  forall (fuel' : nat) (srv : Server) (w : W),
    (String.length (pending_input srv) < fuel)%nat ->
    (String.length (pending_input srv) < fuel')%nat ->
    exec os (serve_loop cfg fuel srv) w = exec os (serve_loop cfg fuel' srv) w.
Proof.
  induction fuel as [|fuel IH]; intros fuel' srv w H H'; [lia|].
  destruct fuel' as [|fuel']; [lia|]. cbn [serve_loop].
  destruct (shutdown (session srv)); [reflexivity|].
  destruct (_read_message (pending_input srv)) as [[message|exc] rest] eqn:Eread;
    [|reflexivity].
  assert (Hlt : message <> JNull -> (String.length rest < fuel)%nat
                                    /\ (String.length rest < fuel')%nat).
  { intros Hnn. pose proof (read_message_shortens _ Eread Hnn). lia. }
  destruct message as [|b|z|f|s|items|fields]; try reflexivity.
  - cbn [has_method]. destruct (contains "method" s); [reflexivity|].
    apply IH; cbn [pending_input]; apply Hlt; discriminate.
  - cbn [has_method]. destruct (existsb (fun item => is_str item "method") items);
      [reflexivity|].
    apply IH; cbn [pending_input]; apply Hlt; discriminate.
  - assert (Hnn : JObj fields <> JNull) by discriminate.
    destruct (Hlt Hnn) as [Hf Hf'].
    cbn [has_method].
    destruct (existsb (fun kv => String.eqb (fst kv) "method") fields);
      [|apply IH; cbn [pending_input]; assumption].
    cbn [session written]. rewrite !exec_bind.
    destruct (exec os (_handle_request cfg (session srv) fields) w)
      as [[[handled|exc] w1] tr1]; [|reflexivity].
    cbv beta zeta. cbn [session written pending_input].
    destruct (response_for (get_or fields "id" JNull) (snd handled)) as [response|].
    + destruct (_write_message (JObj response)) as [bytes|exc]; [|reflexivity].
      rewrite (IH fuel' _ w1); [reflexivity | |]; cbn [pending_input]; assumption.
    + rewrite (IH fuel' _ w1); [reflexivity | |]; cbn [pending_input]; assumption.
Qed.

(** [serve_forever] after a turn that goes on is [serve_forever] on what is
    left. *)
Lemma serve_loop_rest (stream rest : string) (message : json) (srv' : Server) (w : W) :
  _read_message stream = (Returned message, rest) -> message <> JNull ->
  pending_input srv' = rest ->
  exec os (serve_loop cfg (String.length stream) srv') w
  = exec os (serve_forever cfg srv') w.
Proof.
  intros Eread Hnn Hrest. pose proof (read_message_shortens _ Eread Hnn) as Hlt.
  unfold serve_forever. apply serve_loop_fuel; rewrite Hrest; lia.
Qed.

(** One turn of [serve_forever] on a request: the request is handled, the
    response is written unless the encoder refuses it, and the loop goes on
    with what is left. *)
Lemma serve_forever_turn (srv : Server) (rest : string) (request : JSONDict) (w : W) :
  shutdown (session srv) = false ->
  _read_message (pending_input srv) = (Returned (JObj request), rest) ->
  names_method request = true ->
  exec os (serve_forever cfg srv) w
  = exec os (handled <- _handle_request cfg (session srv) request ;;
             match response_to request handled with
             | Some response =>
                 if has_surrogate (json_dumps (JObj response)) then
                   Ret (write_failed (written srv) rest handled
                          (PyExc UnicodeEncodeError
                             (encode_error_text (json_dumps (JObj response)))))
                 else serve_forever cfg (after_request (written srv) rest request handled)
             | None => serve_forever cfg (after_request (written srv) rest request handled)
             end) w.
Proof.
  intros Hs Eread Hmethod.
  assert (Hnn : JObj request <> JNull) by discriminate.
  unfold serve_forever at 1. cbn [serve_loop].
  rewrite Hs, Eread. cbn [has_method session written].
  unfold names_method in Hmethod. rewrite Hmethod.
  rewrite !exec_bind.
  destruct (exec os (_handle_request cfg (session srv) request) w)
    as [[[handled|exc] w1] tr1]; [|reflexivity].
  cbv beta zeta. cbn [session written pending_input].
  unfold after_request, response_to, write_failed.
  destruct (response_for (get_or request "id" JNull) (snd handled)) as [response|].
  - unfold _write_message, encode_utf8.
    destruct (has_surrogate (json_dumps (JObj response))); [reflexivity|].
    cbv zeta.
    match goal with |- context [exec os (serve_loop cfg _ ?srv2) w1] =>
      rewrite (@serve_loop_rest (pending_input srv) rest (JObj request) srv2 w1
                 Eread Hnn eq_refl)
    end.
    unfold frame. rewrite !append_assoc. reflexivity.
  - match goal with |- context [exec os (serve_loop cfg _ ?srv2) w1] =>
      rewrite (@serve_loop_rest (pending_input srv) rest (JObj request) srv2 w1
                 Eread Hnn eq_refl)
    end.
    reflexivity.
Qed.

(** One turn on a message that does not name a method: it is passed
    over. *)
Lemma serve_forever_pass (srv : Server) (rest : string) (message : json) (w : W) :
  shutdown (session srv) = false ->
  _read_message (pending_input srv) = (Returned message, rest) ->
  has_method message = Returned false ->
  exec os (serve_forever cfg srv) w
  = exec os (serve_forever cfg {| session := session srv; pending_input := rest;
                                  written := written srv |}) w.
Proof.
  intros Hs Eread Hmethod.
  assert (Hnn : message <> JNull) by (intros ->; discriminate Hmethod).
  unfold serve_forever at 1. cbn [serve_loop].
  rewrite Hs, Eread.
  destruct message as [|b|z|f|t|items|fields]; try discriminate Hmethod;
    rewrite Hmethod;
    apply (@serve_loop_rest (pending_input srv) rest _
             {| session := session srv; pending_input := rest; written := written srv |} w
             Eread Hnn eq_refl).
Qed.

(** One turn that ends the loop: the session is marked for shutdown, there
    is no message, reading raised, or the message cannot be asked for a
    method. *)
Lemma serve_forever_last (srv : Server) (w : W) :
  exec os (serve_forever cfg srv) w =
  if shutdown (session srv) then (Returned (srv, Stopped), w, [])
  else
    let '(message, rest) := _read_message (pending_input srv) in
    let srv' := {| session := session srv; pending_input := rest;
                   written := written srv |} in
    match message with
    | Raised exc => (Returned (srv', Crashed exc), w, [])
    | Returned JNull => (Returned (srv', Stopped), w, [])
    | Returned (JObj fields) => exec os (serve_forever cfg srv) w
    | Returned request =>
        match has_method request with
        | Raised exc => (Returned (srv', Crashed exc), w, [])
        | Returned false => exec os (serve_forever cfg srv) w
        | Returned true =>
            (Returned (srv', Crashed
                               (PyExc AttributeError
                                  ("'" ++ py_type_name request
                                       ++ "' object has no attribute 'get'"))),
             w, [])
        end
    end.
Proof.
  destruct (shutdown (session srv)) eqn:Hs.
  { unfold serve_forever. cbn [serve_loop]. rewrite Hs. reflexivity. }
  destruct (_read_message (pending_input srv)) as [[message|exc] rest] eqn:Eread.
  2:{ unfold serve_forever. cbn [serve_loop]. rewrite Hs, Eread. reflexivity. }
  destruct message as [|b|z|f|t|items|fields]; cbv zeta.
  - unfold serve_forever. cbn [serve_loop]. rewrite Hs, Eread. reflexivity.
  - unfold serve_forever. cbn [serve_loop]. rewrite Hs, Eread. reflexivity.
  - unfold serve_forever. cbn [serve_loop]. rewrite Hs, Eread. reflexivity.
  - unfold serve_forever. cbn [serve_loop]. rewrite Hs, Eread. reflexivity.
  - cbn [has_method]. destruct (contains "method" t) eqn:E; [|reflexivity].
    unfold serve_forever. cbn [serve_loop]. rewrite Hs, Eread. cbn [has_method].
    rewrite E. reflexivity.
  - cbn [has_method].
    destruct (existsb (fun item => is_str item "method") items) eqn:E; [|reflexivity].
    unfold serve_forever. cbn [serve_loop]. rewrite Hs, Eread. cbn [has_method].
    rewrite E. reflexivity.
  - reflexivity.
Qed.

(** No request clears a flag of the session. *)
Lemma handle_request_keeps_flags (session session' : Session) (request : JSONDict)
    (answer : outcome (option JSONDict)) (w w' : W) (trace : list event) :
  exec os (_handle_request cfg session request) w
  = (Returned (session', answer), w', trace) ->
  (initialized session = true -> initialized session' = true)
  /\ (shutdown session = true -> shutdown session' = true).
Proof.
  rewrite exec_handle_request. cbv zeta.
  destruct (is_str (method_of request) "initialize").
  { destruct (exec os (check_ready cfg) w) as [[probe w1] tr].
    intros E; inversion E; subst. simpl. auto. }
  destruct (is_str (method_of request) "notifications/initialized");
    [intros E; inversion E; subst; auto|].
  destruct (is_str (method_of request) "ping"); [intros E; inversion E; subst; auto|].
  destruct (negb (initialized session)); [intros E; inversion E; subst; auto|].
  destruct (is_str (method_of request) "tools/list"); [intros E; inversion E; subst; auto|].
  destruct (is_str (method_of request) "tools/call").
  { destruct (exec os (_handle_tools_call cfg (get_or request "params" (JObj []))) w)
      as [[called w1] tr]. intros E; inversion E; subst; auto. }
  destruct (is_str (method_of request) "shutdown");
    [intros E; inversion E; subst; simpl; auto|].
  destruct (is_str (method_of request) "exit"); intros E; inversion E; subst; simpl; auto.
Qed.

Lemma served_here (srv : Server) (rest : string) :
  (exists consumed, pending_input srv = consumed ++ rest) ->
  served srv {| session := session srv; pending_input := rest; written := written srv |}.
Proof.
  intros Hc. split; [exact Hc|]. split; [|auto].
  exists []. simpl. rewrite append_nil_r. split; [reflexivity | constructor].
Qed.

(** What the loop does on any input. *)
Lemma serve_loop_ends (fuel : nat) :
  forall (srv : Server) (w : W),
    (String.length (pending_input srv) < fuel)%nat ->
    exists srv' e w' trace,
      exec os (serve_loop cfg fuel srv) w = (Returned (srv', e), w', trace)
      /\ e <> OutOfFuel
      /\ served srv srv'.
Proof.
  induction fuel as [|fuel IH]; intros srv w H; [lia|].
  cbn [serve_loop].
  assert (Hhere : forall (e : ending) (rest : string),
             e <> OutOfFuel ->
             (exists consumed, pending_input srv = consumed ++ rest) ->
             exists srv' e' w' trace,
               (Returned ({| session := session srv; pending_input := rest;
                             written := written srv |}, e), w, @nil event)
               = (Returned (srv', e'), w', trace)
               /\ e' <> OutOfFuel
               /\ served srv srv').
  { intros e rest He Hc. do 4 eexists. split; [reflexivity|]. split; [exact He|].
    apply served_here, Hc. }
  destruct (shutdown (session srv)).
  { do 4 eexists. split; [reflexivity|]. split; [discriminate|].
    split; [exists EmptyString; reflexivity|]. split; [|auto].
    exists []. simpl. rewrite append_nil_r. split; [reflexivity | constructor]. }
  destruct (_read_message (pending_input srv)) as [[message|exc] rest] eqn:Eread.
  2:{ apply Hhere; [discriminate | apply (read_message_rest _ Eread)]. }
  pose proof (read_message_rest _ Eread) as [c Hc].
  assert (Hlt : message <> JNull -> (String.length rest < fuel)%nat).
  { intros Hnn. pose proof (read_message_shortens _ Eread Hnn). lia. }
  assert (Hon : forall w0,
             message <> JNull ->
             exists srv' e w' trace,
               exec os (serve_loop cfg fuel
                          {| session := session srv; pending_input := rest;
                             written := written srv |}) w0
               = (Returned (srv', e), w', trace)
               /\ e <> OutOfFuel
               /\ served srv srv').
  { intros w0 Hnn.
    destruct (IH {| session := session srv; pending_input := rest;
                    written := written srv |} w0 (Hlt Hnn))
      as (srv' & e & w' & tr & Hexec & He & [c2 Hc2] & Hout & Hflag).
    exists srv', e, w', tr. split; [exact Hexec|]. split; [exact He|].
    split; [|split; [exact Hout | exact Hflag]]. exists (c ++ c2).
    cbn [pending_input] in Hc2. rewrite append_assoc, <- Hc2. exact Hc. }
  destruct message as [|b|z|f|s|items|fields]; cbn [has_method];
    try (apply Hhere; [discriminate | eauto]).
  - destruct (contains "method" s); [apply Hhere; [discriminate | eauto]|].
    apply Hon. discriminate.
  - destruct (existsb (fun item => is_str item "method") items);
      [apply Hhere; [discriminate | eauto]|].
    apply Hon. discriminate.
  - destruct (existsb (fun kv => String.eqb (fst kv) "method") fields);
      [|apply Hon; discriminate].
    cbn [session written]. rewrite exec_bind.
    destruct (exec_handle_request_returns (session srv) fields w)
      as (s' & answer & w1 & tr1 & Hexec).
    rewrite Hexec. cbv beta zeta. cbn [fst snd session written pending_input].
    assert (Hnn : JObj fields <> JNull) by discriminate.
    pose proof (handle_request_keeps_flags _ _ _ Hexec) as [Hkeep _].
    assert (Hgo : forall responses out,
               out = written srv ++ frames responses ->
               Forall (fun response => dict_get response "jsonrpc" = Some (JStr "2.0"))
                 responses ->
               exists srv' e w' trace,
                 (let '(r, w2, tr2) :=
                    exec os (serve_loop cfg fuel
                               {| session := s'; pending_input := rest; written := out |})
                         w1 in
                  (r, w2, (tr1 ++ tr2)%list))
                 = (Returned (srv', e), w', trace)
                 /\ e <> OutOfFuel
                 /\ served srv srv').
    { intros responses out Hout Hall.
      destruct (IH {| session := s'; pending_input := rest; written := out |} w1 (Hlt Hnn))
        as (srv' & e & w' & tr & Hloop & He & [c2 Hc2] & (rs & Hw & Hrs) & Hflag).
      rewrite Hloop. cbn [pending_input written session] in Hc2, Hw, Hflag.
      exists srv', e, w', (tr1 ++ tr)%list. split; [reflexivity|]. split; [exact He|].
      split; [exists (c ++ c2); rewrite append_assoc, <- Hc2; exact Hc|].
      split.
      - exists (responses ++ rs)%list. split.
        + rewrite Hw, Hout, append_assoc. f_equal.
          clear. induction responses as [|r responses IHr]; [reflexivity|].
          cbn [frames app]. rewrite append_assoc, IHr. reflexivity.
        + apply Forall_app. split; assumption.
      - intros Hinit. apply Hflag, Hkeep, Hinit. }
    destruct (response_for (get_or fields "id" JNull) answer) as [response|] eqn:Eresp.
    + destruct (_write_message (JObj response)) as [bytes|exc] eqn:Ewrite.
      * destruct (write_message_returned _ Ewrite) as [-> _].
        apply (Hgo [response]).
        -- cbn [frames]. rewrite append_nil_r. reflexivity.
        -- constructor; [|constructor].
           apply (proj1 (response_for_envelope _ _ _ Hexec Eresp)).
      * cbn [exec]. rewrite app_nil_r.
        do 4 eexists. split; [reflexivity|]. split; [discriminate|].
        split; [exists c; exact Hc|]. split; [|exact Hkeep].
        exists []. cbn [frames written]. rewrite append_nil_r.
        split; [reflexivity | constructor].
    + apply (Hgo []); [cbn [frames]; rewrite append_nil_r; reflexivity | constructor].
Qed.

Lemma names_method_found (request : JSONDict) (method : json) :
  dict_get request "method" = Some method -> names_method request = true.
Proof.
  unfold names_method. induction request as [|[k v] request IH]; simpl; [discriminate|].
  destruct (String.eqb k "method"); [reflexivity | exact IH].
Qed.

Lemma method_of_names (request : JSONDict) (name : string) :
  method_of request = JStr name -> names_method request = true.
Proof.
  unfold method_of, get_or. destruct (dict_get request "method") as [method|] eqn:E.
  - intros _. apply (names_method_found _ E).
  - discriminate.
Qed.

End ServingFacts.


(** X14.  A frame that carries a request object (a body of well-formed
    UTF-8 that decodes to an object with a member [method]), met while the
    session is not marked for shutdown.  The request is handled in the
    session as it stands.  When there is no response, or the response can
    be encoded, the loop goes on with the session the handler left and the
    input that follows the frame, the response added to the output as one
    frame.  When the encoding of the response holds a lone surrogate (an
    id the client wrote with the escape of one, say), [_write_message]
    raises outside the [try]: nothing is written and the
    [UnicodeEncodeError] leaves [serve_forever].  (Standard output accepts
    what is written to it.) *)
Theorem request_frame_served {rt : PyRuntime} (cfg : Config) {W : Type} (os : OS W)
    (w : W) (s : Session) (body later out : string) (request : JSONDict) :
  body <> EmptyString -> within_digit_limit (String.length body) = true ->
  shutdown s = false ->
  utf8_valid body = true -> json_loads body = Decoded (JObj request) ->
  names_method request = true ->
  exec os (serve_forever cfg {| session := s; pending_input := frame body ++ later;
                                written := out |}) w
  = exec os (handled <- _handle_request cfg s request ;;
             match response_to request handled with
             | Some response =>
                 if has_surrogate (json_dumps (JObj response)) then
                   Ret (write_failed out later handled
                          (PyExc UnicodeEncodeError
                             (encode_error_text (json_dumps (JObj response)))))
                 else serve_forever cfg (after_request out later request handled)
             | None => serve_forever cfg (after_request out later request handled)
             end) w.
Proof.
  intros Hne Hlimit Hs Hvalid Hloads Hmethod.
  pose proof (read_message_frame later Hne Hlimit) as Eread.
  rewrite (decode_body_valid _ Hvalid), Hloads in Eread.
  apply (serve_forever_turn cfg os
           {| session := s; pending_input := frame body ++ later; written := out |}
           w Hs Eread Hmethod).
Qed.

(** X15.  Frames that are not requests, met while the session is not
    marked for shutdown.  A body that is not well-formed UTF-8 makes
    [body.decode] raise [UnicodeDecodeError], which [except
    JSONDecodeError] does not catch: the exception leaves [serve_forever],
    and so does any other error of the decoder that is not
    [JSONDecodeError].  A body that is text but not JSON, or is the JSON
    [null], ends the loop at once and without a word.  A message that does
    not name a method (an object without the member, an array or a string
    that does not hold the text) is passed over.  A number or a Boolean
    makes the test for the method raise, and an array or string that does
    hold the text has no [get]: the exception leaves [serve_forever].  In
    every one of these cases nothing is written and nothing is started, and
    where the loop ends the frames that follow stay unread. *)
Theorem frame_not_a_request {rt : PyRuntime} (cfg : Config) {W : Type} (os : OS W)
    (w : W) (s : Session) (body later out : string) :
  body <> EmptyString -> within_digit_limit (String.length body) = true ->
  shutdown s = false ->
  let srv := {| session := s; pending_input := frame body ++ later; written := out |} in
  let left := {| session := s; pending_input := later; written := out |} in
  let ends (e : ending) := exec os (serve_forever cfg srv) w = (Returned (left, e), w, []) in
  (utf8_valid body = false ->
   ends (Crashed (PyExc UnicodeDecodeError (decode_error_text body))))
  /\ (utf8_valid body = true ->
      match json_loads body with
      | DecoderError cls text => ends (Crashed (PyExc cls text))
      | NotJSON | Decoded JNull => ends Stopped
      | Decoded (JObj fields) =>
          names_method fields = false ->
          exec os (serve_forever cfg srv) w = exec os (serve_forever cfg left) w
      | Decoded message =>
          match has_method message with
          | Raised exc => ends (Crashed exc)
          | Returned false =>
              exec os (serve_forever cfg srv) w = exec os (serve_forever cfg left) w
          | Returned true =>
              ends (Crashed (PyExc AttributeError
                               ("'" ++ py_type_name message
                                    ++ "' object has no attribute 'get'")))
          end
      end).
Proof.
  intros Hne Hlimit Hs srv left ends. unfold ends.
  pose proof (read_message_frame later Hne Hlimit) as Eread.
  pose proof (serve_forever_last cfg os srv w) as Hlast.
  cbn [srv session pending_input written] in Hlast. rewrite Hs, Eread in Hlast.
  cbv zeta in Hlast. fold left in Hlast.
  split.
  - intros Hbad. rewrite (decode_body_invalid _ Hbad) in Hlast. exact Hlast.
  - intros Hvalid. rewrite (decode_body_valid _ Hvalid) in Hlast, Eread.
    destruct (json_loads body) as [message| |cls text];
      [|exact Hlast|exact Hlast].
    destruct message as [|b|z|f|t|items|fields]; try exact Hlast.
    + cbn [has_method] in *. destruct (contains "method" t) eqn:E; [exact Hlast|].
      apply (serve_forever_pass cfg os srv w Hs Eread). cbn [has_method].
      rewrite E. reflexivity.
    + cbn [has_method] in *.
      destruct (existsb (fun item => is_str item "method") items) eqn:E; [exact Hlast|].
      apply (serve_forever_pass cfg os srv w Hs Eread). cbn [has_method].
      rewrite E. reflexivity.
    + intros Hnone. apply (serve_forever_pass cfg os srv w Hs Eread).
      cbn [has_method]. unfold names_method in Hnone. rewrite Hnone. reflexivity.
Qed.

(** X16.  [shutdown] and [exit] in an initialized session end the loop, and
    whatever follows the frame is never read; nothing is started.  [exit]
    is not answered.  [shutdown] is answered with an empty result for its
    id and the loop returns, unless the id holds a lone surrogate: then the
    encoder raises, nothing is written and the exception leaves
    [serve_forever]; the session is marked for shutdown all the same.
    (Standard output accepts what is written to it.) *)
Theorem shutdown_ends_serving {rt : PyRuntime} (cfg : Config) {W : Type} (os : OS W)
    (w : W) (s : Session) (body later out : string) (request : JSONDict) :
  body <> EmptyString -> within_digit_limit (String.length body) = true ->
  utf8_valid body = true -> json_loads body = Decoded (JObj request) ->
  initialized s = true -> shutdown s = false ->
  let srv := {| session := s; pending_input := frame body ++ later; written := out |} in
  let marked := {| initialized := true; shutdown := true |} in
  let answer := json_dumps (JObj (_json_rpc_result (get_or request "id" JNull) [])) in
  (method_of request = JStr "shutdown" ->
   exec os (serve_forever cfg srv) w
   = if has_surrogate answer then
       (Returned ({| session := marked; pending_input := later; written := out |},
                  Crashed (PyExc UnicodeEncodeError (encode_error_text answer))), w, [])
     else
       (Returned ({| session := marked; pending_input := later;
                     written := out ++ frame answer |}, Stopped), w, []))
  /\ (method_of request = JStr "exit" ->
      exec os (serve_forever cfg srv) w
      = (Returned ({| session := marked; pending_input := later; written := out |},
                   Stopped), w, [])).
Proof.
  intros Hne Hlimit Hvalid Hloads Hinit Hs srv marked answer.
  pose proof (read_message_frame later Hne Hlimit) as Eread.
  rewrite (decode_body_valid _ Hvalid), Hloads in Eread.
  split; intros Hmethod;
    rewrite (serve_forever_turn cfg os srv w Hs Eread (method_of_names _ Hmethod));
    rewrite exec_bind, exec_handle_request; cbv zeta; rewrite Hmethod;
    cbn [srv session written is_str String.eqb Ascii.eqb Bool.eqb];
    rewrite Hinit; cbn [negb];
    unfold response_to, after_request, write_failed;
    cbn [fst snd response_for].
  - fold answer. destruct (has_surrogate answer); [reflexivity|].
    rewrite serve_forever_last. reflexivity.
  - rewrite serve_forever_last. reflexivity.
Qed.

Lemma request_frame_served_witness :
  exec Demo.demo_os
    (serve_forever (rt := Dialogue.runtime) Demo.config
       {| session := INITIAL_SESSION;
          pending_input := frame (Dialogue.body (JObj Dialogue.ping_request)) ++ "tail";
          written := EmptyString |})
    (Demo.world [] [])
  = exec Demo.demo_os
      (handled <- _handle_request (rt := Dialogue.runtime) Demo.config INITIAL_SESSION
                    Dialogue.ping_request ;;
       match response_to Dialogue.ping_request handled with
       | Some response =>
           if has_surrogate (json_dumps (rt := Dialogue.runtime) (JObj response)) then
             Ret (write_failed EmptyString "tail" handled
                    (PyExc UnicodeEncodeError
                       (@encode_error_text Dialogue.runtime
                          (json_dumps (rt := Dialogue.runtime) (JObj response)))))
           else serve_forever (rt := Dialogue.runtime) Demo.config
                  (after_request (rt := Dialogue.runtime) EmptyString "tail"
                     Dialogue.ping_request handled)
       | None => serve_forever (rt := Dialogue.runtime) Demo.config
                   (after_request (rt := Dialogue.runtime) EmptyString "tail"
                      Dialogue.ping_request handled)
       end)
      (Demo.world [] []).
Proof.
  refine (@request_frame_served Dialogue.runtime Demo.config _ Demo.demo_os
            (Demo.world [] []) INITIAL_SESSION
            (Dialogue.body (JObj Dialogue.ping_request)) "tail" EmptyString
            Dialogue.ping_request _ eq_refl eq_refl eq_refl eq_refl eq_refl).
  vm_compute. discriminate.
Defined.

(** A body that is not JSON: the loop stops, and the frame after it is
    left unread. *)
Lemma frame_not_a_request_witness :
  exec Demo.demo_os
    (serve_forever (rt := Dialogue.runtime) Demo.config
       {| session := INITIAL_SESSION;
          pending_input :=
            frame "{" ++ frame (Dialogue.body (JObj Dialogue.ping_request));
          written := EmptyString |})
    (Demo.world [] [])
  = (Returned ({| session := INITIAL_SESSION;
                  pending_input := frame (Dialogue.body (JObj Dialogue.ping_request));
                  written := EmptyString |}, Stopped),
     Demo.world [] [], []).
Proof.
  refine (proj2 (@frame_not_a_request Dialogue.runtime Demo.config _ Demo.demo_os
                   (Demo.world [] []) INITIAL_SESSION "{"
                   (frame (Dialogue.body (JObj Dialogue.ping_request))) EmptyString
                   _ eq_refl eq_refl)
            eq_refl).
  discriminate.
Defined.

Lemma shutdown_ends_serving_witness :
  exec Demo.demo_os
    (serve_forever (rt := Dialogue.runtime) Demo.config
       {| session := READY_SESSION;
          pending_input :=
            frame (Dialogue.body (JObj Dialogue.shutdown_request))
              ++ frame (Dialogue.body (JObj Dialogue.ping_request));
          written := EmptyString |})
    (Demo.world [] [])
  = (Returned ({| session := {| initialized := true; shutdown := true |};
                  pending_input := frame (Dialogue.body (JObj Dialogue.ping_request));
                  written :=
                    EmptyString
                      ++ frame (json_dumps (rt := Dialogue.runtime)
                                  (JObj (_json_rpc_result (JInt 2) []))) |},
                Stopped),
     Demo.world [] [], []).
Proof.
  refine (proj1 (@shutdown_ends_serving Dialogue.runtime Demo.config _ Demo.demo_os
                   (Demo.world [] []) READY_SESSION
                   (Dialogue.body (JObj Dialogue.shutdown_request))
                   (frame (Dialogue.body (JObj Dialogue.ping_request))) EmptyString
                   Dialogue.shutdown_request _ eq_refl eq_refl eq_refl eq_refl eq_refl)
            eq_refl).
  vm_compute. discriminate.
Defined.

(** A whole dialogue: [initialize] runs the probe, a notification the
    server does not know is passed in silence, [ping] and [shutdown] are
    answered, and the [ping] after [shutdown] is never read. *)
Example dialogue_until_shutdown :
  let input :=
    frame (Dialogue.body (JObj Dialogue.initialize_request))
      ++ frame (Dialogue.body (JObj Dialogue.progress_notification))
      ++ frame (Dialogue.body (JObj Dialogue.ping_request))
      ++ frame (Dialogue.body (JObj Dialogue.shutdown_request))
      ++ frame (Dialogue.body (JObj Dialogue.ping_request)) in
  let run :=
    exec Demo.demo_os
      (serve_forever (rt := Dialogue.runtime) Demo.config (new_server input))
      Dialogue.healthy in
  exists srv responses,
    fst (fst run) = Returned (srv, Stopped)
    /\ session srv = {| initialized := true; shutdown := true |}
    /\ pending_input srv = frame (Dialogue.body (JObj Dialogue.ping_request))
    /\ written srv = frames (rt := Dialogue.runtime) responses
    /\ map (fun response => dict_get response "id") responses
       = [Some (JInt 1); Some (JInt 7); Some (JInt 2)]
    /\ spawned (snd run)
       = [["/usr/local/bin/kmsg"; "--version"]; ["/usr/local/bin/kmsg"; "status"]].
Proof.
  eexists.
  exists [_json_rpc_result (JInt 1)
            (initialize_result Demo.config
               [("kmsg_bin", JStr "/usr/local/bin/kmsg"); ("version", JStr "kmsg 1.2")]);
          _json_rpc_result (JInt 7) [];
          _json_rpc_result (JInt 2) []].
  vm_compute. repeat split; reflexivity.
Qed.

(** One request whose id is a lone surrogate, written by the client as the
    escape of it: the [ping] is handled, the encoder refuses the answer,
    and the exception ends the server; the request after it is never
    read. *)
Example surrogate_id_ends_the_server :
  exec Demo.demo_os
    (serve_forever (rt := Dialogue.runtime) Demo.config
       (new_server (frame Dialogue.surrogate_ping_body
                      ++ frame (Dialogue.body (JObj Dialogue.ping_request)))))
    (Demo.world [] [])
  = (Returned ({| session := INITIAL_SESSION;
                  pending_input := frame (Dialogue.body (JObj Dialogue.ping_request));
                  written := EmptyString |},
               Crashed (PyExc UnicodeEncodeError
                          "'utf-8' codec can't encode character: surrogates not allowed")),
     Demo.world [] [], []).
Proof. vm_compute. reflexivity. Qed.

(** A body that is not UTF-8 ends the server with [UnicodeDecodeError]. *)
Example undecodable_body_ends_the_server :
  exec Demo.demo_os
    (serve_forever (rt := Dialogue.runtime) Demo.config
       (new_server (frame (byte_string [255]%nat)
                      ++ frame (Dialogue.body (JObj Dialogue.ping_request)))))
    (Demo.world [] [])
  = (Returned ({| session := INITIAL_SESSION;
                  pending_input := frame (Dialogue.body (JObj Dialogue.ping_request));
                  written := EmptyString |},
               Crashed (PyExc UnicodeDecodeError
                          "'utf-8' codec can't decode byte: invalid start byte")),
     Demo.world [] [], []).
Proof. vm_compute. reflexivity. Qed.

(** A header that does not give a number: [int()] raises in
    [_read_message], outside the [try] of the loop, and the exception
    leaves [serve_forever]. *)
Example content_length_not_a_number :
  exec Demo.demo_os
    (serve_forever (rt := Dialogue.runtime) Demo.config
       (new_server ("Content-Length: 2x" ++ CRLF ++ CRLF ++ "{}")))
    (Demo.world [] [])
  = (Returned ({| session := INITIAL_SESSION; pending_input := "{}";
                  written := EmptyString |},
               Crashed (PyExc ValueError "invalid literal for int() with base 10: '2x'")),
     Demo.world [] [], []).
Proof. vm_compute. reflexivity. Qed.

(** A body that is a number: the test for the method raises. *)
Example number_crashes_the_server :
  exec Demo.demo_os
    (serve_forever (rt := Dialogue.runtime) Demo.config
       (new_server (frame (Dialogue.body (JInt 5)))))
    (Demo.world [] [])
  = (Returned ({| session := INITIAL_SESSION; pending_input := EmptyString;
                  written := EmptyString |},
               Crashed (PyExc TypeError "argument of type 'int' is not iterable")),
     Demo.world [] [], []).
Proof. vm_compute. reflexivity. Qed.

(** ** When a send is reported as done *)

Section SendFacts.
Context {rt : PyRuntime} (cfg : Config) {W : Type} (os : OS W).

Lemma send_after_run_ok (timed_out_message failed_message : string)
    (arguments : JSONDict) (r : CommandResult) :
  dict_get (send_after_run cfg timed_out_message failed_message arguments r) "ok"
  = Some (JBool true) ->
  reports_sent cfg arguments
    (send_after_run cfg timed_out_message failed_message arguments r) r.
Proof.
  unfold send_after_run, reports_sent.
  destruct (timed_out r); [simpl; discriminate|].
  destruct (returncode r =? 0)%Z eqn:Hrc; cbn [negb]; [|simpl; discriminate].
  intros _. apply Z.eqb_eq in Hrc. split; [exact Hrc|]. split; [reflexivity|].
  split; [reflexivity|]. split; [reflexivity|]. split; [reflexivity|].
  unfold meta_field, with_stderr_trace. cbn [dict_get String.eqb Ascii.eqb Bool.eqb].
  destruct (arg_trace_ax cfg arguments && nonempty (strip (stderr r)));
    repeat split; reflexivity.
Qed.

Lemma send_after_run_zero (timed_out_message failed_message : string)
    (arguments : JSONDict) (r : CommandResult) :
  returncode r = 0 -> timed_out r = false ->
  dict_get (send_after_run cfg timed_out_message failed_message arguments r) "ok"
  = Some (JBool true).
Proof.
  intros Hrc Hto. unfold send_after_run. rewrite Hto, Hrc. reflexivity.
Qed.

Lemma run_zero_in_time (args : list string) (limit : Q) (w w1 : W) (r : CommandResult)
    (trace : list event) :
  exec os (run args limit) w = (Returned r, w1, trace) -> returncode r = 0 ->
  timed_out r = false.
Proof.
  intros Hexec Hrc. destruct (timed_out r) eqn:Hto; [|reflexivity].
  assert (Hr : result_of os (run args limit) w = Returned r).
  { unfold result_of. rewrite Hexec. reflexivity. }
  pose proof (run_timed_out_status os _ _ w Hr Hto) as H124.
  rewrite Hrc in H124. discriminate H124.
Qed.

End SendFacts.

(** X17.  The sending tools never report a send that did not happen.  A
    payload with [ok] true comes only from a call that was not asked to
    confirm and whose one process was started, was waited for and exited
    with status 0 before its time limit, never killed; the payload then
    carries [sent] true, the trimmed chat, the standard output and the
    latency of that very run, and the standard error only when tracing was
    asked for and there is some.  For the image tool the run is the one of
    [send-image], made after the tool looked at the file and found it, in
    the state that look left.  Conversely a run that exits 0 is reported as
    a success by either tool, once the arguments are there, no confirmation
    is asked for and, for the image tool, the file exists. *)
Theorem sent_means_exit_zero {rt : PyRuntime} (cfg : Config) {W : Type} (os : OS W)
    (w : W) (arguments : JSONDict) :
  let send_limit := if arg_deep_recovery cfg arguments then 18 # 1 else 10 # 1 in
  let image_limit := if arg_deep_recovery cfg arguments then 20 # 1 else 12 # 1 in
  let path := arg_image_path arguments in
  (forall payload w' trace,
     exec os (_call_kmsg_send cfg arguments) w = (Returned payload, w', trace) ->
     dict_get payload "ok" = Some (JBool true) ->
     arg_confirm arguments = false
     /\ exists r proc,
          exec os (run (send_cmd cfg arguments) send_limit) w = (Returned r, w', trace)
          /\ trace = [EvClock; EvPopen (send_cmd cfg arguments);
                      EvCommunicate proc send_limit; EvClock]
          /\ reports_sent cfg arguments payload r)
  /\ (forall payload w' trace,
        exec os (_call_kmsg_send_image cfg arguments) w = (Returned payload, w', trace) ->
        dict_get payload "ok" = Some (JBool true) ->
        arg_confirm arguments = false
        /\ fst (os_isfile os path w) = true
        /\ exists r proc tail,
             exec os (run (send_image_cmd cfg arguments) image_limit)
               (snd (os_isfile os path w))
             = (Returned r, w', tail)
             /\ tail = [EvClock; EvPopen (send_image_cmd cfg arguments);
                        EvCommunicate proc image_limit; EvClock]
             /\ trace = EvIsFile path :: tail
             /\ reports_sent cfg arguments payload r)
  /\ (forall r w' trace,
        nonempty (arg_chat arguments) = true ->
        nonempty (arg_message arguments) = true ->
        arg_confirm arguments = false ->
        exec os (run (send_cmd cfg arguments) send_limit) w = (Returned r, w', trace) ->
        returncode r = 0 ->
        exists payload,
          exec os (_call_kmsg_send cfg arguments) w = (Returned payload, w', trace)
          /\ dict_get payload "ok" = Some (JBool true))
  /\ (forall r w' tail,
        nonempty (arg_chat arguments) = true ->
        nonempty path = true ->
        arg_confirm arguments = false ->
        fst (os_isfile os path w) = true ->
        exec os (run (send_image_cmd cfg arguments) image_limit)
          (snd (os_isfile os path w))
        = (Returned r, w', tail) ->
        returncode r = 0 ->
        exists payload,
          exec os (_call_kmsg_send_image cfg arguments) w
          = (Returned payload, w', EvIsFile path :: tail)
          /\ dict_get payload "ok" = Some (JBool true)).
Proof.
  intros send_limit image_limit path. split; [|split; [|split]].
  - intros payload w' trace. rewrite exec_call_kmsg_send.
    destruct (negb (nonempty (arg_chat arguments))
              || negb (nonempty (arg_message arguments)));
      [intros E; inversion E; subst; simpl; discriminate|].
    destruct (arg_confirm arguments);
      [intros E; inversion E; subst; simpl; discriminate|].
    fold send_limit.
    destruct (exec os (run (send_cmd cfg arguments) send_limit) w)
      as [[[r|exc] w1] tr1] eqn:Hrun; [|discriminate].
    intros E Hok; inversion E; subst. split; [reflexivity|].
    pose proof (send_after_run_ok cfg _ _ _ _ Hok) as Hsent.
    destruct (run_exit_zero os _ _ _ Hrun (proj1 Hsent)) as [proc Htrace].
    exists r, proc. split; [reflexivity|]. split; [exact Htrace | exact Hsent].
  - intros payload w' trace. rewrite exec_call_kmsg_send_image.
    destruct (negb (nonempty (arg_chat arguments))
              || negb (nonempty (arg_image_path arguments)));
      [intros E; inversion E; subst; simpl; discriminate|].
    destruct (arg_confirm arguments);
      [intros E; inversion E; subst; simpl; discriminate|].
    fold path. destruct (os_isfile os path w) as [is_file w0].
    destruct is_file; cbn [negb]; [|intros E; inversion E; subst; simpl; discriminate].
    fold image_limit. cbn [fst snd].
    destruct (exec os (run (send_image_cmd cfg arguments) image_limit) w0)
      as [[[r|exc] w1] tr1] eqn:Hrun; [|discriminate].
    intros E Hok; inversion E; subst. split; [reflexivity|]. split; [reflexivity|].
    pose proof (send_after_run_ok cfg _ _ _ _ Hok) as Hsent.
    destruct (run_exit_zero os _ _ _ Hrun (proj1 Hsent)) as [proc Htrace].
    exists r, proc, tr1. split; [reflexivity|]. split; [exact Htrace|].
    split; [reflexivity | exact Hsent].
  - intros r w' trace Hchat Hmessage Hconfirm Hrun Hrc.
    rewrite exec_call_kmsg_send, Hchat, Hmessage, Hconfirm. cbn [negb orb].
    fold send_limit. rewrite Hrun. eexists. split; [reflexivity|].
    apply send_after_run_zero; [exact Hrc | apply (run_zero_in_time os _ _ _ Hrun Hrc)].
  - intros r w' tail Hchat Hpath Hconfirm Hfile Hrun Hrc.
    rewrite exec_call_kmsg_send_image, Hchat. fold path.
    rewrite Hpath, Hconfirm. cbn [negb orb].
    destruct (os_isfile os path w) as [is_file w0]. cbn [fst snd] in Hfile, Hrun.
    rewrite Hfile. cbn [negb]. fold image_limit. rewrite Hrun.
    eexists. split; [reflexivity|].
    apply send_after_run_zero; [exact Hrc | apply (run_zero_in_time os _ _ _ Hrun Hrc)].
Qed.

(** A program that prints and exits 1 is not reported as sent. *)
Example failed_send_is_not_sent :
  dict_get
    match result_of Demo.demo_os
            (_call_kmsg_send (rt := Demo.runtime) Demo.config
               [("chat", JStr "Alice"); ("message", JStr "hi")])
            (Demo.world [Demo.Exits 1 "sent" EmptyString (1 # 2)] []) with
    | Returned payload => payload
    | Raised _ => []
    end "ok"
  = Some (JBool false).
Proof. vm_compute. reflexivity. Qed.

(** ** [initialize] without the program *)

(** X18.  A missing program does not keep the server from starting.  When
    the operating system refuses to start [--version] with an [OSError],
    [initialize] is still answered with a result, not an error, and the
    session is initialized.  The result names the protocol version and the
    configured server version, and its start-up check says what happened:
    the stage [version], the text of the error as [stderr], the path that
    was tried and a note that the readiness check failed.  The process was
    asked for once, and [status] was never tried. *)
Theorem initialize_without_binary {rt : PyRuntime} (cfg : Config) {W : Type}
    (os : OS W) (w : W) (session : Session) (request : JSONDict) (text : string) :
  method_of request = JStr "initialize" ->
  fst (os_popen os [kmsg_bin cfg; "--version"] (snd (os_clock os w)))
  = inl (PyExc OSError text) ->
  exists w' detail,
    exec os (_handle_request cfg session request) w
    = (Returned ({| initialized := true; shutdown := shutdown session |},
                 Returned (Some (_json_rpc_result (get_or request "id" JNull)
                                   (initialize_result cfg detail)))),
       w', [EvClock; EvPopen [kmsg_bin cfg; "--version"]; EvClock])
    /\ dict_get (initialize_result cfg detail) "protocolVersion"
       = Some (JStr PROTOCOL_VERSION)
    /\ dict_get detail "stage" = Some (JStr "version")
    /\ dict_get detail "stderr" = Some (JStr text)
    /\ dict_get detail "kmsg_bin" = Some (JStr (kmsg_bin cfg))
    /\ dict_get detail "note"
       = Some (JStr "MCP server started, but kmsg readiness check failed").
Proof.
  intros Hmethod Hrefused.
  destruct (exec_run_refused os [kmsg_bin cfg; "--version"] (2 # 1) w Hrefused)
    as (latency & w1 & Hrun).
  rewrite exec_handle_request. cbv zeta. rewrite Hmethod.
  cbn [is_str String.eqb Ascii.eqb Bool.eqb].
  unfold check_ready. rewrite exec_bind, Hrun. cbn [returncode Z.eqb negb exec].
  do 2 eexists. split; [reflexivity|]. repeat split; reflexivity.
Qed.

(** No program at all: the scripted system answers every start with
    [OSError]. *)
Lemma initialize_without_binary_witness :
  exists w' detail,
    exec Demo.demo_os
      (_handle_request (rt := Demo.runtime) Demo.config INITIAL_SESSION
         Dialogue.initialize_request)
      (Demo.world [] [])
    = (Returned ({| initialized := true; shutdown := false |},
                 Returned (Some (_json_rpc_result (JInt 1)
                                   (initialize_result Demo.config detail)))),
       w', [EvClock; EvPopen ["/usr/local/bin/kmsg"; "--version"]; EvClock])
    /\ dict_get (initialize_result Demo.config detail) "protocolVersion"
       = Some (JStr PROTOCOL_VERSION)
    /\ dict_get detail "stage" = Some (JStr "version")
    /\ dict_get detail "stderr" = Some (JStr "[Errno 2] No such file or directory")
    /\ dict_get detail "kmsg_bin" = Some (JStr "/usr/local/bin/kmsg")
    /\ dict_get detail "note"
       = Some (JStr "MCP server started, but kmsg readiness check failed").
Proof.
  exact (@initialize_without_binary Demo.runtime Demo.config _ Demo.demo_os
           (Demo.world [] []) INITIAL_SESSION Dialogue.initialize_request
           "[Errno 2] No such file or directory" eq_refl eq_refl).
Defined.

(** ** The schemas and the validation *)

Section SchemaFacts.
Context {rt : PyRuntime}.

(** An argument that is missing, or is the empty text, trims to the empty
    text. *)
Lemma blank_argument (arguments : JSONDict) (key : string) :
  dict_get arguments key = None \/ dict_get arguments key = Some (JStr EmptyString) ->
  nonempty (strip (py_str (get_or arguments key (JStr EmptyString)))) = false.
Proof. unfold get_or. intros [-> | ->]; reflexivity. Qed.

End SchemaFacts.

(** X19.  What the catalogue declares as required is what the tools
    insist on.  For every tool of [tools/list] and every name in the
    [required] list of its schema, a call of that tool whose arguments lack
    that member, or give it as the empty text, is answered with the
    envelope INVALID_ARGUMENT, marked [isError], and nothing is asked of
    the operating system. *)
Theorem required_arguments_enforced {rt : PyRuntime} (cfg : Config) {W : Type}
    (os : OS W) (w : W) (tool : json) (field : string) (fields arguments : JSONDict) :
  In tool (_tool_definitions cfg) ->
  In (JStr field) (required_arguments tool) ->
  get_or fields "name" JNull = tool_name tool ->
  get_or fields "arguments" (JObj []) = JObj arguments ->
  dict_get arguments field = None \/ dict_get arguments field = Some (JStr EmptyString) ->
  exists payload,
    exec os (_handle_tools_call cfg (JObj fields)) w
    = (Returned (tool_result payload), w, [])
    /\ error_field "code" payload = Some (JStr "INVALID_ARGUMENT")
    /\ dict_get (tool_result payload) "isError" = Some (JBool true).
Proof.
  intros Htool Hfield Hname Hargs Hblank.
  rewrite exec_handle_tools_call, Hargs, Hname. cbv zeta.
  destruct Htool as [<-|[<-|[<-|[]]]]; cbn in Hfield.
  - destruct Hfield as [E|[]]. inversion E; subst field.
    cbn [tool_name tool_definition get_or dict_get String.eqb Ascii.eqb Bool.eqb is_str].
    unfold _call_kmsg_read, arg_chat. rewrite (blank_argument _ _ Hblank).
    cbn [negb exec]. eexists. split; [reflexivity|]. split; reflexivity.
  - cbn [tool_name tool_definition get_or dict_get String.eqb Ascii.eqb Bool.eqb is_str].
    rewrite exec_call_kmsg_send.
    destruct Hfield as [E|[E|[]]]; inversion E; subst field.
    + unfold arg_chat. rewrite (blank_argument _ _ Hblank). cbn [negb orb].
      eexists. split; [reflexivity|]. split; reflexivity.
    + unfold arg_message at 1. rewrite (blank_argument _ _ Hblank).
      rewrite orb_true_r. eexists. split; [reflexivity|]. split; reflexivity.
  - cbn [tool_name tool_definition get_or dict_get String.eqb Ascii.eqb Bool.eqb is_str].
    rewrite exec_call_kmsg_send_image.
    destruct Hfield as [E|[E|[]]]; inversion E; subst field.
    + unfold arg_chat. rewrite (blank_argument _ _ Hblank). cbn [negb orb].
      eexists. split; [reflexivity|]. split; reflexivity.
    + unfold arg_image_path at 1. rewrite (blank_argument _ _ Hblank).
      rewrite orb_true_r. eexists. split; [reflexivity|]. split; reflexivity.
Qed.

(** [kmsg_send] without a message. *)
Lemma required_arguments_enforced_witness :
  exists payload,
    exec Demo.demo_os
      (_handle_tools_call (rt := Demo.runtime) Demo.config
         (JObj [("name", JStr "kmsg_send");
                ("arguments", JObj [("chat", JStr "Alice")])]))
      (Demo.world [] [])
    = (Returned (tool_result (rt := Demo.runtime) payload), Demo.world [] [], [])
    /\ error_field "code" payload = Some (JStr "INVALID_ARGUMENT")
    /\ dict_get (tool_result (rt := Demo.runtime) payload) "isError" = Some (JBool true).
Proof.
  exact (@required_arguments_enforced Demo.runtime Demo.config _ Demo.demo_os
           (Demo.world [] [])
           (nth 1 (_tool_definitions Demo.config) JNull) "message"
           [("name", JStr "kmsg_send"); ("arguments", JObj [("chat", JStr "Alice")])]
           [("chat", JStr "Alice")]
           (or_intror (or_introl eq_refl)) (or_intror (or_introl eq_refl))
           eq_refl eq_refl (or_introl eq_refl)).
Defined.

(** ** What the server ever starts *)

Section LoopTraceFacts.
Context {rt : PyRuntime} (cfg : Config) {W : Type} (os : OS W).

(** One request: the trace is bounded, and something happens only in a
    session that is initialized when the request is done. *)
Lemma handle_request_trace (session session' : Session) (request : JSONDict)
    (answer : outcome (option JSONDict)) (w w' : W) (trace : list event) :
  exec os (_handle_request cfg session request) w
  = (Returned (session', answer), w', trace) ->
  bounded_trace cfg trace /\ (trace <> [] -> initialized session' = true).
Proof.
  rewrite exec_handle_request. cbv zeta.
  destruct (is_str (method_of request) "initialize").
  { pose proof (check_ready_bounded cfg os w) as B. unfold trace_of in B.
    destruct (exec os (check_ready cfg) w) as [[probe w1] tr].
    intros E; inversion E; subst. split; [exact B | reflexivity]. }
  destruct (is_str (method_of request) "notifications/initialized");
    [intros E; inversion E; subst; split; [apply bounded_nil | intros H; destruct (H eq_refl)]|].
  destruct (is_str (method_of request) "ping");
    [intros E; inversion E; subst; split; [apply bounded_nil | intros H; destruct (H eq_refl)]|].
  destruct (initialized session) eqn:Hinit; cbn [negb];
    [|intros E; inversion E; subst; split; [apply bounded_nil | intros H; destruct (H eq_refl)]].
  destruct (is_str (method_of request) "tools/list");
    [intros E; inversion E; subst; split; [apply bounded_nil | intros H; destruct (H eq_refl)]|].
  destruct (is_str (method_of request) "tools/call").
  { pose proof (tools_call_bounded cfg os (get_or request "params" (JObj [])) w) as B.
    unfold trace_of in B.
    destruct (exec os (_handle_tools_call cfg (get_or request "params" (JObj []))) w)
      as [[called w1] tr].
    intros E; inversion E; subst. split; [exact B | intros _; exact Hinit]. }
  destruct (is_str (method_of request) "shutdown");
    [intros E; inversion E; subst; split; [apply bounded_nil | intros H; destruct (H eq_refl)]|].
  destruct (is_str (method_of request) "exit");
    intros E; inversion E; subst; (split; [apply bounded_nil | intros H; destruct (H eq_refl)]).
Qed.

(** The whole loop: every process is the configured binary, every wait
    with a limit has a limit of the source, the waits without one are for
    the processes killed, and something happens only in a session that is
    initialized in the end. *)
Lemma serve_loop_trace (fuel : nat) :
  forall (srv srv' : Server) (e : ending) (w w' : W) (trace : list event),
    exec os (serve_loop cfg fuel srv) w = (Returned (srv', e), w', trace) ->
    Forall (fun argv => hd_error argv = Some (kmsg_bin cfg)) (spawned trace)
    /\ Forall (fun limit => In limit TIME_LIMITS) (waited trace)
    /\ drained trace = killed trace
    /\ (trace <> [] -> initialized (session srv') = true)
    /\ (initialized (session srv) = true -> initialized (session srv') = true).
Proof.
  induction fuel as [|fuel IH]; intros srv srv' e w w' trace; cbn [serve_loop].
  { intros E; inversion E; subst. simpl.
    repeat split; auto; intros H; destruct (H eq_refl). }
  assert (Hhere : forall (e0 : ending) (rest : string),
             (Returned ({| session := session srv; pending_input := rest;
                           written := written srv |}, e0), w, @nil event)
             = (Returned (srv', e), w', trace) ->
             Forall (fun argv => hd_error argv = Some (kmsg_bin cfg)) (spawned trace)
             /\ Forall (fun limit => In limit TIME_LIMITS) (waited trace)
             /\ drained trace = killed trace
             /\ (trace <> [] -> initialized (session srv') = true)
             /\ (initialized (session srv) = true -> initialized (session srv') = true)).
  { intros e0 rest E; inversion E; subst. simpl.
    repeat split; auto; intros H; destruct (H eq_refl). }
  destruct (shutdown (session srv)).
  { intros E; inversion E; subst. simpl.
    repeat split; auto; intros H; destruct (H eq_refl). }
  destruct (_read_message (pending_input srv)) as [[message|exc] rest];
    [|apply Hhere].
  assert (Hon : exec os (serve_loop cfg fuel
                           {| session := session srv; pending_input := rest;
                              written := written srv |}) w
                = (Returned (srv', e), w', trace) ->
                Forall (fun argv => hd_error argv = Some (kmsg_bin cfg)) (spawned trace)
                /\ Forall (fun limit => In limit TIME_LIMITS) (waited trace)
                /\ drained trace = killed trace
                /\ (trace <> [] -> initialized (session srv') = true)
                /\ (initialized (session srv) = true -> initialized (session srv') = true)).
  { intros E. apply (IH _ _ _ _ _ _ E). }
  destruct message as [|b|z|f|s|items|fields]; cbn [has_method]; try apply Hhere.
  - destruct (contains "method" s); [apply Hhere | apply Hon].
  - destruct (existsb (fun item => is_str item "method") items); [apply Hhere | apply Hon].
  - destruct (existsb (fun kv => String.eqb (fst kv) "method") fields); [|apply Hon].
    cbn [session written]. rewrite exec_bind.
    destruct (exec os (_handle_request cfg (session srv) fields) w)
      as [[[[s1 answer]|exc] w1] tr1] eqn:Hreq; [|discriminate].
    cbv beta zeta. cbn [fst snd session written pending_input].
    destruct (handle_request_trace _ _ _ Hreq) as ((A1 & B1 & _ & _ & D1) & C1).
    pose proof (handle_request_keeps_flags cfg os _ _ _ Hreq) as [K _].
    assert (Hgo : forall out,
               (let '(r, w2, tr2) :=
                  exec os (serve_loop cfg fuel
                             {| session := s1; pending_input := rest; written := out |}) w1 in
                (r, w2, (tr1 ++ tr2)%list))
               = (Returned (srv', e), w', trace) ->
               Forall (fun argv => hd_error argv = Some (kmsg_bin cfg)) (spawned trace)
               /\ Forall (fun limit => In limit TIME_LIMITS) (waited trace)
               /\ drained trace = killed trace
               /\ (trace <> [] -> initialized (session srv') = true)
               /\ (initialized (session srv) = true ->
                   initialized (session srv') = true)).
    { intros out.
      destruct (exec os (serve_loop cfg fuel
                           {| session := s1; pending_input := rest; written := out |}) w1)
        as [[r w2] tr2] eqn:Hloop.
      intros E; inversion E; subst.
      destruct (IH _ _ _ _ _ _ Hloop) as (A2 & B2 & D2 & C2 & F2). cbn [session] in F2.
      rewrite spawned_app, waited_app, drained_app, killed_app, D1, D2.
      split; [apply Forall_app; split; assumption|].
      split; [apply Forall_app; split; assumption|].
      split; [reflexivity|]. split.
      - intros Hne. destruct tr1 as [|ev tr1].
        + apply C2. exact Hne.
        + apply F2, C1. discriminate.
      - intros Hinit. apply F2, K, Hinit. }
    destruct (response_for (get_or fields "id" JNull) answer) as [response|];
      [|apply Hgo].
    destruct (_write_message (JObj response)) as [bytes|exc]; [apply Hgo|].
    cbn [exec]. rewrite app_nil_r. intros E; inversion E; subst. cbn [session].
    split; [exact A1|]. split; [exact B1|]. split; [exact D1|].
    split; [exact C1 | exact K].
Qed.

End LoopTraceFacts.

(** X20.  As long as it serves, the server starts nothing but the
    configured binary: in every process [serve_forever] starts, on any
    input, the program is [kmsg_bin], never a word of a request.  Every
    wait that has a time limit has one of the limits of the source, none
    above 20 seconds; the waits that have none are the [communicate()]
    after a kill, one for each process killed.  And the environment is
    touched only in a session that is initialized when the loop ends: a
    client that never initializes makes the server start nothing. *)
Theorem server_runs_only_kmsg {rt : PyRuntime} (cfg : Config) {W : Type} (os : OS W)
    (w : W) (srv : Server) :
  let trace := trace_of os (serve_forever cfg srv) w in
  Forall (fun argv => hd_error argv = Some (kmsg_bin cfg)) (spawned trace)
  /\ Forall (fun limit => In limit TIME_LIMITS /\ (limit <= 20 # 1)%Q) (waited trace)
  /\ drained trace = killed trace
  /\ (trace <> [] ->
      exists srv' e, result_of os (serve_forever cfg srv) w = Returned (srv', e)
                     /\ initialized (session srv') = true).
Proof.
  intros trace.
  destruct (serve_loop_ends cfg os (fuel := S (String.length (pending_input srv))) srv w
              ltac:(lia))
    as (srv' & e & w' & tr & Hexec & _ & _).
  destruct (serve_loop_trace cfg os _ _ _ Hexec) as (A & B & D & C & _).
  unfold trace, trace_of, result_of, serve_forever. rewrite Hexec. cbn [fst snd].
  split; [exact A|]. split; [|split; [exact D|]].
  - apply Forall_forall. intros limit Hin. rewrite Forall_forall in B.
    split; [apply B, Hin|]. specialize (B limit Hin). unfold TIME_LIMITS in B. simpl in B.
    repeat (destruct B as [<-|B]; [unfold Qle; simpl; lia|]). contradiction.
  - intros Hne. exists srv', e. split; [reflexivity | apply C, Hne].
Qed.
